(** * Job-application tracker: classification and deduplicated ingestion

    A shallow embedding of the pipeline of the tracker:
    - [EmailClassifier] (app/classification/email_classifier.py),
    - [EmailProcessor._extract_company_info], [_extract_position] and
      [_parse_email_date] (app/gmail/email_processor.py),
    - [ExcelTracker] (app/excel/tracker.py),
    - the constants of [Settings] (app/config/settings.py),
    - the search of [EmailProcessor] over the listed messages, with
      [_process_message], [_get_header_value] and [_extract_email_body],
    - [EmailClassifier.classify_applications],
    - the scan handler of the server (app/mcp/server.py).

    Python strings are modelled as [string] restricted to ASCII text: the
    case mappings, the whitespace class and the letter class below are the
    ASCII fragments of [str.lower], [str.isspace] and [str.isalpha]; bytes
    above 127 are left alone by every mapping.  The libraries the code calls
    ([re], [datetime], [openpyxl]) are modelled at the level the code uses
    them; each model says what it covers. *)

From Stdlib Require Import Ascii String List Bool Arith PArith Lia.
From Stdlib Require Import DecimalString.
From stdpp Require Import base option list gmap strings fin_maps.

Set Warnings "-notation-for-abbreviation,-abstract-large-number".

Local Open Scope string_scope.
Local Open Scope list_scope.
Local Open Scope nat_scope.

(** ** Exceptions and fallible results *)

Inductive exn : Type :=
  | KeyError (key : string)
  | ReError
  | AttributeError
  | IndexError
  | ValueError
  | OSError.

Inductive result (A : Type) : Type :=
  | Ok (a : A)
  | Raise (e : exn).
Arguments Ok {A} a.
Arguments Raise {A} e.

#[global] Instance result_ret : MRet result := fun _ a => Ok a.
#[global] Instance result_bind : MBind result := fun _ _ f x =>
  match x with
  | Ok a => f a
  | Raise e => Raise e
  end.

Definition is_ok {A} (x : result A) : bool :=
  match x with Ok _ => true | Raise _ => false end.

(** ** Python string operations (ASCII fragment) *)

Module PyStr.

Definition code (c : ascii) : nat := nat_of_ascii c.

Definition is_upper (c : ascii) : bool := (65 <=? code c) && (code c <=? 90).
Definition is_lower (c : ascii) : bool := (97 <=? code c) && (code c <=? 122).
Definition is_alpha (c : ascii) : bool := is_upper c || is_lower c.
Definition is_digit (c : ascii) : bool := (48 <=? code c) && (code c <=? 57).

(** [str.isspace] on the ASCII range: TAB, LF, VT, FF, CR, the four
    separators 0x1c-0x1f and the space. *)
Definition is_space (c : ascii) : bool :=
  ((9 <=? code c) && (code c <=? 13)) ||
  ((28 <=? code c) && (code c <=? 31)) ||
  (code c =? 32).

Definition lower_char (c : ascii) : ascii :=
  if is_upper c then ascii_of_nat (code c + 32) else c.
Definition upper_char (c : ascii) : ascii :=
  if is_lower c then ascii_of_nat (code c - 32) else c.

Definition chars (s : string) : list ascii := list_ascii_of_string s.
Definition str (l : list ascii) : string := string_of_list_ascii l.

(** [s.lower()] *)
Definition lower (s : string) : string := str (map lower_char (chars s)).

(** [s.title()]: a cased character that follows an uncased one is
    upper-cased, one that follows a cased one is lower-cased. *)
Fixpoint title_chars (prev_cased : bool) (l : list ascii) : list ascii :=
  match l with
  | [] => []
  | c :: l' =>
      (if prev_cased then lower_char c else upper_char c)
        :: title_chars (is_alpha c) l'
  end.
Definition title (s : string) : string := str (title_chars false (chars s)).

(** [s.strip()] *)
Fixpoint lstrip_chars (l : list ascii) : list ascii :=
  match l with
  | c :: l' => if is_space c then lstrip_chars l' else l
  | [] => []
  end.
Definition strip_chars (l : list ascii) : list ascii :=
  rev (lstrip_chars (rev (lstrip_chars l))).
Definition strip (s : string) : string := str (strip_chars (chars s)).

(** [sep] is a prefix of [l]. *)
Fixpoint starts_with (sep l : list ascii) : bool :=
  match sep, l with
  | [], _ => true
  | a :: sep', b :: l' => if Ascii.eqb a b then starts_with sep' l' else false
  | _ :: _, [] => false
  end.

(** [sub in s] *)
Fixpoint contains_chars (sub l : list ascii) : bool :=
  starts_with sub l ||
  match l with
  | [] => false
  | _ :: l' => contains_chars sub l'
  end.
Definition contains (sub s : string) : bool := contains_chars (chars sub) (chars s).

(** [s.split(sep)] for a non-empty [sep]: the pieces between the
    non-overlapping occurrences of [sep], scanned left to right.  [skip]
    counts the characters of an occurrence still to be dropped and [acc]
    holds the current piece, reversed. *)
Fixpoint split_chars (sep : list ascii) (skip : nat) (acc : list ascii)
    (l : list ascii) : list (list ascii) :=
  match l with
  | [] => [rev acc]
  | c :: l' =>
      match skip with
      | S k => split_chars sep k acc l'
      | O =>
          if starts_with sep l
          then rev acc :: split_chars sep (length sep - 1) [] l'
          else split_chars sep 0 (c :: acc) l'
      end
  end.
Definition split (sep s : string) : list string :=
  map str (split_chars (chars sep) 0 [] (chars s)).

End PyStr.

(** ** Regular expressions: the fragment of Python's [re] the tracker uses

    Patterns are kept as the source writes them (strings) and compiled by
    [Re.compile].  The fragment covers literals, [.], the escapes
    [\s \d \w] (and their negations), escaped punctuation, character classes
    with ranges, capturing and non-capturing groups, alternation and the
    quantifiers [* + ?] with their lazy forms.  Matching is the backtracking
    search of [re.search] with the IGNORECASE flag: the leftmost start
    position wins, alternatives are tried left to right, greedy quantifiers
    try one more iteration first and lazy ones try to stop first.  Anything
    outside the fragment is rejected by [Re.compile]. *)

Module Re.

Inductive cls_item : Type :=
  | CChar (c : ascii)
  | CRange (lo hi : ascii)
  | CSpace
  | CDigit
  | CWord.

Inductive regex : Type :=
  | Empty
  | Lit (c : ascii)
  | Dot
  | Class (negated : bool) (items : list cls_item)
  | Seq (r1 r2 : regex)
  | Alt (r1 r2 : regex)
  | Repeat (r : regex) (lo : nat) (hi : option nat) (greedy : bool)
  | Group (n : nat) (r : regex).

(** A match object: the span and the captured groups, most recent first. *)
Record re_match : Type := MkMatch {
  m_start : nat;
  m_end : nat;
  m_groups : list (nat * string)
}.

(** [match.group(n)] for [n >= 1]; [None] when the group took no part. *)
Fixpoint assoc {A} (n : nat) (l : list (nat * A)) : option A :=
  match l with
  | [] => None
  | (k, v) :: l' => if k =? n then Some v else assoc n l'
  end.
Definition group (m : re_match) (n : nat) : option string := assoc n (m_groups m).

(** *** Matching one character *)

Definition item_matches (it : cls_item) (a : ascii) : bool :=
  match it with
  | CChar c => Ascii.eqb a c
  | CRange lo hi => (PyStr.code lo <=? PyStr.code a) && (PyStr.code a <=? PyStr.code hi)
  | CSpace => PyStr.is_space a
  | CDigit => PyStr.is_digit a
  | CWord => PyStr.is_alpha a || PyStr.is_digit a || Ascii.eqb a "_"
  end.

(** Under IGNORECASE a class item accepts a character when it accepts the
    character itself or one of its case variants. *)
Definition item_matches_i (it : cls_item) (a : ascii) : bool :=
  item_matches it a
  || item_matches it (PyStr.lower_char a)
  || item_matches it (PyStr.upper_char a).

Definition class_matches (negated : bool) (items : list cls_item) (a : ascii) : bool :=
  xorb negated (existsb (fun it => item_matches_i it a) items).

Definition lit_matches (c a : ascii) : bool :=
  Ascii.eqb (PyStr.lower_char a) (PyStr.lower_char c).

Definition dot_matches (a : ascii) : bool := negb (PyStr.code a =? 10).

(** *** The backtracking matcher, in continuation-passing style

    [mtch r s cs k] matches [r] at the front of [s] with the groups [cs]
    captured so far and hands the rest of the text to [k]; a failure of [k]
    makes the matcher try its next alternative. *)

Definition caps : Type := list (nat * list ascii).

Definition hi_allows (hi : option nat) (cnt : nat) : bool :=
  match hi with
  | None => true
  | Some h => cnt <? h
  end.

Section Matcher.
Context {R : Type}.

Definition one_char (p : ascii -> bool) (s : list ascii) (cs : caps)
    (k : list ascii -> caps -> option R) : option R :=
  match s with
  | a :: s' => if p a then k s' cs else None
  | [] => None
  end.

(** The iterations of a quantifier over [body]: [cnt] iterations are done;
    an iteration that consumes nothing ends the loop, so [fuel], the length
    of the text left at the start, is never exhausted before the text. *)
Fixpoint rep_loop
    (body : list ascii -> caps -> (list ascii -> caps -> option R) -> option R)
    (lo : nat) (hi : option nat) (greedy : bool)
    (k : list ascii -> caps -> option R)
    (fuel cnt : nat) (s : list ascii) (cs : caps) {struct fuel} : option R :=
  let stop := fun _ : unit => if lo <=? cnt then k s cs else None in
  match fuel with
  | O => stop tt
  | S fuel' =>
      let more := fun _ : unit =>
        if hi_allows hi cnt
        then body s cs (fun s1 cs1 =>
               if length s1 <? length s
               then rep_loop body lo hi greedy k fuel' (S cnt) s1 cs1
               else None)
        else None in
      if greedy then
        match more tt with
        | Some x => Some x
        | None => stop tt
        end
      else
        match stop tt with
        | Some x => Some x
        | None => more tt
        end
  end.

Fixpoint mtch (r : regex) (s : list ascii) (cs : caps)
    (k : list ascii -> caps -> option R) {struct r} : option R :=
  match r with
  | Empty => k s cs
  | Lit c => one_char (lit_matches c) s cs k
  | Dot => one_char dot_matches s cs k
  | Class negated items => one_char (class_matches negated items) s cs k
  | Seq r1 r2 => mtch r1 s cs (fun s1 cs1 => mtch r2 s1 cs1 k)
  | Alt r1 r2 =>
      match mtch r1 s cs k with
      | Some x => Some x
      | None => mtch r2 s cs k
      end
  | Group n r1 =>
      mtch r1 s cs
        (fun s1 cs1 => k s1 ((n, firstn (length s - length s1) s) :: cs1))
  | Repeat r1 lo hi greedy =>
      rep_loop (mtch r1) lo hi greedy k (length s) 0 s cs
  end.

End Matcher.

Definition finish (s1 : list ascii) (cs1 : caps) : option (list ascii * caps) :=
  Some (s1, cs1).

(** [re.search]: the first start position, left to right, at which the
    pattern matches; position [i] is the number of characters skipped. *)
Fixpoint search_from (r : regex) (i : nat) (s : list ascii) : option re_match :=
  match mtch r s [] finish with
  | Some (s1, cs1) =>
      Some (MkMatch i (i + (length s - length s1))
              (map (fun '(n, g) => (n, PyStr.str g)) cs1))
  | None =>
      match s with
      | [] => None
      | _ :: s' => search_from r (S i) s'
      end
  end.

Definition search (r : regex) (text : string) : option re_match :=
  search_from r 0 (PyStr.chars text).

(** *** Compiling a pattern string

    A recursive-descent parser; [fuel] bounds the depth of the descent and
    [g] is the number the next capturing group receives (groups are numbered
    by their opening parenthesis, from 1). *)

Definition is_punct (c : ascii) : bool :=
  (PyStr.code c <? 128) && negb (PyStr.is_alpha c || PyStr.is_digit c).

(** The atom an escape [\c] stands for outside a class. *)
Definition escape_atom (c : ascii) : option regex :=
  if Ascii.eqb c "s" then Some (Class false [CSpace])
  else if Ascii.eqb c "S" then Some (Class true [CSpace])
  else if Ascii.eqb c "d" then Some (Class false [CDigit])
  else if Ascii.eqb c "D" then Some (Class true [CDigit])
  else if Ascii.eqb c "w" then Some (Class false [CWord])
  else if Ascii.eqb c "W" then Some (Class true [CWord])
  else if Ascii.eqb c "n" then Some (Lit (ascii_of_nat 10))
  else if Ascii.eqb c "t" then Some (Lit (ascii_of_nat 9))
  else if Ascii.eqb c "r" then Some (Lit (ascii_of_nat 13))
  else if is_punct c then Some (Lit c)
  else None.

(** The class item an escape stands for inside [[...]]. *)
Definition escape_item (c : ascii) : option cls_item :=
  if Ascii.eqb c "s" then Some CSpace
  else if Ascii.eqb c "d" then Some CDigit
  else if Ascii.eqb c "w" then Some CWord
  else if Ascii.eqb c "n" then Some (CChar (ascii_of_nat 10))
  else if Ascii.eqb c "t" then Some (CChar (ascii_of_nat 9))
  else if Ascii.eqb c "r" then Some (CChar (ascii_of_nat 13))
  else if is_punct c then Some (CChar c)
  else None.

(** The items of a class up to the closing bracket; [acc] is reversed. *)
Fixpoint parse_class_items (s : list ascii) (acc : list cls_item)
    : option (list cls_item * list ascii) :=
  match s with
  | [] => None
  | c :: t =>
      if Ascii.eqb c "]" then Some (rev acc, t)
      else if Ascii.eqb c "\" then
        match t with
        | e :: t' =>
            match escape_item e with
            | Some it => parse_class_items t' (it :: acc)
            | None => None
            end
        | [] => None
        end
      else
        match t with
        | d :: hi :: t' =>
            if Ascii.eqb d "-" && negb (Ascii.eqb hi "]") then
              if Ascii.eqb hi "\" then None
              else if PyStr.code c <=? PyStr.code hi
                   then parse_class_items t' (CRange c hi :: acc)
                   else None
            else parse_class_items t (CChar c :: acc)
        | _ => parse_class_items t (CChar c :: acc)
        end
  end.

Definition parse_class (s : list ascii) : option (regex * list ascii) :=
  match s with
  | c :: t =>
      if Ascii.eqb c "^"
      then match parse_class_items t [] with
           | Some (items, rest) => Some (Class true items, rest)
           | None => None
           end
      else match parse_class_items s [] with
           | Some (items, rest) => Some (Class false items, rest)
           | None => None
           end
  | [] => None
  end.

(** An optional quantifier after the atom [a]. *)
Definition parse_quant (a : regex) (s : list ascii) : regex * list ascii :=
  match s with
  | q :: t =>
      let '(lazy, rest) :=
        match t with
        | l :: t' => if Ascii.eqb l "?" then (true, t') else (false, t)
        | [] => (false, t)
        end in
      if Ascii.eqb q "*" then (Repeat a 0 None (negb lazy), rest)
      else if Ascii.eqb q "+" then (Repeat a 1 None (negb lazy), rest)
      else if Ascii.eqb q "?" then (Repeat a 0 (Some 1) (negb lazy), rest)
      else (a, s)
  | [] => (a, s)
  end.

Definition is_quant_char (c : ascii) : bool :=
  Ascii.eqb c "*" || Ascii.eqb c "+" || Ascii.eqb c "?".

(** Characters that are neither literals nor handled by the fragment. *)
Definition is_unsupported (c : ascii) : bool :=
  Ascii.eqb c "^" || Ascii.eqb c "$" || Ascii.eqb c "{" || Ascii.eqb c "}".

Definition expect_close (x : option (regex * nat * list ascii))
    (wrap : regex -> regex) : option (regex * nat * list ascii) :=
  match x with
  | Some (r, g, c :: rest) =>
      if Ascii.eqb c ")" then Some (wrap r, g, rest) else None
  | _ => None
  end.

Fixpoint parse_alt (fuel g : nat) (s : list ascii) {struct fuel}
    : option (regex * nat * list ascii) :=
  match fuel with
  | O => None
  | S fuel' =>
      match parse_seq fuel' g s with
      | Some (r1, g1, c :: s1) =>
          if Ascii.eqb c "|" then
            match parse_alt fuel' g1 s1 with
            | Some (r2, g2, s2) => Some (Alt r1 r2, g2, s2)
            | None => None
            end
          else Some (r1, g1, c :: s1)
      | other => other
      end
  end
with parse_seq (fuel g : nat) (s : list ascii) {struct fuel}
    : option (regex * nat * list ascii) :=
  match fuel with
  | O => None
  | S fuel' =>
      match s with
      | [] => Some (Empty, g, [])
      | c :: _ =>
          if Ascii.eqb c "|" || Ascii.eqb c ")" then Some (Empty, g, s)
          else
            match parse_atom fuel' g s with
            | Some (a, g1, s1) =>
                let '(q, s2) := parse_quant a s1 in
                match parse_seq fuel' g1 s2 with
                | Some (Empty, g2, s3) => Some (q, g2, s3)
                | Some (rest, g2, s3) => Some (Seq q rest, g2, s3)
                | None => None
                end
            | None => None
            end
      end
  end
with parse_atom (fuel g : nat) (s : list ascii) {struct fuel}
    : option (regex * nat * list ascii) :=
  match fuel with
  | O => None
  | S fuel' =>
      match s with
      | [] => None
      | c :: t =>
          if Ascii.eqb c "(" then
            match t with
            | q :: t1 =>
                if Ascii.eqb q "?" then
                  match t1 with
                  | k :: t2 =>
                      if Ascii.eqb k ":"
                      then expect_close (parse_alt fuel' g t2) (fun r => r)
                      else None
                  | [] => None
                  end
                else expect_close (parse_alt fuel' (S g) t) (Group g)
            | [] => None
            end
          else if Ascii.eqb c "[" then
            match parse_class t with
            | Some (r, rest) => Some (r, g, rest)
            | None => None
            end
          else if Ascii.eqb c "\" then
            match t with
            | e :: rest =>
                match escape_atom e with
                | Some r => Some (r, g, rest)
                | None => None
                end
            | [] => None
            end
          else if Ascii.eqb c "." then Some (Dot, g, t)
          else if is_quant_char c || is_unsupported c then None
          else Some (Lit c, g, t)
      end
  end.

(** [re.compile(pattern)]; [None] stands for [re.error]. *)
Definition compile (pattern : string) : option regex :=
  let s := PyStr.chars pattern in
  match parse_alt (4 * length s + 4) 1 s with
  | Some (r, _, []) => Some r
  | _ => None
  end.

End Re.

(** [re.search(pattern, text, re.IGNORECASE)] *)
Definition py_re_search (pattern text : string) : result (option Re.re_match) :=
  match Re.compile pattern with
  | Some r => Ok (Re.search r text)
  | None => Raise ReError
  end.


(** ** Settings (app/config/settings.py)

    A Python [dict] whose iteration order matters is an association list in
    insertion order with distinct keys. *)

Definition pydict (V : Type) : Type := list (string * V).

Definition dict_keys {V} (d : pydict V) : list string := map fst d.

Fixpoint dict_get {V} (d : pydict V) (key : string) : option V :=
  match d with
  | [] => None
  | (k, v) :: d' => if String.eqb k key then Some v else dict_get d' key
  end.

Definition dict_has {V} (d : pydict V) (key : string) : bool :=
  match dict_get d key with Some _ => true | None => false end.

(** [d[key] = v]: replaces the value of a present key in place, appends an
    absent key at the end. *)
Fixpoint dict_set {V} (d : pydict V) (key : string) (v : V) : pydict V :=
  match d with
  | [] => [(key, v)]
  | (k, v0) :: d' =>
      if String.eqb k key then (k, v) :: d' else (k, v0) :: dict_set d' key v
  end.

Module Settings.

Definition DEFAULT_SHEET_NAME : string := "Applications".

Definition EXCEL_HEADERS : list string :=
  [ "Company"; "Position"; "Status"; "Date";
    "Subject"; "Sender"; "Message ID"; "Last Updated" ].

Definition EMAIL_PATTERNS : pydict (list string) :=
  [ ("application_received",
      [ "thank\s+you\s+for\s+(?:your\s+)?(?:interest|applying)";
        "application\s+(?:has\s+been\s+)?received";
        "we\s+have\s+received\s+your\s+application";
        "your\s+application\s+for";
        "application\s+confirmation" ]);
    ("rejection",
      [ "unfortunately";
        "we\s+regret\s+to\s+inform";
        "after\s+careful\s+consideration";
        "we\s+have\s+decided\s+to\s+move\s+forward\s+with\s+other";
        "not\s+selected\s+for\s+(?:this\s+)?position";
        "we\s+will\s+not\s+be\s+moving\s+forward";
        "position\s+has\s+been\s+filled" ]);
    ("interview",
      [ "interview";
        "schedule\s+(?:a\s+)?(?:call|meeting)";
        "next\s+(?:step|round)";
        "would\s+like\s+to\s+(?:speak|talk)\s+with\s+you";
        "phone\s+(?:screen|call)";
        "video\s+(?:call|interview)" ]);
    ("offer",
      [ "pleased\s+to\s+(?:offer|extend)";
        "job\s+offer";
        "offer\s+of\s+employment";
        "congratulations";
        "we\s+would\s+like\s+to\s+offer\s+you" ]) ].

Definition COMMON_EMAIL_PROVIDERS : list string :=
  [ "gmail.com"; "yahoo.com"; "hotmail.com"; "outlook.com";
    "icloud.com"; "aol.com"; "protonmail.com" ].

End Settings.

(** ** EmailClassifier (app/classification/email_classifier.py)

    The matcher is a parameter of the section: [re_search pattern text] is
    [re.search(pattern, text, re.IGNORECASE)], which raises [re.error] on a
    pattern that does not compile.  Every statement below therefore holds
    for Python's own matcher as well as for [py_re_search]. *)

Section Classifier.

Variable re_search : string -> string -> result (option Re.re_match).

(** The inner loop of [classify_email]: [true] when the loop returns the
    category, [false] when it runs to its end. *)
Fixpoint any_pattern_matches (patterns : list string) (content : string)
    : result bool :=
  match patterns with
  | [] => Ok false
  | pattern :: rest =>
      m ← re_search pattern content;
      match m with
      | Some _ => Ok true
      | None => any_pattern_matches rest content
      end
  end.

(** The outer loop over [self.patterns.items()]. *)
Fixpoint classify_loop (items : pydict (list string)) (content : string)
    : result string :=
  match items with
  | [] => Ok "unknown"
  | (category, patterns) :: rest =>
      hit ← any_pattern_matches patterns content;
      if hit : bool then Ok category else classify_loop rest content
  end.

Definition classify_email (patterns : pydict (list string))
    (subject body : string) : result string :=
  let content := PyStr.lower (subject +:+ " " +:+ body) in
  classify_loop patterns content.

(** [add_pattern]: creates the category with an empty list when it is
    absent, then appends the pattern to the category's list. *)
Definition add_pattern (patterns : pydict (list string))
    (category pattern : string) : pydict (list string) :=
  let patterns1 :=
    if dict_has patterns category then patterns
    else dict_set patterns category [] in
  match dict_get patterns1 category with
  | Some l => dict_set patterns1 category (l ++ [pattern])
  | None => patterns1
  end.

Definition get_categories (patterns : pydict (list string)) : list string :=
  dict_keys patterns.

End Classifier.

(** The (category, pattern) pairs in the order the two loops visit them. *)
Definition flatten (items : pydict (list string)) : list (string * string) :=
  flat_map (fun cp => map (fun p => (fst cp, p)) (snd cp)) items.

Definition list_index {A} (l : list A) (i : nat) : result A :=
  match l !! i with
  | Some x => Ok x
  | None => Raise IndexError
  end.

(** ** The datetime values the code formats

    A [datetime] object carries its fields; [strftime] is modelled for the
    directives the code uses ([%Y %m %d %H %M %S]), zero-padded: two digits
    each, four for the year (for a year below 1000 the padding of [%Y] is
    the platform's; the model pads). *)

Module Datetime.

Record datetime : Type := MkDatetime {
  year : nat; month : nat; day : nat;
  hour : nat; minute : nat; second : nat
}.

(** The ranges the [datetime] constructor enforces (MINYEAR = 1,
    MAXYEAR = 9999). *)
Definition is_leap (y : nat) : bool :=
  ((y mod 4 =? 0) && negb (y mod 100 =? 0)) || (y mod 400 =? 0).

Definition days_in_month (y m : nat) : nat :=
  match m with
  | 2 => if is_leap y then 29 else 28
  | 4 | 6 | 9 | 11 => 30
  | _ => 31
  end.

Definition valid (d : datetime) : bool :=
  (1 <=? year d) && (year d <=? 9999) &&
  (1 <=? month d) && (month d <=? 12) &&
  (1 <=? day d) && (day d <=? days_in_month (year d) (month d)) &&
  (hour d <=? 23) && (minute d <=? 59) && (second d <=? 59).

Definition digit (n : nat) : ascii := ascii_of_nat (48 + n mod 10).
Definition pad2 (n : nat) : list ascii := [digit (n / 10); digit n].
Definition pad4 (n : nat) : list ascii :=
  [digit (n / 1000); digit (n / 100); digit (n / 10); digit n].

Definition directive (d : datetime) (c : ascii) : list ascii :=
  if Ascii.eqb c "Y" then pad4 (year d)
  else if Ascii.eqb c "m" then pad2 (month d)
  else if Ascii.eqb c "d" then pad2 (day d)
  else if Ascii.eqb c "H" then pad2 (hour d)
  else if Ascii.eqb c "M" then pad2 (minute d)
  else if Ascii.eqb c "S" then pad2 (second d)
  else ["%"%char; c].

Fixpoint strftime_chars (d : datetime) (fmt : list ascii) : list ascii :=
  match fmt with
  | [] => []
  | c :: rest =>
      if Ascii.eqb c "%" then
        match rest with
        | x :: rest' => directive d x ++ strftime_chars d rest'
        | [] => [c]
        end
      else c :: strftime_chars d rest
  end.

Definition strftime (d : datetime) (fmt : string) : string :=
  PyStr.str (strftime_chars d (PyStr.chars fmt)).


End Datetime.

(** ** Field extraction (app/gmail/email_processor.py) *)

Section EmailProcessor.

Variable re_search : string -> string -> result (option Re.re_match).

(** [datetime.strptime] and the reading of the clock by [datetime.now()]. *)
Variable strptime : string -> string -> result Datetime.datetime.
Variable now : Datetime.datetime.

Definition position_patterns : list string :=
  [ "(?:for\s+(?:the\s+)?)?(?:position\s+of\s+)?([a-zA-Z\s]+?)(?:\s+position|\s+role|\s+at|\s+-)";
    "(?:role:\s*|position:\s*)([a-zA-Z\s]+)";
    "application\s+for\s+([a-zA-Z\s]+?)(?:\s+at|\s+-|\s+position)" ].

(** The loop of [_extract_position]; [match.group(1)] is [None] when the
    group took no part, and [None.strip()] raises. *)
Fixpoint position_loop (patterns : list string) (subject : string)
    : result string :=
  match patterns with
  | [] => Ok "Unknown"
  | pattern :: rest =>
      m ← re_search pattern subject;
      match m with
      | Some mo =>
          match Re.group mo 1 with
          | Some g => Ok (PyStr.title (PyStr.strip g))
          | None => Raise AttributeError
          end
      | None => position_loop rest subject
      end
  end.

Definition _extract_position (subject : string) : result string :=
  position_loop position_patterns subject.

(** The company half of [_extract_company_info]. *)
Definition extract_company (sender : string) : result string :=
  if PyStr.contains "@" sender then
    d ← list_index (PyStr.split "@" sender) 1;
    let domain := PyStr.lower d in
    if negb (existsb (String.eqb domain) Settings.COMMON_EMAIL_PROVIDERS) then
      label ← list_index (PyStr.split "." domain) 0;
      Ok (PyStr.title label)
    else Ok "Unknown"
  else Ok "Unknown".

Record company_info : Type := MkInfo { company : string; position : string }.

Definition _extract_company_info (sender subject body : string)
    : result company_info :=
  c ← extract_company sender;
  p ← _extract_position subject;
  Ok (MkInfo c p).

(** [_parse_email_date]: the bare [except] turns every exception of the
    [try] block into the formatted reading of the clock. *)
Definition _parse_email_date (date_header : string) : string :=
  match
    (head ← list_index (PyStr.split " (" date_header) 0;
     strptime head "%a, %d %b %Y %H:%M:%S %z")
  with
  | Ok email_date => Datetime.strftime email_date "%Y-%m-%d"
  | Raise _ => Datetime.strftime now "%Y-%m-%d"
  end.

End EmailProcessor.

(** ** Cell values and the worksheet of openpyxl

    A cell holds [None] or a string.  A worksheet is openpyxl's sparse cell
    store, keyed by (row, column) with both indices from 1:
    - [max_row] is the largest row index that has a cell, and 1 for a sheet
      without cells;
    - reading a cell through [ws.cell(row, column)] or [ws['A1']] creates
      it, empty, when it is absent;
    - [ws.cell(row, column, value)] also stores [value] unless it is
      [None].
    Strings are stored as given: the model covers the strings openpyxl
    accepts unchanged (no control characters, at most 32767 characters). *)

Inductive pyval : Type :=
  | PyNone
  | PyStr (s : string).

#[global] Instance pyval_eq_dec : EqDecision pyval.
Proof. solve_decision. Defined.

#[global] Instance pyval_countable : Countable pyval.
Proof.
  refine (inj_countable'
            (fun v => match v with PyNone => None | PyStr s => Some s end)
            (fun o => match o with None => PyNone | Some s => PyStr s end) _).
  intros []; reflexivity.
Defined.

(** Python truthiness: [None] and the empty string are false. *)
Definition truthy (v : pyval) : bool :=
  match v with
  | PyNone => false
  | PyStr s => negb (String.eqb s "")
  end.

Module Openpyxl.

Notation worksheet := (gmap (positive * positive) pyval).
Notation workbook := (gmap string worksheet).

Definition max_row (ws : worksheet) : positive :=
  map_fold (fun k _ acc => Pos.max (fst k) acc) 1%positive ws.

Definition _get_cell (ws : worksheet) (row column : positive) : worksheet :=
  match ws !! (row, column) with
  | Some _ => ws
  | None => <[(row, column) := PyNone]> ws
  end.

(** The [.value] of a cell; an absent cell reads as [None]. *)
Definition cell_value (ws : worksheet) (row column : positive) : pyval :=
  default PyNone (ws !! (row, column)).

(** [ws.cell(row=row, column=column, value=value)] *)
Definition cell (ws : worksheet) (row column : positive) (value : pyval)
    : worksheet :=
  let ws' := _get_cell ws row column in
  match value with
  | PyNone => ws'
  | PyStr _ => <[(row, column) := value]> ws'
  end.

End Openpyxl.

Import Openpyxl.

(** [range(start, stop)] over row indices. *)
Definition py_range (start stop : positive) : list positive :=
  map Pos.of_nat (seq (Pos.to_nat start) (Pos.to_nat stop - Pos.to_nat start)).

(** ** ExcelTracker (app/excel/tracker.py)

    An application is a Python [dict] with string keys; [app[key]] raises
    [KeyError] for an absent key.  The clock is a parameter: [clock k] is
    what [datetime.now()] reads when the call writes its [k]-th new row
    (counting from 0). *)

Notation application := (gmap string pyval).

Definition app_get (app : application) (key : string) : result pyval :=
  match app !! key with
  | Some v => Ok v
  | None => Raise (KeyError key)
  end.

Module ExcelTracker.

Definition sheet_name : string := Settings.DEFAULT_SHEET_NAME.
Definition headers : list string := Settings.EXCEL_HEADERS.

(** The loop [for col, header in enumerate(self.headers, 1)]. *)
Fixpoint write_headers (ws : worksheet) (col : positive) (hs : list string)
    : worksheet :=
  match hs with
  | [] => ws
  | header :: rest => write_headers (cell ws 1 col (PyStr header)) (Pos.succ col) rest
  end.

(** [ws['A1']] is only evaluated, and the cell A1 only created, when
    [ws.max_row == 1]. *)
Definition _ensure_headers (ws : worksheet) : worksheet :=
  if Pos.eqb (max_row ws) 1 then
    let ws1 := _get_cell ws 1 1 in
    match cell_value ws1 1 1 with
    | PyNone => write_headers ws1 1 headers
    | PyStr _ => ws1
    end
  else ws.

Definition message_id_col : positive := 7.
Definition status_col : positive := 3.

Fixpoint existing_ids_loop (rows : list positive) (ws : worksheet)
    (existing_message_ids : gset pyval) : worksheet * gset pyval :=
  match rows with
  | [] => (ws, existing_message_ids)
  | row :: rest =>
      let ws' := _get_cell ws row message_id_col in
      let message_id := cell_value ws' row message_id_col in
      if truthy message_id
      then existing_ids_loop rest ws' ({[ message_id ]} ∪ existing_message_ids)
      else existing_ids_loop rest ws' existing_message_ids
  end.

Definition _get_existing_message_ids (ws : worksheet) : worksheet * gset pyval :=
  existing_ids_loop (py_range 2 (max_row ws + 1)) ws ∅.

Definition _write_application_row (ws : worksheet) (row : positive)
    (app : application) (stamp : Datetime.datetime) : result worksheet :=
  v1 ← app_get app "company";    let ws := cell ws row 1 v1 in
  v2 ← app_get app "position";   let ws := cell ws row 2 v2 in
  v3 ← app_get app "status";     let ws := cell ws row 3 v3 in
  v4 ← app_get app "date";       let ws := cell ws row 4 v4 in
  v5 ← app_get app "subject";    let ws := cell ws row 5 v5 in
  v6 ← app_get app "sender";     let ws := cell ws row 6 v6 in
  v7 ← app_get app "message_id"; let ws := cell ws row 7 v7 in
  Ok (cell ws row 8 (PyStr (Datetime.strftime stamp "%Y-%m-%d %H:%M:%S"))).

(** The loop of [_add_new_applications], with the worksheet and
    [added_count] as its state. *)
Fixpoint add_loop (clock : nat -> Datetime.datetime)
    (existing_message_ids : gset pyval) (applications : list application)
    (ws : worksheet) (added_count : nat) : result (worksheet * nat) :=
  match applications with
  | [] => Ok (ws, added_count)
  | app :: rest =>
      message_id ← app_get app "message_id";
      if decide (message_id ∉ existing_message_ids) then
        let row := (max_row ws + 1)%positive in
        ws' ← _write_application_row ws row app (clock added_count);
        add_loop clock existing_message_ids rest ws' (S added_count)
      else add_loop clock existing_message_ids rest ws added_count
  end.

Definition _add_new_applications (clock : nat -> Datetime.datetime)
    (ws : worksheet) (applications : list application)
    (existing_message_ids : gset pyval) : result (worksheet * nat) :=
  add_loop clock existing_message_ids applications ws 0.

(** The merge that [update_applications] performs between loading and
    saving: the updated worksheet and [added_count]. *)
Definition merge (clock : nat -> Datetime.datetime) (ws : worksheet)
    (applications : list application) : result (worksheet * nat) :=
  let ws1 := _ensure_headers ws in
  let '(ws2, existing_message_ids) := _get_existing_message_ids ws1 in
  _add_new_applications clock ws2 applications existing_message_ids.

Fixpoint count_loop (rows : list positive) (ws : worksheet)
    (status_counts : gmap pyval nat) (total_applications : nat)
    : worksheet * gmap pyval nat * nat :=
  match rows with
  | [] => (ws, status_counts, total_applications)
  | row :: rest =>
      let ws' := _get_cell ws row status_col in
      let status := cell_value ws' row status_col in
      if truthy status
      then count_loop rest ws'
             (<[status := default 0 (status_counts !! status) + 1]> status_counts)
             (total_applications + 1)
      else count_loop rest ws' status_counts total_applications
  end.

Definition _count_applications_by_status (ws : worksheet)
    : worksheet * gmap pyval nat * nat :=
  count_loop (py_range 2 (max_row ws + 1)) ws ∅ 0.

(** What [get_application_summary] returns: a dict with an ["error"] key,
    or the summary. *)
Inductive summary_error : Type :=
  | FileNotFound
  | NoSheet
  | NoApplications
  | ReadError (e : exn).

Inductive summary : Type :=
  | SummaryError (err : summary_error)
  | Summary (total_applications : nat) (status_counts : gmap pyval nat).

(** *** The persistence collaborator

    The file at [self.excel_path] is the state [disk]; [path_exists],
    [load_workbook] and [wb_save] are [Path.exists], openpyxl's
    [load_workbook] and [Workbook.save].  [wb_save] returns the state it
    leaves behind together with its outcome. *)

Section Persistence.

Variable disk : Type.
Variable path_exists : disk -> bool.
Variable load_workbook : disk -> result workbook.
Variable wb_save : workbook -> disk -> disk * result unit.

Definition _get_or_create_workbook (d : disk) : result (workbook * worksheet) :=
  if path_exists d then
    wb ← load_workbook d;
    match wb !! sheet_name with
    | Some ws => Ok (wb, ws)
    | None => Ok (<[sheet_name := ∅]> wb, ∅)
    end
  else Ok ({[ sheet_name := ∅ ]}, ∅).

(** The [try] block up to the call of [wb.save]: the workbook to save. *)
Definition prepare (clock : nat -> Datetime.datetime) (d : disk)
    (applications : list application) : result (workbook * nat) :=
  '(wb, ws) ← _get_or_create_workbook d;
  '(ws', added_count) ← merge clock ws applications;
  Ok (<[sheet_name := ws']> wb, added_count).

Definition update_applications (clock : nat -> Datetime.datetime) (d : disk)
    (applications : list application) : disk * bool :=
  match prepare clock d applications with
  | Raise _ => (d, false)
  | Ok (wb, _) =>
      match wb_save wb d with
      | (d', Ok _) => (d', true)
      | (d', Raise _) => (d', false)
      end
  end.

Definition get_application_summary (d : disk) : summary :=
  if negb (path_exists d) then SummaryError FileNotFound
  else
    match load_workbook d with
    | Raise e => SummaryError (ReadError e)
    | Ok wb =>
        match wb !! sheet_name with
        | None => SummaryError NoSheet
        | Some ws =>
            let '(_, status_counts, total_applications) :=
              _count_applications_by_status ws in
            if total_applications =? 0 then SummaryError NoApplications
            else Summary total_applications status_counts
        end
    end.

End Persistence.

End ExcelTracker.

Import ExcelTracker.

(** A record with every key the tracker reads. *)
Definition mk_app (company position status date subject sender message_id : pyval)
    : application :=
  <["company" := company]> (<["position" := position]> (<["status" := status]>
  (<["date" := date]> (<["subject" := subject]> (<["sender" := sender]>
  (<["message_id" := message_id]> ∅)))))).

(** ** Vocabulary of the statements *)

(** A pattern matches somewhere in the text, or compiles and matches
    nowhere. *)
Definition hits_in (re_search : string -> string -> result (option Re.re_match))
    (content pattern : string) : Prop :=
  exists m, re_search pattern content = Ok (Some m).
Definition misses_in (re_search : string -> string -> result (option Re.re_match))
    (content pattern : string) : Prop :=
  re_search pattern content = Ok None.

(** A single ordered scan over (category, pattern) pairs. *)
Fixpoint scan_pairs (re_search : string -> string -> result (option Re.re_match))
    (content : string) (pairs : list (string * string)) : result string :=
  match pairs with
  | [] => Ok "unknown"
  | (category, pattern) :: rest =>
      m ← re_search pattern content;
      match m with
      | Some _ => Ok category
      | None => scan_pairs re_search content rest
      end
  end.












(** A parser for the layout "Weekday, DD Mon YYYY HH:MM:SS +ZZZZ", to run
    [_parse_email_date] on examples: the fields are recognised by one
    pattern, which has to cover the whole text, and the [datetime]
    constructor checks the ranges.  The offset is checked and dropped. *)
Module ReferenceStrptime.

Definition layout : string :=
  "(mon|tue|wed|thu|fri|sat|sun),\s+(3[01]|[12]\d|0[1-9]|[1-9])\s+(jan|feb|mar|apr|may|jun|jul|aug|sep|oct|nov|dec)\s+(\d\d\d\d)\s+(2[0-3]|[01]\d|\d):([0-5]\d|\d):([0-5]\d|\d)\s+([+-]\d\d[0-5]\d)".

Definition months : list string :=
  [ "jan"; "feb"; "mar"; "apr"; "may"; "jun";
    "jul"; "aug"; "sep"; "oct"; "nov"; "dec" ].

Fixpoint index_of (x : string) (l : list string) (i : nat) : option nat :=
  match l with
  | [] => None
  | y :: l' => if String.eqb x y then Some i else index_of x l' (S i)
  end.

Definition number (l : list ascii) : nat :=
  fold_left (fun acc c => 10 * acc + (PyStr.code c - 48)) l 0.

Definition field (cs : Re.caps) (n : nat) : list ascii :=
  default [] (Re.assoc n cs).

Definition strptime (text fmt : string) : result Datetime.datetime :=
  if String.eqb fmt "%a, %d %b %Y %H:%M:%S %z" then
    match Re.compile layout with
    | Some r =>
        match Re.mtch r (PyStr.chars text) [] Re.finish with
        | Some ([], cs) =>
            match index_of (PyStr.lower (PyStr.str (field cs 3))) months 1 with
            | Some m =>
                let d := Datetime.MkDatetime
                           (number (field cs 4)) m (number (field cs 2))
                           (number (field cs 5)) (number (field cs 6))
                           (number (field cs 7)) in
                if Datetime.valid d then Ok d else Raise ValueError
            | None => Raise ValueError
            end
        | _ => Raise ValueError
        end
    | None => Raise ReError
    end
  else Raise ValueError.

End ReferenceStrptime.




(** The values a record puts in columns 1 to 8 of its row, in the order the
    code reads the keys. *)
Definition app_values (app : application) (stamp : Datetime.datetime)
    : result (list pyval) :=
  v1 ← app_get app "company";
  v2 ← app_get app "position";
  v3 ← app_get app "status";
  v4 ← app_get app "date";
  v5 ← app_get app "subject";
  v6 ← app_get app "sender";
  v7 ← app_get app "message_id";
  Ok [v1; v2; v3; v4; v5; v6; v7;
      PyStr (Datetime.strftime stamp "%Y-%m-%d %H:%M:%S")].

(** Writing a list of values along a row, from column [col] on. *)
Fixpoint write_cells (ws : worksheet) (row col : positive) (vals : list pyval)
    : worksheet :=
  match vals with
  | [] => ws
  | v :: rest => write_cells (cell ws row col v) row (Pos.succ col) rest
  end.

(** The values of columns 1 to 8 of a row. *)
Definition row_values (ws : worksheet) (row : positive) : list pyval :=
  map (cell_value ws row) [1; 2; 3; 4; 5; 6; 7; 8]%positive.

(** A record has every key the tracker reads. *)
Definition well_formed (app : application) : Prop :=
  forall key, key ∈ ["company"; "position"; "status"; "date";
                     "subject"; "sender"; "message_id"] ->
              is_Some (app !! key).


(** The records of a batch the merge appends: those whose identifier is not
    among the existing ones. *)
Definition is_new (ids : gset pyval) (app : application) : bool :=
  match app !! "message_id" with
  | Some v => bool_decide (v ∉ ids)
  | None => false
  end.

Definition new_applications (ids : gset pyval) (apps : list application)
    : list application :=
  List.filter (is_new ids) apps.

(** The non-empty identifiers stored in the data rows of a worksheet. *)
Definition stored_id (ws : worksheet) (v : pyval) : Prop :=
  exists r, (2 <= r <= max_row ws)%positive
            /\ cell_value ws r ExcelTracker.message_id_col = v /\ truthy v = true.

(** The identifiers the merge compares a batch with. *)
Definition existing_ids (ws : worksheet) : gset pyval :=
  snd (ExcelTracker._get_existing_message_ids (ExcelTracker._ensure_headers ws)).

(** Sample data for the examples. *)
Definition sample_clock (k : nat) : Datetime.datetime :=
  Datetime.MkDatetime 2024 6 1 12 0 k.

Definition sample_app (message_id status : pyval) : application :=
  mk_app (PyStr "Acme") (PyStr "Engineer") status (PyStr "2024-05-30")
         (PyStr "Your application") (PyStr "jobs@acme.com") message_id.

(** The data rows of a sheet, and the counts the summary reports. *)
Definition data_rows (ws : worksheet) : list positive :=
  py_range 2 (max_row ws + 1).

Definition count_where (f : positive -> bool) (rows : list positive) : nat :=
  length (List.filter f rows).

(** Rows with a non-empty status, and rows with the non-empty status [s]. *)
Definition count_nonempty (ws : worksheet) : nat :=
  count_where (fun r => truthy (cell_value ws r ExcelTracker.status_col))
              (data_rows ws).

Definition count_status (ws : worksheet) (s : pyval) : nat :=
  count_where (fun r => truthy s
                        && bool_decide (cell_value ws r ExcelTracker.status_col = s))
              (data_rows ws).

(** Two behaviours of the persistence collaborator, for the examples: a file
    is absent, holds a workbook, or is damaged; [save_whole] replaces the
    file, [save_torn] fails after it has begun to overwrite its target. *)
Module SimpleDisk.

Inductive file : Type :=
  | NoFile
  | Stored (wb : workbook)
  | Damaged.

Definition path_exists (d : file) : bool :=
  match d with NoFile => false | _ => true end.

Definition load_workbook (d : file) : result workbook :=
  match d with
  | Stored wb => Ok wb
  | _ => Raise OSError
  end.

Definition save_whole (wb : workbook) (d : file) : file * result unit :=
  (Stored wb, Ok tt).

Definition save_torn (wb : workbook) (d : file) : file * result unit :=
  (Damaged, Raise OSError).

End SimpleDisk.

(** A sheet with a header cell and three data rows, one of them without a
    status. *)
Definition sample_sheet : worksheet :=
  <[(1, 1)%positive := PyStr "Company"]>
  (<[(2, 3)%positive := PyStr "offer"]>
  (<[(3, 3)%positive := PyStr ""]>
  (<[(4, 3)%positive := PyStr "offer"]> ∅))).

Definition sample_workbook : workbook :=
  {[ ExcelTracker.sheet_name := sample_sheet ]}.


Definition distinct_ids (apps : list application) : Prop :=
  forall i j a b,
    apps !! i = Some a -> apps !! j = Some b ->
    a !! "message_id" = b !! "message_id" -> i = j.

(** The condition under which [_ensure_headers] writes the header row. *)
Definition headers_missing (ws : worksheet) : Prop :=
  max_row ws = 1%positive /\ cell_value ws 1 1 = PyNone.


(** ** Gmail messages (app/gmail/email_processor.py)

    The Gmail client raises [HttpError]; the code tells it apart from the
    built-in exceptions.  A message resource is a dict with a ['payload'];
    a payload is a dict with optional ['mimeType'], ['body'] (a dict with an
    optional ['data']), ['parts'] (a list of payloads) and ['headers'] (a
    list of dicts with ['name'] and ['value']).  An absent key is [None]
    here; indexing it raises [KeyError]. *)

Inductive pyexc : Type :=
  | Builtin (e : exn)
  | HttpError.

Inductive outcome (A : Type) : Type :=
  | Return (a : A)
  | Throw (x : pyexc).
Arguments Return {A} a.
Arguments Throw {A} x.

#[global] Instance outcome_ret : MRet outcome := fun _ a => Return a.
#[global] Instance outcome_bind : MBind outcome := fun _ _ f x =>
  match x with
  | Return a => f a
  | Throw e => Throw e
  end.

Definition lift {A} (x : result A) : outcome A :=
  match x with
  | Ok a => Return a
  | Raise e => Throw (Builtin e)
  end.

Notation header := (gmap string string).

#[warnings="-register-all"]
Inductive payload : Type :=
  | MkPayload (mimeType : option string) (body : option (option string))
              (parts : option (list payload)) (headers : option (list header)).

Definition mimeType_of (p : payload) : option string :=
  match p with MkPayload m _ _ _ => m end.
Definition body_of (p : payload) : option (option string) :=
  match p with MkPayload _ b _ _ => b end.
Definition parts_of (p : payload) : option (list payload) :=
  match p with MkPayload _ _ ps _ => ps end.
Definition headers_of (p : payload) : option (list header) :=
  match p with MkPayload _ _ _ hs => hs end.

Record message : Type := MkMessage { msg_payload : option payload }.

(** [d[key]] on a dict given by its optional entry. *)
Definition key {A} (name : string) (entry : option A) : result A :=
  match entry with
  | Some v => Ok v
  | None => Raise (KeyError name)
  end.

(** [sep.join(l)] *)
Fixpoint py_join (sep : string) (l : list string) : string :=
  match l with
  | [] => ""
  | [s] => s
  | s :: rest => s +:+ sep +:+ py_join sep rest
  end.

(** A string in double quotes. *)
Definition quoted (s : string) : string :=
  String (ascii_of_nat 34) (s +:+ String (ascii_of_nat 34) EmptyString).

Module SearchSettings.

Definition MAX_SEARCH_RESULTS : nat := 100.

Definition SEARCH_TERMS : list string :=
  map quoted
    [ "thanks for applying";
      "application received";
      "thank you for your interest";
      "unfortunately";
      "interview";
      "job offer";
      "application confirmation";
      "we have received your application" ].

End SearchSettings.

Section GmailProcessor.

Variable re_search : string -> string -> result (option Re.re_match).
Variable strptime : string -> string -> result Datetime.datetime.

(** [base64.urlsafe_b64decode(data).decode('utf-8', errors='ignore')] *)
Variable b64decode : string -> result string.

(** [messages().get(userId='me', id=message_id, format='full').execute()] *)
Variable get_message : string -> outcome message.

(** [messages().list(userId='me', q=query, maxResults=n).execute()], as the
    optional ['messages'] entry of the response. *)
Variable list_messages : string -> nat -> outcome (option (list header)).

(** [next((h['value'] for h in headers if h['name'] == name), '')] *)
Fixpoint _get_header_value (headers : list header) (name : string)
    : result string :=
  match headers with
  | [] => Ok ""
  | h :: rest =>
      n ← key "name" (h !! "name");
      if String.eqb n name then key "value" (h !! "value")
      else _get_header_value rest name
  end.

(** The text a leaf contributes: [part['body'].get('data', '')], decoded
    when it is not empty. *)
Definition leaf_text (body : option (option string)) : result string :=
  b ← key "body" body;
  let data := default "" b in
  if String.eqb data "" then Ok "" else b64decode data.

Fixpoint _extract_email_body (p : payload) : result string :=
  match parts_of p with
  | Some parts =>
      (fix loop (parts : list payload) (body : string) {struct parts}
         : result string :=
         match parts with
         | [] => Ok body
         | part :: rest =>
             m ← key "mimeType" (mimeType_of part);
             if String.eqb m "text/plain" then
               t ← leaf_text (body_of part);
               loop rest (body +:+ t)
             else if String.eqb m "multipart/alternative" then
               t ← _extract_email_body part;
               loop rest (body +:+ t)
             else loop rest body
         end) parts ""
  | None =>
      m ← key "mimeType" (mimeType_of p);
      if String.eqb m "text/plain" then
        t ← leaf_text (body_of p);
        Ok ("" +:+ t)
      else Ok ""
  end.

Definition _build_search_query (start_dt end_dt : Datetime.datetime) : string :=
  let query_terms := SearchSettings.SEARCH_TERMS in
  let date_range :=
    "after:" +:+ Datetime.strftime start_dt "%Y/%m/%d"
    +:+ " before:" +:+ Datetime.strftime end_dt "%Y/%m/%d" in
  "(" +:+ py_join " OR " query_terms +:+ ") " +:+ date_range.

(** [_process_message]; [now] is the reading of the clock that
    [_parse_email_date] falls back to. *)
Definition _process_message (now : Datetime.datetime) (message_id : string)
    : outcome application :=
  msg ← get_message message_id;
  lift (
    p ← key "payload" (msg_payload msg);
    let headers := default [] (headers_of p) in
    subject ← _get_header_value headers "Subject";
    sender ← _get_header_value headers "From";
    date_header ← _get_header_value headers "Date";
    body ← _extract_email_body p;
    company_info ← _extract_company_info re_search sender subject body;
    let email_date_str := _parse_email_date strptime now date_header in
    Ok (<["company" := PyStr (company company_info)]>
        (<["position" := PyStr (position company_info)]>
        (<["status" := PyStr "unknown"]>
        (<["date" := PyStr email_date_str]>
        (<["subject" := PyStr subject]>
        (<["sender" := PyStr sender]>
        (<["body" := PyStr body]>
        (<["message_id" := PyStr message_id]> ∅))))))))).

(** The loop of [search_application_emails] over the listed messages; [i]
    counts them, and [clock i] is the clock at the [i]-th message.  The
    handler of a failed message logs [message['id']], which raises again
    when the entry has no id. *)
Fixpoint process_messages (clock : nat -> Datetime.datetime)
    (messages : list header) (i : nat) (applications : list application)
    : outcome (list application) :=
  match messages with
  | [] => Return applications
  | message :: rest =>
      match (message_id ← lift (key "id" (message !! "id"));
             _process_message (clock i) message_id) with
      | Return application =>
          if decide (application = ∅)
          then process_messages clock rest (S i) applications
          else process_messages clock rest (S i) (applications ++ [application])
      | Throw _ =>
          match message !! "id" with
          | Some _ => process_messages clock rest (S i) applications
          | None => Throw (Builtin (KeyError "id"))
          end
      end
  end.

(** [search_application_emails]: [is_authenticated] is the state of the
    authenticator and [authenticate] the answer of its [authenticate()],
    which is only awaited when the authenticator is not authenticated. *)
Definition search_application_emails (is_authenticated authenticate : bool)
    (clock : nat -> Datetime.datetime) (start_date end_date : string)
    : outcome (list application) :=
  if negb is_authenticated && negb authenticate then Return []
  else
    match
      (start_dt ← lift (strptime start_date "%Y-%m-%d");
       end_dt ← lift (strptime end_date "%Y-%m-%d");
       let query := _build_search_query start_dt end_dt in
       results ← list_messages query SearchSettings.MAX_SEARCH_RESULTS;
       let messages := default [] results in
       process_messages clock messages 0 [])
    with
    | Throw HttpError => Return []
    | other => other
    end.

End GmailProcessor.

(** ** EmailClassifier.classify_applications *)

(** A value inside an f-string. *)
Definition py_str (v : pyval) : string :=
  match v with
  | PyNone => "None"
  | PyStr s => s
  end.

(** Every record receives its status in place; the list returned is the
    list given. *)
Fixpoint classify_applications
    (re_search : string -> string -> result (option Re.re_match))
    (patterns : pydict (list string)) (applications : list application)
    : result (list application) :=
  match applications with
  | [] => Ok []
  | application :: rest =>
      subject ← app_get application "subject";
      let body := default (PyStr "") (application !! "body") in
      status ← classify_email re_search patterns (py_str subject) (py_str body);
      rest' ← classify_applications re_search patterns rest;
      Ok (<["status" := PyStr status]> application :: rest')
  end.

(** ** Vocabulary of the further statements *)

(** The data of a text/plain leaf, when it has any. *)
Definition leaf_data (p : payload) : list string :=
  match body_of p with
  | Some (Some d) => if String.eqb d "" then [] else [d]
  | _ => []
  end.

(** The base64 data [_extract_email_body] decodes, in document order: the
    text/plain parts of the payload and of its multipart/alternative parts,
    or the payload itself when it has no parts. *)
Fixpoint plain_data (p : payload) : list string :=
  match parts_of p with
  | Some parts =>
      flat_map (fun part =>
        match mimeType_of part with
        | Some m =>
            if String.eqb m "text/plain" then leaf_data part
            else if String.eqb m "multipart/alternative" then plain_data part
            else []
        | None => []
        end) parts
  | None =>
      match mimeType_of p with
      | Some m => if String.eqb m "text/plain" then leaf_data p else []
      | None => []
      end
  end.

(** Every node the walk visits has its ['mimeType'], and every text/plain
    node it visits its ['body']. *)
Definition leaf_ok (p : payload) : bool :=
  match mimeType_of p with
  | Some m => if String.eqb m "text/plain" then bool_decide (is_Some (body_of p))
              else true
  | None => false
  end.

Fixpoint payload_ok (p : payload) : bool :=
  match parts_of p with
  | Some parts =>
      forallb (fun part =>
        leaf_ok part &&
        match mimeType_of part with
        | Some m => if String.eqb m "multipart/alternative" then payload_ok part
                    else true
        | None => false
        end) parts
  | None => leaf_ok p
  end.

(** Decoding a list of data and joining the texts. *)
Fixpoint decode_all (b64decode : string -> result string) (l : list string)
    : result string :=
  match l with
  | [] => Ok ""
  | d :: rest =>
      t ← b64decode d;
      ts ← decode_all b64decode rest;
      Ok (t +:+ ts)
  end.

(** The loop of [_extract_email_body] over the parts of a payload. *)
Fixpoint parts_loop (b64decode : string -> result string)
    (parts : list payload) (body : string) : result string :=
  match parts with
  | [] => Ok body
  | part :: rest =>
      m ← key "mimeType" (mimeType_of part);
      if String.eqb m "text/plain" then
        t ← leaf_text b64decode (body_of part);
        parts_loop b64decode rest (body +:+ t)
      else if String.eqb m "multipart/alternative" then
        t ← _extract_email_body b64decode part;
        parts_loop b64decode rest (body +:+ t)
      else parts_loop b64decode rest body
  end.

(** The records of the listed messages whose processing returns, in the
    order of the listing; [process i id] is the processing of the [i]-th
    listed message. *)
Fixpoint successes (process : nat -> string -> outcome application)
    (messages : list header) (i : nat) : list application :=
  match messages with
  | [] => []
  | message :: rest =>
      match message !! "id" with
      | Some message_id =>
          match process i message_id with
          | Return application =>
              if decide (application = ∅) then [] else [application]
          | Throw _ => []
          end
      | None => []
      end ++ successes process rest (S i)
  end.

(** The identifiers of a batch and of a listing. *)
Definition batch_ids (apps : list application) : list (option pyval) :=
  map (fun app => app !! "message_id") apps.

Definition listed_ids (messages : list header) : list (option pyval) :=
  map (fun message => PyStr <$> message !! "id") messages.

(** A decoder for the examples: it marks what it was given. *)
Definition sample_decode (data : string) : result string :=
  Ok ("[" +:+ data +:+ "]").

(** A message with a plain and an HTML alternative and an attachment, and a
    message whose text sits inside a multipart/related part. *)
Definition sample_payload : payload :=
  MkPayload (Some "multipart/mixed") None
    (Some [ MkPayload (Some "multipart/alternative") None
              (Some [ MkPayload (Some "text/plain") (Some (Some "aGVsbG8")) None None;
                      MkPayload (Some "text/html") (Some (Some "PGI-")) None None ])
              None;
            MkPayload (Some "application/pdf") (Some None) None None ])
    (Some [ {[ "name" := "From"; "value" := "Acme Jobs <jobs@acme.com>" ]};
            {[ "name" := "Subject"; "value" := "Application for Data Engineer at Acme" ]};
            {[ "name" := "Date"; "value" := "Mon, 01 Jan 2024 10:00:00 +0000 (UTC)" ]} ]).

Definition related_payload : payload :=
  MkPayload (Some "multipart/mixed") None
    (Some [ MkPayload (Some "multipart/related") None
              (Some [ MkPayload (Some "text/plain") (Some (Some "aGVsbG8")) None None ])
              None;
            MkPayload (Some "text/html") (Some (Some "PGI-")) None None ])
    None.

(** A mailbox for the examples: message "m1" is [sample_payload], message
    "m2" cannot be fetched, any other message has no payload. *)
Definition sample_get_message (message_id : string) : outcome message :=
  if String.eqb message_id "m1" then Return (MkMessage (Some sample_payload))
  else if String.eqb message_id "m2" then Throw HttpError
  else Return (MkMessage None).

Definition sample_list_messages (query : string) (max_results : nat)
    : outcome (option (list header)) :=
  Return (Some [ {[ "id" := "m2" ]}; {[ "id" := "m1" ]}; {[ "id" := "m3" ]} ]).

(** A parser for the examples that also reads the layout "%Y-%m-%d" of the
    dates of a search. *)
Definition sample_strptime (text fmt : string) : result Datetime.datetime :=
  if String.eqb fmt "%Y-%m-%d" then
    match Re.compile "(\d\d\d\d)-(1[0-2]|0[1-9]|[1-9])-(3[01]|[12]\d|0[1-9]|[1-9])" with
    | Some r =>
        match Re.mtch r (PyStr.chars text) [] Re.finish with
        | Some ([], cs) =>
            let d := Datetime.MkDatetime
                       (ReferenceStrptime.number (ReferenceStrptime.field cs 1))
                       (ReferenceStrptime.number (ReferenceStrptime.field cs 2))
                       (ReferenceStrptime.number (ReferenceStrptime.field cs 3))
                       0 0 0 in
            if Datetime.valid d then Ok d else Raise ValueError
        | _ => Raise ValueError
        end
    | None => Raise ReError
    end
  else ReferenceStrptime.strptime text fmt.

(** The status [classify_applications] computes for a record. *)
Definition status_of
    (re_search : string -> string -> result (option Re.re_match))
    (patterns : pydict (list string)) (app : application) : result string :=
  subject ← app_get app "subject";
  classify_email re_search patterns (py_str subject)
    (py_str (default (PyStr "") (app !! "body"))).

(** A record with a body, as a search produces it. *)
Definition sample_found (message_id subject body : string) : application :=
  <["body" := PyStr body]>
    (mk_app (PyStr "Acme") (PyStr "Engineer") (PyStr "unknown")
            (PyStr "2024-05-30") (PyStr subject) (PyStr "jobs@acme.com")
            (PyStr message_id)).

(** The sum of the counts of a summary. *)
Definition sum_counts (counts : gmap pyval nat) : nat :=
  map_fold (fun _ n acc => n + acc) 0 counts.

(** The status a record brings, and the counts of a batch. *)
Definition status_value (app : application) : pyval :=
  default PyNone (app !! "status").

Definition batch_total (apps : list application) : nat :=
  length (List.filter (fun app => truthy (status_value app)) apps).

Definition batch_count (apps : list application) (s : pyval) : nat :=
  length (List.filter
            (fun app => truthy s && bool_decide (status_value app = s)) apps).


(** ** The scan handler (app/mcp/server.py)

    The handler of the tool [scan_job_applications].  The tool's schema
    requires both dates, so the handler is modelled on calls that carry
    them as strings; [excel_path] is what [arguments.get("excel_path")]
    returns.  The reply is the text of the single [TextContent] returned.
    Paths are values of the library's [Path]; [path_text] is [str] on a
    path, [exc_text] is [str] on an exception. *)

(** [str(n)] for a natural number. *)
Definition nat_text (n : nat) : string :=
  NilEmpty.string_of_uint (Nat.to_uint n).

Definition newline : string := String (ascii_of_nat 10) "".

(** The bullet U+2022 of the summary lines, in UTF-8. *)
Definition bullet : string :=
  String (ascii_of_nat 226) (String (ascii_of_nat 128) (String (ascii_of_nat 162) "")).

(** [status_counts.get(status, 0)] and [status_counts[status] = n] on a
    dict in insertion order whose keys are status values. *)
Fixpoint counts_get (status_counts : list (pyval * nat)) (status : pyval)
    (dflt : nat) : nat :=
  match status_counts with
  | [] => dflt
  | (k, n) :: rest =>
      if decide (k = status) then n else counts_get rest status dflt
  end.

Fixpoint counts_set (status_counts : list (pyval * nat)) (status : pyval)
    (n : nat) : list (pyval * nat) :=
  match status_counts with
  | [] => [(status, n)]
  | (k, m) :: rest =>
      if decide (k = status) then (k, n) :: rest
      else (k, m) :: counts_set rest status n
  end.

(** [status.title()]: a method of [str]. *)
Definition py_title (status : pyval) : result string :=
  match status with
  | PyStr s => Ok (PyStr.title s)
  | PyNone => Raise AttributeError
  end.

Module Server.

Definition DEFAULT_EXCEL_PATH : string := "job_applications.xlsx".

(** The first loop of [_generate_scan_summary]. *)
Fixpoint scan_counts (applications : list application)
    (status_counts : list (pyval * nat)) : result (list (pyval * nat)) :=
  match applications with
  | [] => Ok status_counts
  | app :: rest =>
      status ← app_get app "status";
      scan_counts rest
        (counts_set status_counts status (counts_get status_counts status 0 + 1))
  end.

(** Its second loop, over [status_counts.items()]. *)
Fixpoint scan_lines (items : list (pyval * nat)) (summary : string)
    : result string :=
  match items with
  | [] => Ok summary
  | (status, count) :: rest =>
      title ← py_title status;
      scan_lines rest
        (summary +:+ bullet +:+ " " +:+ title +:+ ": " +:+ nat_text count
                 +:+ newline)
  end.

Section Handlers.

Variable re_search : string -> string -> result (option Re.re_match).
Variable strptime : string -> string -> result Datetime.datetime.
Variable b64decode : string -> result string.
Variable get_message : string -> outcome message.
Variable list_messages : string -> nat -> outcome (option (list header)).

Variable path : Type.
Variable Path : string -> path.
Variable path_text : path -> string.
Variable exc_text : pyexc -> string.

Variable disk : Type.
Variable path_exists : path -> disk -> bool.
Variable load_workbook : path -> disk -> result workbook.
Variable wb_save : path -> workbook -> disk -> disk * result unit.

(** [ExcelTracker(excel_path)]: the path the tracker works on. *)
Definition new_tracker (excel_path : option string) : path :=
  match excel_path with
  | Some p => if truthy (PyStr p) then Path p else Path DEFAULT_EXCEL_PATH
  | None => Path DEFAULT_EXCEL_PATH
  end.

Definition _generate_scan_summary (excel_path : path)
    (applications : list application) : result string :=
  status_counts ← scan_counts applications [];
  summary ← scan_lines status_counts
              ("Successfully processed " +:+ nat_text (length applications)
               +:+ " job application emails:" +:+ newline +:+ newline);
  Ok (summary +:+ newline +:+ "Data saved to: " +:+ path_text excel_path).

Definition error_reply (x : pyexc) : string :=
  "Error scanning applications: " +:+ exc_text x.

(** [_handle_scan_applications]: [tracker] is the path of
    [self.excel_tracker] before the call; the result is the path after the
    call, the disk after the call, and the reply.  [search_clock] and
    [clock] are the clocks the search and the tracker read. *)
Definition _handle_scan_applications (tracker : path) (d : disk)
    (is_authenticated authenticate : bool)
    (search_clock clock : nat -> Datetime.datetime)
    (start_date end_date : string) (excel_path : option string)
    : path * disk * string :=
  let tracker :=
    match excel_path with
    | Some p => if truthy (PyStr p) then new_tracker excel_path else tracker
    | None => tracker
    end in
  match search_application_emails re_search strptime b64decode get_message
          list_messages is_authenticated authenticate search_clock
          start_date end_date with
  | Throw x => (tracker, d, error_reply x)
  | Return [] =>
      (tracker, d,
       "No job application emails found in the specified date range.")
  | Return applications =>
      match classify_applications re_search Settings.EMAIL_PATTERNS
              applications with
      | Raise e => (tracker, d, error_reply (Builtin e))
      | Ok applications =>
          let '(d', success) :=
            update_applications disk (path_exists tracker)
              (load_workbook tracker) (wb_save tracker) clock d applications in
          if success then
            match _generate_scan_summary tracker applications with
            | Ok summary => (tracker, d', summary)
            | Raise e => (tracker, d', error_reply (Builtin e))
            end
          else (tracker, d',
                "Found applications but failed to update Excel file.")
      end
  end.

End Handlers.

End Server.

(** The regular-expression engine accepts every pattern of a pattern set. *)
Definition patterns_valid
    (re_search : string -> string -> result (option Re.re_match))
    (patterns : pydict (list string)) : Prop :=
  forall category pattern content,
    (category, pattern) ∈ flatten patterns ->
    is_ok (re_search pattern content) = true.

(** The path the handler works on, as its first lines choose it. *)
Definition chosen_tracker {path : Type} (Path : string -> path)
    (tracker : path) (excel_path : option string) : path :=
  match excel_path with
  | Some p => if truthy (PyStr p) then Path p else tracker
  | None => tracker
  end.

(** [str] on an exception, for the examples. *)
Definition sample_exc_text (x : pyexc) : string := "error".

(** The number of records of a batch with a given status, and the lines of
    the scan summary for a list of counts. *)
Definition status_count (apps : list application) (status : pyval) : nat :=
  length (List.filter (fun app => bool_decide (app !! "status" = Some status))
            apps).

Fixpoint summary_lines (counts : list (pyval * nat)) : string :=
  match counts with
  | [] => ""
  | (status, n) :: rest =>
      bullet +:+ " " +:+ PyStr.title (py_str status) +:+ ": " +:+ nat_text n
        +:+ newline +:+ summary_lines rest
  end.

(** * Properties *)

(** ** Python strings *)

Example lower_ex : PyStr.lower "Thank You, 2nd ROUND" = "thank you, 2nd round".
Proof. reflexivity. Qed.
Example title_ex : PyStr.title "acme-corp x9y" = "Acme-Corp X9Y".
Proof. reflexivity. Qed.
Example strip_ex : PyStr.strip "  software engineer " = "software engineer".
Proof. reflexivity. Qed.
Example split_ex1 : PyStr.split "@" "a@b@c.com" = ["a"; "b"; "c.com"].
Proof. reflexivity. Qed.
Example split_ex2 :
  PyStr.split " (" "Mon, 01 Jan 2024 10:00:00 +0000 (UTC)"
  = ["Mon, 01 Jan 2024 10:00:00 +0000"; "UTC)"].
Proof. reflexivity. Qed.
Example split_ex3 : PyStr.split "." "acmecorp" = ["acmecorp"].
Proof. reflexivity. Qed.

(** ** The classifier *)

Section ClassifierFacts.

Variable re_search : string -> string -> result (option Re.re_match).
Variable content : string.

Local Notation hits := (hits_in re_search content).
Local Notation misses := (misses_in re_search content).
Local Notation scan_flat := (scan_pairs re_search content).

Lemma classify_loop_app_pairs category patterns rest :
  classify_loop re_search ((category, patterns) :: rest) content
  = match any_pattern_matches re_search patterns content with
    | Ok true => Ok category
    | Ok false => classify_loop re_search rest content
    | Raise e => Raise e
    end.
Proof.
  simpl. destruct (any_pattern_matches re_search patterns content) as [[]|]; reflexivity.
Qed.

Lemma scan_flat_category category patterns pairs :
  scan_flat (map (fun p => (category, p)) patterns ++ pairs)
  = match any_pattern_matches re_search patterns content with
    | Ok true => Ok category
    | Ok false => scan_flat pairs
    | Raise e => Raise e
    end.
Proof.
  induction patterns as [|p ps IH]; simpl; [reflexivity|].
  destruct (re_search p content) as [[m|]|e]; simpl; auto.
Qed.

Lemma classify_loop_flat items :
  classify_loop re_search items content = scan_flat (flatten items).
Proof.
  induction items as [|[category patterns] rest IH]; [reflexivity|].
  rewrite classify_loop_app_pairs. unfold flatten; simpl.
  rewrite scan_flat_category. fold (flatten rest). rewrite IH. reflexivity.
Qed.

Lemma scan_flat_first pairs : forall i c p,
  pairs !! i = Some (c, p) -> hits p ->
  (forall j c' p', j < i -> pairs !! j = Some (c', p') -> misses p') ->
  scan_flat pairs = Ok c.
Proof.
  induction pairs as [|[c0 p0] rest IH]; intros i c p Hi Hhit Hbefore.
  - destruct i; discriminate.
  - destruct i as [|i]; simpl in *.
    + inversion Hi; subst. destruct Hhit as [m Hm]. rewrite Hm. reflexivity.
    + rewrite (Hbefore 0 c0 p0); [|lia|reflexivity]. simpl.
      apply (IH i c p Hi Hhit). intros j c' p' Hj Hl.
      apply (Hbefore (S j) c' p'); [lia|exact Hl].
Qed.

Lemma scan_flat_none pairs :
  (forall c p, (c, p) ∈ pairs -> misses p) -> scan_flat pairs = Ok "unknown".
Proof.
  induction pairs as [|[c0 p0] rest IH]; intros Hall; [reflexivity|].
  simpl. rewrite (Hall c0 p0); [|left]. simpl. apply IH.
  intros c p Hin. apply (Hall c p). right. exact Hin.
Qed.





End ClassifierFacts.

(** [add_pattern] and the iteration order. *)

Lemma dict_get_set_eq {V} (d : pydict V) key v :
  dict_get (dict_set d key v) key = Some v.
Proof.
  induction d as [|[k v0] d IH]; simpl.
  - rewrite String.eqb_refl. reflexivity.
  - destruct (String.eqb k key) eqn:E; simpl; rewrite E; [reflexivity|exact IH].
Qed.








(** C4. The five examples of the built-in pattern set. *)
Theorem classify_email_default_examples :
  classify_email py_re_search Settings.EMAIL_PATTERNS
    "Thank you for applying" "" = Ok "application_received"
  /\ classify_email py_re_search Settings.EMAIL_PATTERNS
       "Unfortunately we have decided to move forward with other candidates" ""
     = Ok "rejection"
  /\ classify_email py_re_search Settings.EMAIL_PATTERNS
       "Let's schedule a call" "" = Ok "interview"
  /\ classify_email py_re_search Settings.EMAIL_PATTERNS
       "We are pleased to offer you the position" "" = Ok "offer"
  /\ classify_email py_re_search Settings.EMAIL_PATTERNS
       "hello" "just checking in" = Ok "unknown".
Proof. repeat split; vm_compute; reflexivity. Qed.

(** ** The position of capture groups in a match *)

Section GroupFacts.

Context {R : Type}.
Variable n : nat.






End GroupFacts.





(** ** Field extraction *)







Example extract_position_role :
  _extract_position py_re_search "Your application - role: data scientist"
  = Ok "Your Application".
Proof. vm_compute. reflexivity. Qed.

Example extract_position_label :
  _extract_position py_re_search "Position: Site Reliability Engineer (Remote)"
  = Ok "Site Reliability Engineer".
Proof. vm_compute. reflexivity. Qed.

Example extract_position_unknown :
  _extract_position py_re_search "hello" = Ok "Unknown".
Proof. vm_compute. reflexivity. Qed.

Lemma bind_ok {A B} (x : A) (f : A -> result B) : (Ok x ≫= f) = f x.
Proof. reflexivity. Qed.



























(** ** The worksheet *)

Section WorksheetFacts.

Implicit Types (ws : worksheet) (r c row column : positive) (v : pyval).

Lemma max_row_spec ws :
  (forall r c, is_Some (ws !! (r, c)) -> (r <= max_row ws)%positive)
  /\ (max_row ws = 1%positive \/ exists c, is_Some (ws !! (max_row ws, c))).
Proof.
  unfold max_row.
  apply (map_fold_weak_ind (fun acc (m : worksheet) =>
    (forall r c, is_Some (m !! (r, c)) -> (r <= acc)%positive)
    /\ (acc = 1%positive \/ exists c, is_Some (m !! (acc, c))))).
  - split; [|left; reflexivity].
    intros r c [v Hv]. rewrite lookup_empty in Hv. discriminate.
  - intros [r0 c0] v m acc Hfresh [Hub Hatt]. simpl. split.
    + intros r c Hsome. destruct (decide ((r0, c0) = (r, c))) as [Heq|Hne].
      * inversion Heq; subst. lia.
      * rewrite lookup_insert_ne in Hsome by exact Hne.
        specialize (Hub r c Hsome). lia.
    + destruct (Pos.max_spec r0 acc) as [[Hlt ->]|[Hle ->]].
      * destruct Hatt as [->|[c Hc]]; [left; reflexivity|].
        right. exists c. rewrite lookup_insert_ne; [exact Hc|].
        intros Heq. inversion Heq; subst. lia.
      * right. exists c0. rewrite lookup_insert_eq. eauto.
Qed.

Lemma max_row_ub ws r c : is_Some (ws !! (r, c)) -> (r <= max_row ws)%positive.
Proof. apply max_row_spec. Qed.

Lemma max_row_insert ws r c v :
  max_row (<[(r, c) := v]> ws) = Pos.max r (max_row ws).
Proof.
  destruct (max_row_spec ws) as [Hub Hatt].
  destruct (max_row_spec (<[(r, c) := v]> ws)) as [Hub' Hatt'].
  apply Pos.le_antisym.
  - destruct Hatt' as [->|[c' Hc']]; [lia|].
    destruct (decide ((r, c) = (max_row (<[(r, c) := v]> ws), c'))) as [Heq|Hne].
    + injection Heq as Hr Hc. lia.
    + rewrite lookup_insert_ne in Hc' by exact Hne. apply Hub in Hc'. lia.
  - apply Pos.max_lub.
    + apply (Hub' r c). rewrite lookup_insert_eq. eauto.
    + destruct Hatt as [->|[c' Hc']]; [lia|].
      apply (Hub' _ c'). destruct (decide ((r, c) = (max_row ws, c'))) as [Heq|Hne].
      * rewrite Heq, lookup_insert_eq. eauto.
      * rewrite lookup_insert_ne by exact Hne. exact Hc'.
Qed.

Lemma cell_value_above ws r c :
  (max_row ws < r)%positive -> cell_value ws r c = PyNone.
Proof.
  intros Hlt. unfold cell_value. destruct (ws !! (r, c)) eqn:Hl; [|reflexivity].
  assert (r <= max_row ws)%positive by (apply (max_row_ub ws r c); eauto). lia.
Qed.

Lemma max_row_get_cell ws r c :
  max_row (_get_cell ws r c) = Pos.max r (max_row ws).
Proof.
  unfold _get_cell. destruct (ws !! (r, c)) eqn:Hl.
  - assert (r <= max_row ws)%positive by (apply (max_row_ub ws r c); eauto). lia.
  - apply max_row_insert.
Qed.

Lemma cell_value_get_cell ws r c r' c' :
  cell_value (_get_cell ws r c) r' c' = cell_value ws r' c'.
Proof.
  unfold _get_cell, cell_value. destruct (ws !! (r, c)) eqn:Hl; [reflexivity|].
  destruct (decide ((r, c) = (r', c'))) as [Heq|Hne].
  - rewrite <- Heq, lookup_insert_eq, Hl. reflexivity.
  - rewrite lookup_insert_ne by exact Hne. reflexivity.
Qed.

Lemma max_row_cell ws r c v : max_row (cell ws r c v) = Pos.max r (max_row ws).
Proof.
  unfold cell. cbv zeta. destruct v.
  - apply max_row_get_cell.
  - rewrite max_row_insert, max_row_get_cell. lia.
Qed.

Lemma cell_value_cell ws r c v r' c' :
  cell_value (cell ws r c v) r' c'
  = if decide ((r, c) = (r', c'))
    then match v with PyNone => cell_value ws r c | PyStr _ => v end
    else cell_value ws r' c'.
Proof.
  unfold cell. cbv zeta. destruct v.
  - rewrite cell_value_get_cell. destruct (decide _) as [Heq|]; [|reflexivity].
    inversion Heq; subst. reflexivity.
  - unfold cell_value at 1. destruct (decide _) as [Heq|Hne].
    + rewrite <- Heq, lookup_insert_eq. reflexivity.
    + rewrite lookup_insert_ne by exact Hne. apply cell_value_get_cell.
Qed.

Lemma cell_value_cell_other_row ws r c v r' c' :
  r <> r' -> cell_value (cell ws r c v) r' c' = cell_value ws r' c'.
Proof.
  intros Hne. rewrite cell_value_cell. destruct (decide _) as [Heq|]; [|reflexivity].
  inversion Heq; subst. contradiction.
Qed.

End WorksheetFacts.

Lemma elem_of_py_range start stop r :
  r ∈ py_range start stop <-> (start <= r < stop)%positive.
Proof.
  unfold py_range. rewrite list_elem_of_fmap. split.
  - intros [n [-> Hn]]. apply list_elem_of_In, in_seq in Hn.
    rewrite <- (Pos2Nat.id start) at 1. rewrite <- (Pos2Nat.id stop).
    pose proof (Pos2Nat.is_pos start).
    split.
    + apply Pos2Nat.inj_le. rewrite !Nat2Pos.id by lia. lia.
    + apply Pos2Nat.inj_lt. rewrite !Nat2Pos.id by lia. lia.
  - intros [Hlo Hhi]. exists (Pos.to_nat r). split; [rewrite Pos2Nat.id; reflexivity|].
    apply list_elem_of_In, in_seq. lia.
Qed.

(** ** The tracker: headers and existing identifiers *)


Lemma max_row_write_headers hs : forall ws col,
  max_row (write_headers ws col hs) = max_row ws.
Proof.
  induction hs as [|h hs IH]; intros ws col; cbn [write_headers]; [reflexivity|].
  rewrite IH, max_row_cell. lia.
Qed.

Lemma write_headers_other_row hs : forall ws col r c,
  r <> 1%positive ->
  cell_value (write_headers ws col hs) r c = cell_value ws r c.
Proof.
  induction hs as [|h hs IH]; intros ws col r c Hr; cbn [write_headers]; [reflexivity|].
  rewrite IH by exact Hr. apply cell_value_cell_other_row. congruence.
Qed.

Lemma write_headers_row1 hs : forall ws col c,
  cell_value (write_headers ws col hs) 1 c
  = if decide (col <= c)%positive
    then match hs !! (Pos.to_nat c - Pos.to_nat col) with
         | Some h => PyStr h
         | None => cell_value ws 1 c
         end
    else cell_value ws 1 c.
Proof.
  induction hs as [|h hs IH]; intros ws col c; cbn [write_headers].
  - destruct (decide _); reflexivity.
  - rewrite IH, cell_value_cell.
    destruct (decide (Pos.succ col <= c)%positive) as [Hs|Hs];
      destruct (decide (col <= c)%positive) as [Hc|Hc]; try lia.
    + replace (Pos.to_nat c - Pos.to_nat col)
        with (S (Pos.to_nat c - Pos.to_nat (Pos.succ col))) by lia.
      simpl. destruct (hs !! _); [reflexivity|].
      destruct (decide _) as [Heq|]; [|reflexivity]. injection Heq as Heq. lia.
    + assert (c = col) by lia. subst c.
      replace (Pos.to_nat col - Pos.to_nat col) with 0 by lia. simpl.
      destruct (decide _) as [|Hne]; [reflexivity|]. contradiction.
    + destruct (decide _) as [Heq|]; [|reflexivity]. injection Heq as Heq. lia.
Qed.

Lemma max_row_ensure_headers ws : max_row (_ensure_headers ws) = max_row ws.
Proof.
  unfold _ensure_headers. destruct (Pos.eqb (max_row ws) 1) eqn:E; [|reflexivity].
  apply Pos.eqb_eq in E. cbv zeta.
  destruct (cell_value (_get_cell ws 1 1) 1 1).
  - rewrite max_row_write_headers, max_row_get_cell. lia.
  - rewrite max_row_get_cell. lia.
Qed.

Lemma ensure_headers_other_row ws r c :
  r <> 1%positive -> cell_value (_ensure_headers ws) r c = cell_value ws r c.
Proof.
  intros Hr. unfold _ensure_headers.
  destruct (Pos.eqb (max_row ws) 1); [|reflexivity]. cbv zeta.
  destruct (cell_value (_get_cell ws 1 1) 1 1).
  - rewrite write_headers_other_row by exact Hr. apply cell_value_get_cell.
  - apply cell_value_get_cell.
Qed.

Lemma ensure_headers_present ws r c :
  ~ headers_missing ws -> cell_value (_ensure_headers ws) r c = cell_value ws r c.
Proof.
  intros Hpresent. unfold _ensure_headers.
  destruct (Pos.eqb (max_row ws) 1) eqn:E; [|reflexivity].
  apply Pos.eqb_eq in E. cbv zeta.
  destruct (cell_value (_get_cell ws 1 1) 1 1) eqn:Ea.
  - exfalso. apply Hpresent. split; [exact E|].
    rewrite cell_value_get_cell in Ea. exact Ea.
  - apply cell_value_get_cell.
Qed.

Lemma ensure_headers_missing ws c :
  headers_missing ws ->
  cell_value (_ensure_headers ws) 1 c
  = match headers !! (Pos.to_nat c - 1) with
    | Some h => PyStr h
    | None => cell_value ws 1 c
    end.
Proof.
  intros [Hmax Ha]. unfold _ensure_headers. rewrite Hmax. simpl Pos.eqb. cbv zeta.
  rewrite cell_value_get_cell, Ha, write_headers_row1.
  destruct (decide (1 <= c)%positive) as [_|Hc]; [|lia].
  change (Pos.to_nat 1) with 1.
  destruct (headers !! _); [reflexivity|]. apply cell_value_get_cell.
Qed.

(** After [_ensure_headers] the header row is never reported missing again
    as long as row 1 is left alone. *)
Lemma ensure_headers_settled ws :
  ~ headers_missing (_ensure_headers ws).
Proof.
  intros [Hmax Ha]. rewrite max_row_ensure_headers in Hmax.
  destruct (cell_value ws 1 1) eqn:Hold.
  - rewrite ensure_headers_missing in Ha by (split; assumption).
    discriminate.
  - rewrite ensure_headers_present in Ha; [congruence|].
    intros [_ Hnone]. congruence.
Qed.

Lemma existing_ids_loop_spec rows : forall ws ids,
  let '(ws', ids') := existing_ids_loop rows ws ids in
  (forall r c, cell_value ws' r c = cell_value ws r c)
  /\ ((forall r, r ∈ rows -> (r <= max_row ws)%positive) -> max_row ws' = max_row ws)
  /\ (forall v, v ∈ ids' <->
        v ∈ ids \/ exists r, r ∈ rows /\ cell_value ws r message_id_col = v
                             /\ truthy v = true).
Proof.
  induction rows as [|row rows IH]; intros ws ids; simpl.
  - split; [reflexivity|]. split; [reflexivity|].
    intros v. split; [auto|]. intros [H|[r [Hr _]]]; [exact H|inversion Hr].
  - rewrite cell_value_get_cell.
    set (ws1 := _get_cell ws row message_id_col).
    assert (Hv1 : forall r c, cell_value ws1 r c = cell_value ws r c)
      by (intros; apply cell_value_get_cell).
    assert (Hm1 : (forall r, r ∈ row :: rows -> (r <= max_row ws)%positive) ->
                  max_row ws1 = max_row ws).
    { intros Hb. unfold ws1. rewrite max_row_get_cell.
      specialize (Hb row ltac:(left)). lia. }
    destruct (truthy (cell_value ws row message_id_col)) eqn:Ht.
    + specialize (IH ws1 ({[cell_value ws row message_id_col]} ∪ ids)).
      destruct (existing_ids_loop rows ws1 _) as [ws' ids'].
      destruct IH as (Hval & Hmax & Hids). split; [|split].
      * intros r c. rewrite Hval. apply Hv1.
      * intros Hb. rewrite Hmax, Hm1; [reflexivity|exact Hb|].
        intros r Hr. rewrite Hm1 by exact Hb. apply Hb. right. exact Hr.
      * intros v. rewrite Hids. rewrite elem_of_union, elem_of_singleton. split.
        -- intros [[->|Hin]|[r (Hr & Hc & Htr)]].
           ++ right. exists row. split; [left|]. split; [reflexivity|exact Ht].
           ++ left. exact Hin.
           ++ right. exists r. split; [right; exact Hr|].
              rewrite <- Hv1. split; assumption.
        -- intros [Hin|[r (Hr & Hc & Htr)]]; [left; right; exact Hin|].
           apply elem_of_cons in Hr. destruct Hr as [->|Hr].
           ++ left. left. symmetry. exact Hc.
           ++ right. exists r. rewrite Hv1. repeat split; assumption.
    + specialize (IH ws1 ids).
      destruct (existing_ids_loop rows ws1 ids) as [ws' ids'].
      destruct IH as (Hval & Hmax & Hids). split; [|split].
      * intros r c. rewrite Hval. apply Hv1.
      * intros Hb. rewrite Hmax, Hm1; [reflexivity|exact Hb|].
        intros r Hr. rewrite Hm1 by exact Hb. apply Hb. right. exact Hr.
      * intros v. rewrite Hids. split.
        -- intros [Hin|[r (Hr & Hc & Htr)]]; [left; exact Hin|].
           right. exists r. split; [right; exact Hr|].
           rewrite <- Hv1. split; assumption.
        -- intros [Hin|[r (Hr & Hc & Htr)]]; [left; exact Hin|].
           apply elem_of_cons in Hr. destruct Hr as [->|Hr].
           ++ congruence.
           ++ right. exists r. rewrite Hv1. repeat split; assumption.
Qed.

(** [_get_existing_message_ids] changes no value and no row count, and
    returns the non-empty values of column 7 in the rows from 2 on. *)
Lemma get_existing_message_ids_spec ws :
  let '(ws', ids) := _get_existing_message_ids ws in
  (forall r c, cell_value ws' r c = cell_value ws r c)
  /\ max_row ws' = max_row ws
  /\ (forall v, v ∈ ids <->
        exists r, (2 <= r <= max_row ws)%positive
                  /\ cell_value ws r message_id_col = v /\ truthy v = true).
Proof.
  unfold _get_existing_message_ids.
  pose proof (existing_ids_loop_spec (py_range 2 (max_row ws + 1)) ws ∅) as H.
  destruct (existing_ids_loop _ ws ∅) as [ws' ids].
  destruct H as (Hval & Hmax & Hids). split; [exact Hval|]. split.
  - apply Hmax. intros r Hr. apply elem_of_py_range in Hr. lia.
  - intros v. rewrite Hids. split.
    + intros [Hin|[r (Hr & Hc & Ht)]]; [set_solver|].
      exists r. apply elem_of_py_range in Hr. split; [lia|]. split; assumption.
    + intros [r (Hr & Hc & Ht)]. right. exists r.
      split; [apply elem_of_py_range; lia|]. split; assumption.
Qed.

(** ** The tracker: appending rows *)

Lemma write_application_row_cells ws row app stamp :
  _write_application_row ws row app stamp
  = (vals ← app_values app stamp; Ok (write_cells ws row 1 vals)).
Proof.
  unfold _write_application_row, app_values.
  repeat match goal with
         | |- context [app_get app ?k] => destruct (app_get app k); [|reflexivity]
         end.
  reflexivity.
Qed.

Lemma max_row_write_cells vals : forall ws row col,
  vals <> [] -> max_row (write_cells ws row col vals) = Pos.max row (max_row ws).
Proof.
  induction vals as [|v vals IH]; intros ws row col Hne; [contradiction|].
  cbn [write_cells]. destruct vals as [|v' vals'].
  - cbn [write_cells]. apply max_row_cell.
  - rewrite IH by discriminate. rewrite max_row_cell. lia.
Qed.

Lemma write_cells_other_row vals : forall ws row col r c,
  r <> row -> cell_value (write_cells ws row col vals) r c = cell_value ws r c.
Proof.
  induction vals as [|v vals IH]; intros ws row col r c Hr; cbn [write_cells];
    [reflexivity|].
  rewrite IH by exact Hr. apply cell_value_cell_other_row. congruence.
Qed.

Lemma write_cells_left vals : forall ws row col c,
  (c < col)%positive ->
  cell_value (write_cells ws row col vals) row c = cell_value ws row c.
Proof.
  induction vals as [|v vals IH]; intros ws row col c Hlt; cbn [write_cells];
    [reflexivity|].
  rewrite IH by lia. rewrite cell_value_cell.
  destruct (decide _) as [Heq|]; [|reflexivity].
  injection Heq as Heq. lia.
Qed.

(** On a row without values, the cells written hold the values given. *)
Lemma write_cells_fresh vals : forall ws row col c,
  (col <= c)%positive ->
  (forall c', (col <= c')%positive -> cell_value ws row c' = PyNone) ->
  cell_value (write_cells ws row col vals) row c
  = default PyNone (vals !! (Pos.to_nat c - Pos.to_nat col)).
Proof.
  induction vals as [|v vals IH]; intros ws row col c Hle Hfresh;
    cbn [write_cells].
  - rewrite Hfresh by exact Hle. reflexivity.
  - destruct (decide (col = c)) as [->|Hne].
    + replace (Pos.to_nat c - Pos.to_nat c) with 0 by lia. simpl.
      rewrite write_cells_left by lia. rewrite cell_value_cell.
      destruct (decide _) as [_|Hne]; [|contradiction].
      rewrite Hfresh by lia. destruct v; reflexivity.
    + replace (Pos.to_nat c - Pos.to_nat col)
        with (S (Pos.to_nat c - Pos.to_nat (Pos.succ col))) by lia.
      simpl. apply IH; [lia|].
      intros c' Hc'. rewrite cell_value_cell.
      destruct (decide _) as [Heq|]; [|apply Hfresh; lia].
      injection Heq as Heq. lia.
Qed.

Lemma app_values_length app stamp vals :
  app_values app stamp = Ok vals -> length vals = 8.
Proof.
  unfold app_values.
  repeat match goal with
         | |- context [app_get app ?k] => destruct (app_get app k); [|discriminate]
         end.
  intros H. inversion H. reflexivity.
Qed.



(** A row appended below the sheet holds the values of its record. *)
Lemma write_application_row_spec ws row app stamp ws' :
  _write_application_row ws row app stamp = Ok ws' ->
  (max_row ws < row)%positive ->
  max_row ws' = row
  /\ (forall r c, r <> row -> cell_value ws' r c = cell_value ws r c)
  /\ exists vals, app_values app stamp = Ok vals /\ row_values ws' row = vals.
Proof.
  rewrite write_application_row_cells. intros Hw Hrow.
  destruct (app_values app stamp) as [vals|] eqn:Hvals; [|discriminate].
  rewrite bind_ok in Hw. inversion Hw; subst ws'. clear Hw.
  pose proof (app_values_length app stamp vals Hvals) as Hlen.
  split; [|split].
  - rewrite max_row_write_cells; [lia|]. destruct vals; [discriminate|discriminate].
  - intros r c Hr. apply write_cells_other_row. exact Hr.
  - exists vals. split; [reflexivity|].
    assert (Hfresh : forall c', (1 <= c')%positive -> cell_value ws row c' = PyNone)
      by (intros; apply cell_value_above; exact Hrow).
    unfold row_values. cbn [map].
    rewrite !write_cells_fresh by (first [lia | exact Hfresh]).
    do 9 (destruct vals as [|? vals]; try discriminate).
    reflexivity.
Qed.

Lemma new_applications_cons ids app rest v :
  app !! "message_id" = Some v ->
  new_applications ids (app :: rest)
  = if decide (v ∉ ids) then app :: new_applications ids rest
    else new_applications ids rest.
Proof.
  intros Hv. unfold new_applications. cbn [List.filter]. unfold is_new at 1.
  rewrite Hv. destruct (decide (v ∉ ids)) as [Hn|Hn].
  - rewrite bool_decide_eq_true_2 by exact Hn. reflexivity.
  - rewrite bool_decide_eq_false_2 by exact Hn. reflexivity.
Qed.

(** The loop of [_add_new_applications]: rows are only appended, one per
    new record, in the order of the batch. *)
Lemma add_loop_spec clock ids apps : forall ws added ws' added',
  add_loop clock ids apps ws added = Ok (ws', added') ->
  added' = added + length (new_applications ids apps)
  /\ Pos.to_nat (max_row ws')
     = Pos.to_nat (max_row ws) + length (new_applications ids apps)
  /\ (forall r c, (r <= max_row ws)%positive ->
                  cell_value ws' r c = cell_value ws r c)
  /\ (forall k app, new_applications ids apps !! k = Some app ->
        exists vals, app_values app (clock (added + k)) = Ok vals
                     /\ row_values ws' (max_row ws + Pos.of_nat (S k)) = vals)
  /\ (forall app, app ∈ apps -> is_Some (app !! "message_id")).
Proof.
  induction apps as [|app rest IH]; intros ws added ws' added' Hrun.
  - simpl in Hrun. inversion Hrun; subst. cbn [new_applications List.filter length].
    split; [lia|]. split; [lia|]. split; [reflexivity|]. split.
    + intros k app Hk. destruct k; discriminate.
    + intros app Hin. inversion Hin.
  - cbn [add_loop] in Hrun. unfold app_get at 1 in Hrun.
    destruct (app !! "message_id") as [v|] eqn:Hmid; [|discriminate].
    rewrite bind_ok in Hrun.
    rewrite (new_applications_cons ids app rest v Hmid).
    assert (Hhas : forall a, a ∈ app :: rest ->
                     (forall a', a' ∈ rest -> is_Some (a' !! "message_id")) ->
                     is_Some (a !! "message_id")).
    { intros a Ha Hrest. apply elem_of_cons in Ha. destruct Ha as [->|Ha]; [eauto|auto]. }
    destruct (decide (v ∉ ids)) as [Hnew|Hold].
    + cbv zeta in Hrun.
      destruct (_write_application_row ws (max_row ws + 1) app (clock added))
        as [ws1|] eqn:Hw; [|discriminate].
      rewrite bind_ok in Hrun.
      apply write_application_row_spec in Hw; [|lia].
      destruct Hw as (Hmax1 & Hframe1 & vals & Hvals & Hrow).
      apply IH in Hrun. destruct Hrun as (Hcount & Hmax & Hframe & Hrows & Hids).
      cbn [length]. split; [lia|]. split; [lia|]. split; [|split].
      * intros r c Hr. rewrite Hframe by lia. apply Hframe1. lia.
      * intros k a Hk. destruct k as [|k]; cbn in Hk.
        -- inversion Hk; subst a. exists vals.
           rewrite Nat.add_0_r. split; [exact Hvals|].
           rewrite <- Hrow. unfold row_values. cbn [map].
           change (Pos.of_nat 1) with 1%positive.
           rewrite !Hframe by lia. reflexivity.
        -- destruct (Hrows k a Hk) as (vals' & Hv' & Hr').
           exists vals'. replace (added + S k) with (S added + k) by lia.
           split; [exact Hv'|]. rewrite <- Hr'. f_equal. rewrite Hmax1. lia.
      * intros a Ha. apply (Hhas a Ha Hids).
    + apply IH in Hrun. destruct Hrun as (Hcount & Hmax & Hframe & Hrows & Hids).
      split; [exact Hcount|]. split; [exact Hmax|]. split; [exact Hframe|].
      split; [exact Hrows|]. intros a Ha. apply (Hhas a Ha Hids).
Qed.



(** ** The merge *)

Lemma existing_ids_stored ws v : v ∈ existing_ids ws <-> stored_id ws v.
Proof.
  unfold existing_ids.
  pose proof (get_existing_message_ids_spec (_ensure_headers ws)) as H.
  destruct (_get_existing_message_ids (_ensure_headers ws)) as [ws2 ids].
  destruct H as (_ & _ & Hids). cbn [snd]. rewrite Hids. unfold stored_id.
  rewrite max_row_ensure_headers.
  split; intros (r & Hr & Hc & Ht); exists r; (split; [exact Hr|]);
    (split; [|exact Ht]).
  - rewrite <- Hc. symmetry. apply ensure_headers_other_row. lia.
  - rewrite <- Hc. apply ensure_headers_other_row. lia.
Qed.

(** What a successful merge does to the worksheet. *)
Lemma merge_spec clock ws apps ws' n :
  merge clock ws apps = Ok (ws', n) ->
  n = length (new_applications (existing_ids ws) apps)
  /\ Pos.to_nat (max_row ws') = Pos.to_nat (max_row ws) + n
  /\ (forall r c, (r <= max_row ws)%positive ->
                  cell_value ws' r c = cell_value (_ensure_headers ws) r c)
  /\ (forall k app,
        new_applications (existing_ids ws) apps !! k = Some app ->
        exists vals, app_values app (clock k) = Ok vals
                     /\ row_values ws' (max_row ws + Pos.of_nat (S k)) = vals)
  /\ (forall app, app ∈ apps -> is_Some (app !! "message_id")).
Proof.
  unfold merge, existing_ids, _add_new_applications. cbv zeta.
  pose proof (get_existing_message_ids_spec (_ensure_headers ws)) as H.
  destruct (_get_existing_message_ids (_ensure_headers ws)) as [ws2 ids].
  destruct H as (Hval & Hmax & _). cbn [snd]. intros Hrun.
  apply add_loop_spec in Hrun.
  destruct Hrun as (Hcount & Hmax' & Hframe & Hrows & Hids).
  rewrite Hmax, max_row_ensure_headers in *.
  split; [lia|]. split; [lia|]. split; [|split; [exact Hrows|exact Hids]].
  intros r c Hr. rewrite Hframe by exact Hr. apply Hval.
Qed.










(** C1.  The merge compares every record of a batch with the identifiers
    that were stored before the call, so two records of one batch that carry
    the same new identifier are both appended: starting from an empty sheet,
    the batch below leaves rows 2 and 3 with the identifier "m1".  (Existing
    rows stay as they are, and [merge_unique_ids] shows that uniqueness is
    kept when the batch holds no identifier twice.) *)
Theorem merge_duplicate_in_batch :
  exists ws',
    merge sample_clock ∅
      [ sample_app (PyStr "m1") (PyStr "application_received");
        sample_app (PyStr "m1") (PyStr "rejection") ] = Ok (ws', 2)
    /\ max_row ws' = 3%positive
    /\ cell_value ws' 2 message_id_col = PyStr "m1"
    /\ cell_value ws' 3 message_id_col = PyStr "m1"
    /\ cell_value ws' 2 status_col = PyStr "application_received"
    /\ cell_value ws' 3 status_col = PyStr "rejection".
Proof.
  eexists. split; [vm_compute; reflexivity|].
  repeat split; vm_compute; reflexivity.
Qed.




(** C10, as amended.  A successful merge leaves every existing row as it
    was, cell for cell, except the first row of a sheet that has no row
    beyond the first and whose cell A1 is empty: that row receives the eight
    headers in columns 1 to 8 (its other cells stay), which is what happens
    on a new or empty sheet, and also when the other cells of the row are
    populated.  The rows written otherwise are new rows appended after the
    last existing row, one per record whose identifier is not stored yet, in
    batch order, holding the record's values and the timestamp. *)
Theorem merge_only_appends :
  forall (clock : nat -> Datetime.datetime) (ws ws' : worksheet)
         (apps : list application) (n : nat),
    merge clock ws apps = Ok (ws', n) ->
    (forall r c, (r <= max_row ws)%positive ->
                 r <> 1%positive \/ ~ headers_missing ws ->
                 cell_value ws' r c = cell_value ws r c)
    /\ (headers_missing ws ->
        forall c, cell_value ws' 1 c
                  = match headers !! (Pos.to_nat c - 1) with
                    | Some h => PyStr h
                    | None => cell_value ws 1 c
                    end)
    /\ headers_missing ∅
    /\ n = length (new_applications (existing_ids ws) apps)
    /\ Pos.to_nat (max_row ws') = Pos.to_nat (max_row ws) + n
    /\ (forall k app,
          new_applications (existing_ids ws) apps !! k = Some app ->
          exists vals, app_values app (clock k) = Ok vals
                       /\ row_values ws' (max_row ws + Pos.of_nat (S k)) = vals).
Proof.
  intros clock ws ws' apps n Hm. apply merge_spec in Hm.
  destruct Hm as (Hn & Hmax & Hframe & Hrows & _).
  split; [|split; [|split; [|split; [|split]]]].
  - intros r c Hr Hcase. rewrite Hframe by exact Hr.
    destruct Hcase as [Hrow|Hpresent].
    + apply ensure_headers_other_row. exact Hrow.
    + apply ensure_headers_present. exact Hpresent.
  - intros Hmissing c. rewrite Hframe by lia.
    apply ensure_headers_missing. exact Hmissing.
  - split; reflexivity.
  - exact Hn.
  - exact Hmax.
  - exact Hrows.
Qed.

Lemma merge_only_appends_witness :
  exists ws',
    merge sample_clock
      {[ (1%positive, 1%positive) := PyStr "Company";
         (2%positive, 7%positive) := PyStr "m0" ]}
      [sample_app (PyStr "m1") (PyStr "offer")] = Ok (ws', 1)
    /\ cell_value ws' 2 7
       = cell_value {[ (1%positive, 1%positive) := PyStr "Company";
                       (2%positive, 7%positive) := PyStr "m0" ]} 2 7.
Proof.
  eexists. split; [vm_compute; reflexivity|].
  refine (proj1 (merge_only_appends sample_clock
                   {[ (1%positive, 1%positive) := PyStr "Company";
                      (2%positive, 7%positive) := PyStr "m0" ]}
                   _ [sample_app (PyStr "m1") (PyStr "offer")] 1 _) 2%positive
                7%positive _ _).
  - vm_compute. reflexivity.
  - vm_compute. discriminate.
  - left. discriminate.
Defined.

(** C10 as stated fails: a sheet whose only row has an empty A1 and a
    populated B1 is neither new nor empty, yet the merge overwrites B1 with
    the header "Position". *)
Lemma merge_only_appends_counterexample :
  exists ws',
    merge sample_clock {[ (1%positive, 2%positive) := PyStr "Job title" ]} []
    = Ok (ws', 0)
    /\ cell_value {[ (1%positive, 2%positive) := PyStr "Job title" ]} 1 2
       = PyStr "Job title"
    /\ cell_value ws' 1 2 = PyStr "Position".
Proof.
  eexists. split; [vm_compute; reflexivity|].
  split; vm_compute; reflexivity.
Qed.

(** ** The summary *)

Lemma count_loop_spec (status_of : positive -> pyval) rows :
  forall ws counts total,
    (forall r, cell_value ws r status_col = status_of r) ->
    let '(_, counts', total') := count_loop rows ws counts total in
    total' = total + count_where (fun r => truthy (status_of r)) rows
    /\ forall s,
         counts' !! s
         = let k := count_where
                      (fun r => truthy s && bool_decide (status_of r = s)) rows in
           match counts !! s with
           | Some m => Some (m + k)
           | None => if k =? 0 then None else Some k
           end.
Proof.
  induction rows as [|row rows IH]; intros ws counts total Hst.
  - cbn. split; [lia|]. intros s. destruct (counts !! s); [f_equal; lia|reflexivity].
  - cbn [count_loop]. rewrite cell_value_get_cell, Hst.
    assert (Hst1 : forall r, cell_value (_get_cell ws row status_col) r status_col
                             = status_of r)
      by (intros r; rewrite cell_value_get_cell; apply Hst).
    unfold count_where in *. cbn [List.filter].
    destruct (truthy (status_of row)) eqn:Ht.
    + specialize (IH (_get_cell ws row status_col)
                     (<[status_of row := default 0 (counts !! status_of row) + 1]> counts)
                     (total + 1) Hst1).
      destruct (count_loop rows _ _ _) as [[ws' counts'] total'].
      destruct IH as [Htot Hcnt]. split; [cbn [length]; lia|].
      intros s. rewrite Hcnt. cbv zeta.
      destruct (decide (status_of row = s)) as [Heq|Hne].
      * subst s. rewrite lookup_insert_eq, Ht.
        rewrite bool_decide_eq_true_2 by reflexivity. cbn [andb length].
        destruct (counts !! status_of row); cbn; f_equal; lia.
      * rewrite lookup_insert_ne by exact Hne.
        rewrite (bool_decide_eq_false_2 _ Hne), andb_false_r. reflexivity.
    + specialize (IH (_get_cell ws row status_col) counts total Hst1).
      destruct (count_loop rows _ _ _) as [[ws' counts'] total'].
      destruct IH as [Htot Hcnt]. split; [exact Htot|].
      intros s. rewrite Hcnt. cbv zeta.
      destruct (truthy s) eqn:Hs; [|reflexivity].
      rewrite bool_decide_eq_false_2; [reflexivity|]. congruence.
Qed.

Lemma count_applications_by_status_spec ws :
  let '(_, counts, total) := _count_applications_by_status ws in
  total = count_nonempty ws
  /\ forall s, counts !! s
               = if count_status ws s =? 0 then None else Some (count_status ws s).
Proof.
  unfold _count_applications_by_status.
  pose proof (count_loop_spec (fun r => cell_value ws r status_col)
                (py_range 2 (max_row ws + 1)) ws ∅ 0 (fun r => eq_refl)) as H.
  destruct (count_loop _ ws ∅ 0) as [[ws' counts] total].
  destruct H as [Htot Hcnt]. split; [exact Htot|].
  intros s. rewrite Hcnt, lookup_empty. reflexivity.
Qed.

Lemma count_where_pos f rows :
  0 < count_where f rows <-> exists r, r ∈ rows /\ f r = true.
Proof.
  unfold count_where. split.
  - destruct (List.filter f rows) as [|r l] eqn:E; [cbn; lia|]. intros _.
    exists r. rewrite list_elem_of_In. apply filter_In. rewrite E. left. reflexivity.
  - intros (r & Hr & Hf).
    assert (Hin : In r (List.filter f rows))
      by (apply filter_In; split; [apply list_elem_of_In; exact Hr|exact Hf]).
    destruct (List.filter f rows); [inversion Hin|cbn; lia].
Qed.

Section SummaryFacts.

Variable disk : Type.
Variable path_exists : disk -> bool.
Variable load_workbook : disk -> result workbook.

Local Notation summarize := (get_application_summary disk path_exists load_workbook).

Lemma summary_of_sheet d wb ws :
  path_exists d = true -> load_workbook d = Ok wb -> wb !! sheet_name = Some ws ->
  summarize d
  = if count_nonempty ws =? 0 then SummaryError NoApplications
    else Summary (count_nonempty ws) (snd (fst (_count_applications_by_status ws))).
Proof.
  intros He Hl Hs. unfold get_application_summary. rewrite He, Hl, Hs. cbn [negb].
  pose proof (count_applications_by_status_spec ws) as H.
  destruct (_count_applications_by_status ws) as [[ws' counts] total].
  destruct H as [-> _]. reflexivity.
Qed.

Lemma summary_never_zero d counts : summarize d <> Summary 0 counts.
Proof.
  unfold get_application_summary.
  destruct (negb (path_exists d)); [discriminate|].
  destruct (load_workbook d) as [wb|]; [|discriminate].
  destruct (wb !! sheet_name) as [ws|]; [|discriminate].
  destruct (_count_applications_by_status ws) as [[ws' counts'] total].
  destruct (total =? 0) eqn:E; [discriminate|].
  apply Nat.eqb_neq in E. intros H. inversion H. contradiction.
Qed.

End SummaryFacts.

(** C9.  [get_application_summary] never returns a summary with total 0.
    When the file is absent, cannot be read or has no sheet of the expected
    name, and when the sheet has zero data rows (header only) or no data row
    with a non-empty status, it returns an error result.  When at least one
    data row carries a non-empty status it returns the number of data rows
    with a non-empty status and, per status, the number of data rows that
    carry it; rows whose status cell is empty or missing are skipped, and a
    status borne by no row has no entry. *)
Theorem summary_spec :
  forall (disk : Type) (path_exists : disk -> bool)
         (load_workbook : disk -> result workbook) (d : disk),
    let summarize := get_application_summary disk path_exists load_workbook in
    (forall counts, summarize d <> Summary 0 counts)
    /\ (path_exists d = false -> summarize d = SummaryError FileNotFound)
    /\ (forall e, path_exists d = true -> load_workbook d = Raise e ->
                  summarize d = SummaryError (ReadError e))
    /\ (forall wb, path_exists d = true -> load_workbook d = Ok wb ->
                   wb !! sheet_name = None -> summarize d = SummaryError NoSheet)
    /\ (forall wb ws,
          path_exists d = true -> load_workbook d = Ok wb ->
          wb !! sheet_name = Some ws ->
          (max_row ws = 1%positive -> summarize d = SummaryError NoApplications)
          /\ (count_nonempty ws = 0 -> summarize d = SummaryError NoApplications)
          /\ ((exists r, (2 <= r <= max_row ws)%positive
                         /\ truthy (cell_value ws r status_col) = true) ->
              exists counts,
                summarize d = Summary (count_nonempty ws) counts
                /\ 0 < count_nonempty ws
                /\ forall s, counts !! s
                             = if count_status ws s =? 0 then None
                               else Some (count_status ws s))).
Proof.
  intros disk path_exists load_workbook d summarize. unfold summarize.
  split; [intros counts; apply summary_never_zero|].
  split; [intros He; unfold get_application_summary; rewrite He; reflexivity|].
  split; [intros e He Hl; unfold get_application_summary; rewrite He, Hl; reflexivity|].
  split; [intros wb He Hl Hs; unfold get_application_summary;
          rewrite He, Hl, Hs; reflexivity|].
  intros wb ws He Hl Hs.
  rewrite (summary_of_sheet disk path_exists load_workbook d wb ws He Hl Hs).
  split; [|split].
  - intros Hmax. unfold count_nonempty, data_rows, py_range. rewrite Hmax. reflexivity.
  - intros ->. reflexivity.
  - intros (r & Hr & Ht).
    assert (Hpos : 0 < count_nonempty ws).
    { apply count_where_pos. exists r. split; [|exact Ht].
      apply elem_of_py_range. lia. }
    destruct (count_nonempty ws =? 0) eqn:E; [apply Nat.eqb_eq in E; lia|].
    eexists. split; [reflexivity|]. split; [exact Hpos|].
    pose proof (count_applications_by_status_spec ws) as H.
    destruct (_count_applications_by_status ws) as [[ws' counts] total].
    destruct H as [_ Hcnt]. exact Hcnt.
Qed.

Lemma summary_spec_witness :
  exists counts,
    get_application_summary SimpleDisk.file SimpleDisk.path_exists
      SimpleDisk.load_workbook (SimpleDisk.Stored sample_workbook)
    = Summary 2 counts
    /\ counts !! PyStr "offer" = Some 2
    /\ counts !! PyStr "" = None.
Proof.
  pose proof (summary_spec SimpleDisk.file SimpleDisk.path_exists
                SimpleDisk.load_workbook (SimpleDisk.Stored sample_workbook))
    as (_ & _ & _ & _ & Hsheet).
  destruct (Hsheet sample_workbook sample_sheet eq_refl eq_refl)
    as (_ & _ & Hrows); [vm_compute; reflexivity|].
  destruct Hrows as (counts & Hsum & _ & Hcounts).
  - exists 2%positive. split; [vm_compute; split; discriminate|vm_compute; reflexivity].
  - exists counts. split; [exact Hsum|].
    split; rewrite Hcounts; vm_compute; reflexivity.
Defined.

(** ** Saving *)

Section PersistenceFacts.

Variable disk : Type.
Variable path_exists : disk -> bool.
Variable load_workbook : disk -> result workbook.
Variable wb_save : workbook -> disk -> disk * result unit.

Local Notation update :=
  (update_applications disk path_exists load_workbook wb_save).
Local Notation prepared := (prepare disk path_exists load_workbook).
Local Notation get_or_create :=
  (_get_or_create_workbook disk path_exists load_workbook).

Lemma update_before_save clock d apps e :
  prepared clock d apps = Raise e -> update clock d apps = (d, false).
Proof. intros H. unfold update_applications. rewrite H. reflexivity. Qed.

Lemma update_at_save clock d apps wb n :
  prepared clock d apps = Ok (wb, n) ->
  update clock d apps = (fst (wb_save wb d), is_ok (snd (wb_save wb d))).
Proof.
  intros H. unfold update_applications. rewrite H.
  destruct (wb_save wb d) as [d' [[]|e]]; reflexivity.
Qed.

(** The workbook handed to [save] holds the completed merge. *)
Lemma prepare_merged clock d apps wb n :
  prepared clock d apps = Ok (wb, n) ->
  exists wb0 ws ws',
    get_or_create d = Ok (wb0, ws)
    /\ merge clock ws apps = Ok (ws', n)
    /\ wb = <[sheet_name := ws']> wb0.
Proof.
  unfold prepare. destruct (get_or_create d) as [[wb0 ws]|]; [|discriminate].
  rewrite bind_ok.
  destruct (merge clock ws apps) as [[ws' n']|] eqn:Hm; [|discriminate].
  rewrite bind_ok. intros H. inversion H; subst.
  exists wb0, ws, ws'. repeat split. exact Hm.
Qed.

Lemma prepare_load_error clock d apps e :
  path_exists d = true -> load_workbook d = Raise e ->
  prepared clock d apps = Raise e.
Proof.
  intros He Hl. unfold prepare, _get_or_create_workbook. rewrite He, Hl. reflexivity.
Qed.

Lemma prepare_merge_error clock d apps wb0 ws e :
  get_or_create d = Ok (wb0, ws) -> merge clock ws apps = Raise e ->
  prepared clock d apps = Raise e.
Proof. intros Hg Hm. unfold prepare. rewrite Hg, bind_ok, Hm. reflexivity. Qed.

Lemma merge_malformed clock ws app rest :
  app !! "message_id" = None ->
  merge clock ws (app :: rest) = Raise (KeyError "message_id").
Proof.
  intros Hk. unfold merge, _add_new_applications. cbv zeta.
  destruct (_get_existing_message_ids (_ensure_headers ws)) as [ws2 ids].
  cbn [add_loop]. unfold app_get. rewrite Hk. reflexivity.
Qed.

End PersistenceFacts.

(** C8, as amended.  [update_applications] reports failure and leaves the
    file exactly as it was when loading fails or when the merge raises on a
    malformed record: nothing is written before the merge is complete.  The
    file is written by one call of [save], on the workbook that holds the
    whole merge, and the operation reports success exactly when that call
    succeeds; after the call the file is in the state [save] left.  So a
    failed operation leaves the file as it was whenever a failing [save]
    leaves its target as it was; the tracker itself saves in place and adds
    no protection against a [save] that fails midway. *)
Theorem update_applications_atomicity :
  forall (disk : Type) (path_exists : disk -> bool)
         (load_workbook : disk -> result workbook)
         (wb_save : workbook -> disk -> disk * result unit)
         (clock : nat -> Datetime.datetime) (d : disk)
         (apps : list application),
    let update := update_applications disk path_exists load_workbook wb_save in
    let prepared := prepare disk path_exists load_workbook in
    (forall e, path_exists d = true -> load_workbook d = Raise e ->
               update clock d apps = (d, false))
    /\ (forall wb0 ws e,
          _get_or_create_workbook disk path_exists load_workbook d = Ok (wb0, ws) ->
          merge clock ws apps = Raise e ->
          update clock d apps = (d, false))
    /\ (forall e, prepared clock d apps = Raise e -> update clock d apps = (d, false))
    /\ (forall wb n,
          prepared clock d apps = Ok (wb, n) ->
          update clock d apps = (fst (wb_save wb d), is_ok (snd (wb_save wb d)))
          /\ exists wb0 ws ws',
               _get_or_create_workbook disk path_exists load_workbook d = Ok (wb0, ws)
               /\ merge clock ws apps = Ok (ws', n)
               /\ wb = <[sheet_name := ws']> wb0)
    /\ ((forall wb d0, is_ok (snd (wb_save wb d0)) = false ->
                       fst (wb_save wb d0) = d0) ->
        snd (update clock d apps) = false ->
        fst (update clock d apps) = d).
Proof.
  intros disk path_exists load_workbook wb_save clock d apps update prepared.
  unfold update, prepared.
  split; [|split; [|split; [|split]]].
  - intros e He Hl. apply (update_before_save _ _ _ _ _ _ _ e).
    apply prepare_load_error; assumption.
  - intros wb0 ws e Hg Hm. apply (update_before_save _ _ _ _ _ _ _ e).
    apply (prepare_merge_error _ _ _ _ _ _ wb0 ws); assumption.
  - intros e Hp. apply (update_before_save _ _ _ _ _ _ _ e). exact Hp.
  - intros wb n Hp. split.
    + apply (update_at_save _ _ _ _ _ _ _ wb n). exact Hp.
    + apply (prepare_merged _ _ _ _ _ _ wb n). exact Hp.
  - intros Hsave Hfail.
    destruct (prepare disk path_exists load_workbook clock d apps)
      as [[wb n]|e] eqn:Hp.
    + rewrite (update_at_save _ _ _ wb_save _ _ _ wb n Hp) in *.
      cbn [fst snd] in *. apply Hsave. exact Hfail.
    + rewrite (update_before_save _ _ _ wb_save _ _ _ e Hp). reflexivity.
Qed.

(** A record without a message identifier makes the merge raise; the stored
    workbook stays, and failure is reported. *)
Lemma update_applications_atomicity_witness :
  update_applications SimpleDisk.file SimpleDisk.path_exists
    SimpleDisk.load_workbook SimpleDisk.save_whole sample_clock
    (SimpleDisk.Stored sample_workbook)
    [sample_app (PyStr "m1") (PyStr "offer"); ∅]
  = (SimpleDisk.Stored sample_workbook, false).
Proof.
  apply (proj1 (proj2 (proj2 (update_applications_atomicity SimpleDisk.file
           SimpleDisk.path_exists SimpleDisk.load_workbook SimpleDisk.save_whole
           sample_clock (SimpleDisk.Stored sample_workbook)
           [sample_app (PyStr "m1") (PyStr "offer"); ∅])))
           (KeyError "message_id")).
  vm_compute. reflexivity.
Defined.

(** C8 as stated fails: the tracker saves in place, so with a [save] that
    fails after it has begun to overwrite the file the operation reports
    failure and the stored table is gone. *)
Lemma update_applications_counterexample :
  update_applications SimpleDisk.file SimpleDisk.path_exists
    SimpleDisk.load_workbook SimpleDisk.save_torn sample_clock
    (SimpleDisk.Stored sample_workbook)
    [sample_app (PyStr "m1") (PyStr "offer")]
  = (SimpleDisk.Damaged, false)
  /\ ~ (forall (disk : Type) (path_exists : disk -> bool)
               (load_workbook : disk -> result workbook)
               (wb_save : workbook -> disk -> disk * result unit)
               (clock : nat -> Datetime.datetime) (d : disk)
               (apps : list application),
          snd (update_applications disk path_exists load_workbook wb_save
                 clock d apps) = false ->
          fst (update_applications disk path_exists load_workbook wb_save
                 clock d apps) = d).
Proof.
  split; [vm_compute; reflexivity|].
  intros H.
  specialize (H SimpleDisk.file SimpleDisk.path_exists SimpleDisk.load_workbook
                SimpleDisk.save_torn sample_clock
                (SimpleDisk.Stored sample_workbook)
                [sample_app (PyStr "m1") (PyStr "offer")]).
  vm_compute in H. specialize (H eq_refl). discriminate.
Qed.

(** * Further properties *)

(** * Further properties *)

(** ** Headers and bodies of messages *)

Lemma append_nil_r (s : string) : s +:+ "" = s.
Proof.
  induction s as [|a s IH]; [reflexivity|].
  change (String a s +:+ "") with (String a (s +:+ "")). f_equal. exact IH.
Qed.

Lemma append_assoc (s t u : string) : (s +:+ t) +:+ u = s +:+ (t +:+ u).
Proof.
  induction s as [|a s IH]; [reflexivity|].
  change ((String a s +:+ t) +:+ u) with (String a ((s +:+ t) +:+ u)).
  change (String a s +:+ (t +:+ u)) with (String a (s +:+ (t +:+ u))).
  f_equal. exact IH.
Qed.

(** X1.  [_get_header_value] returns the value of the first header whose
    name is exactly the name asked for, whatever follows it, and the empty
    string when no header has that name; the comparison is case-sensitive;
    a header without ['name'] that is reached before a match raises
    [KeyError]. *)
Theorem get_header_value_first :
  forall (headers : list header) (name : string),
    (forall pre h post v,
        headers = pre ++ h :: post ->
        (forall h', h' ∈ pre -> exists n, h' !! "name" = Some n /\ n <> name) ->
        h !! "name" = Some name -> h !! "value" = Some v ->
        _get_header_value headers name = Ok v)
    /\ ((forall h, h ∈ headers -> exists n, h !! "name" = Some n /\ n <> name) ->
        _get_header_value headers name = Ok "")
    /\ (forall pre h post,
          headers = pre ++ h :: post ->
          (forall h', h' ∈ pre -> exists n, h' !! "name" = Some n /\ n <> name) ->
          h !! "name" = None ->
          _get_header_value headers name = Raise (KeyError "name"))
    /\ _get_header_value [ {[ "name" := "subject"; "value" := "lower" ]};
                           {[ "name" := "Subject"; "value" := "first" ]};
                           {[ "name" := "Subject"; "value" := "second" ]} ]
         "Subject" = Ok "first".
Proof.
  intros headers name.
  assert (Hskip : forall pre rest,
            (forall h', h' ∈ pre -> exists n, h' !! "name" = Some n /\ n <> name) ->
            _get_header_value (pre ++ rest) name = _get_header_value rest name).
  { induction pre as [|h0 pre IH]; intros rest Hpre; [reflexivity|].
    cbn [app _get_header_value].
    destruct (Hpre h0) as (n & Hn & Hne); [left|]. rewrite Hn. cbn.
    destruct (String.eqb n name) eqn:E; [apply String.eqb_eq in E; contradiction|].
    apply IH. intros h' Hh'. apply Hpre. right. exact Hh'. }
  split; [|split; [|split]].
  - intros pre h post v -> Hpre Hn Hv. rewrite Hskip by exact Hpre.
    cbn [_get_header_value]. rewrite Hn. cbn. rewrite String.eqb_refl, Hv. reflexivity.
  - intros Hall. rewrite <- (app_nil_r headers). rewrite Hskip by exact Hall. reflexivity.
  - intros pre h post -> Hpre Hn. rewrite Hskip by exact Hpre.
    cbn [_get_header_value]. rewrite Hn. reflexivity.
  - vm_compute. reflexivity.
Qed.

Lemma get_header_value_first_witness :
  _get_header_value [ {[ "name" := "To"; "value" := "me@example.org" ]};
                      {[ "name" := "From"; "value" := "jobs@acme.com" ]};
                      ∅ ] "From" = Ok "jobs@acme.com".
Proof.
  apply (proj1 (get_header_value_first
                  [ {[ "name" := "To"; "value" := "me@example.org" ]};
                    {[ "name" := "From"; "value" := "jobs@acme.com" ]}; ∅ ] "From")
               [ {[ "name" := "To"; "value" := "me@example.org" ]} ]
               {[ "name" := "From"; "value" := "jobs@acme.com" ]} [ ∅ ]
               "jobs@acme.com").
  - reflexivity.
  - intros h' Hh'. apply list_elem_of_singleton in Hh'. subst h'.
    exists "To". split; [vm_compute; reflexivity|discriminate].
  - vm_compute. reflexivity.
  - vm_compute. reflexivity.
Defined.

Section BodyFacts.

Variable b64decode : string -> result string.

Local Notation extract := (_extract_email_body b64decode).

Local Notation parts_loop := (parts_loop b64decode).

Lemma extract_unfold p :
  extract p
  = match parts_of p with
    | Some parts => parts_loop parts ""
    | None =>
        m ← key "mimeType" (mimeType_of p);
        if String.eqb m "text/plain" then
          t ← leaf_text b64decode (body_of p);
          Ok ("" +:+ t)
        else Ok ""
    end.
Proof.
  destruct p as [m b [parts|] hs]; [|reflexivity].
  cbn [_extract_email_body parts_of].
  match goal with
  | |- ?F parts _ = _ =>
      enough (Hloop : forall body, F parts body = parts_loop parts body)
        by apply Hloop
  end.
  induction parts as [|part rest IH]; intros body; [reflexivity|].
  cbn [parts_loop]. destruct (key "mimeType" (mimeType_of part)) as [mt|];
    [|reflexivity].
  rewrite !bind_ok.
  destruct (String.eqb mt "text/plain").
  - destruct (leaf_text b64decode (body_of part)); [|reflexivity].
    rewrite !bind_ok. apply IH.
  - destruct (String.eqb mt "multipart/alternative"); [|apply IH].
    destruct (extract part); [|reflexivity]. rewrite !bind_ok. apply IH.
Qed.

Lemma payload_induction (P : payload -> Prop) :
  (forall m b ps hs,
     (forall parts, ps = Some parts -> Forall P parts) ->
     P (MkPayload m b ps hs)) ->
  forall p, P p.
Proof.
  intros Hstep.
  refine (fix IH (p : payload) : P p :=
            match p with
            | MkPayload m b ps hs => Hstep m b ps hs _
            end).
  destruct ps as [parts|]; intros parts' Heq; [|discriminate].
  replace parts' with parts by congruence.
  exact ((fix all (l : list payload) : Forall P l :=
            match l with
            | [] => ListDef.Forall_nil P
            | x :: r => ListDef.Forall_cons P x r (IH x) (all r)
            end) parts).
Qed.

Lemma decode_all_app l1 l2 :
  decode_all b64decode (l1 ++ l2)
  = (t1 ← decode_all b64decode l1;
     t2 ← decode_all b64decode l2;
     Ok (t1 +:+ t2)).
Proof.
  induction l1 as [|d l1 IH]; cbn [app decode_all].
  - rewrite bind_ok. destruct (decode_all b64decode l2); reflexivity.
  - destruct (b64decode d) as [t|]; [|reflexivity]. rewrite !bind_ok, IH.
    destruct (decode_all b64decode l1) as [t1|]; [|reflexivity].
    rewrite !bind_ok.
    destruct (decode_all b64decode l2) as [t2|]; [|reflexivity].
    rewrite !bind_ok, append_assoc. reflexivity.
Qed.

Lemma leaf_text_data p :
  is_Some (body_of p) ->
  leaf_text b64decode (body_of p) = decode_all b64decode (leaf_data p).
Proof.
  intros [b Hb]. unfold leaf_text, leaf_data. rewrite Hb. cbn [key].
  rewrite bind_ok. cbv zeta.
  destruct b as [d|]; cbn [default from_option]; unfold id; [|reflexivity].
  destruct (String.eqb d ""); [reflexivity|].
  cbn [decode_all]. destruct (b64decode d) as [t|]; [|reflexivity].
  rewrite !bind_ok, append_nil_r. reflexivity.
Qed.

Lemma parts_loop_data parts :
  Forall (fun part => payload_ok part = true ->
                      extract part = decode_all b64decode (plain_data part)) parts ->
  forallb (fun part =>
    leaf_ok part &&
    match mimeType_of part with
    | Some m => if String.eqb m "multipart/alternative" then payload_ok part
                else true
    | None => false
    end) parts = true ->
  forall body,
    parts_loop parts body
    = (t ← decode_all b64decode
             (flat_map (fun part =>
                match mimeType_of part with
                | Some m =>
                    if String.eqb m "text/plain" then leaf_data part
                    else if String.eqb m "multipart/alternative"
                         then plain_data part else []
                | None => []
                end) parts);
       Ok (body +:+ t)).
Proof.
  induction 1 as [|part rest Hpart _ IH]; intros Hok body.
  - cbn. rewrite append_nil_r. reflexivity.
  - cbn [forallb] in Hok. apply andb_true_iff in Hok. destruct Hok as [Hhere Hrest].
    apply andb_true_iff in Hhere. destruct Hhere as [Hleaf Hsub].
    specialize (IH Hrest). cbn [parts_loop flat_map].
    unfold leaf_ok in Hleaf.
    destruct (mimeType_of part) as [m|]; [|discriminate]. cbn [key].
    rewrite bind_ok, decode_all_app.
    destruct (String.eqb m "text/plain") eqn:Eplain.
    + apply bool_decide_eq_true_1 in Hleaf.
      rewrite (leaf_text_data part Hleaf).
      destruct (decode_all b64decode (leaf_data part)) as [t|]; [|reflexivity].
      rewrite !bind_ok, IH.
      destruct (decode_all b64decode (flat_map _ rest)) as [ts|]; [|reflexivity].
      rewrite !bind_ok, append_assoc. reflexivity.
    + destruct (String.eqb m "multipart/alternative") eqn:Ealt.
      * rewrite (Hpart Hsub).
        destruct (decode_all b64decode (plain_data part)) as [t|]; [|reflexivity].
        rewrite !bind_ok, IH.
        destruct (decode_all b64decode (flat_map _ rest)) as [ts|]; [|reflexivity].
        rewrite !bind_ok, append_assoc. reflexivity.
      * cbn [decode_all]. rewrite bind_ok, IH.
        destruct (decode_all b64decode (flat_map _ rest)) as [ts|]; reflexivity.
Qed.

Lemma extract_plain_data p :
  payload_ok p = true -> extract p = decode_all b64decode (plain_data p).
Proof.
  induction p as [m b ps hs IH] using payload_induction. intros Hok.
  rewrite extract_unfold. destruct ps as [parts|].
  - cbn [parts_of payload_ok plain_data] in *.
    rewrite (parts_loop_data parts (IH parts eq_refl) Hok "").
    destruct (decode_all b64decode _) as [t|]; reflexivity.
  - cbn [parts_of payload_ok plain_data mimeType_of] in *.
    unfold leaf_ok in Hok. cbn [mimeType_of] in Hok.
    destruct m as [m|]; [|discriminate]. cbn [key]. rewrite bind_ok.
    destruct (String.eqb m "text/plain"); [|reflexivity].
    apply bool_decide_eq_true_1 in Hok.
    rewrite (leaf_text_data (MkPayload (Some m) b None hs) Hok).
    destruct (decode_all b64decode _) as [t|]; reflexivity.
Qed.

(** Parts that are neither text/plain nor multipart/alternative add
    nothing, whatever they contain. *)
Lemma parts_loop_ignored parts :
  (forall part, part ∈ parts ->
     exists m, mimeType_of part = Some m
               /\ m <> "text/plain" /\ m <> "multipart/alternative") ->
  forall body, parts_loop parts body = Ok body.
Proof.
  induction parts as [|part rest IH]; intros Hall body; [reflexivity|].
  cbn [parts_loop]. destruct (Hall part) as (m & Hm & Hp & Ha); [left|].
  rewrite Hm. cbn [key]. rewrite bind_ok.
  destruct (String.eqb m "text/plain") eqn:E1;
    [apply String.eqb_eq in E1; contradiction|].
  destruct (String.eqb m "multipart/alternative") eqn:E2;
    [apply String.eqb_eq in E2; contradiction|].
  apply IH. intros p Hp'. apply Hall. right. exact Hp'.
Qed.

End BodyFacts.

(** X2.  For a payload whose visited nodes carry their keys,
    [_extract_email_body] is the concatenation, in document order, of the
    decoded non-empty data of the text/plain parts found directly in the
    payload or inside its multipart/alternative parts (at any depth of
    multipart/alternative), or of the payload itself when it has no parts;
    the first data the decoder rejects makes it raise. *)
Theorem extract_email_body_plain_parts :
  forall (b64decode : string -> result string) (p : payload),
    payload_ok p = true ->
    _extract_email_body b64decode p = decode_all b64decode (plain_data p).
Proof. intros b64decode p Hok. apply extract_plain_data. exact Hok. Qed.

(** X3.  [_extract_email_body] looks only at text/plain and
    multipart/alternative parts: a payload all of whose parts have another
    type (text/html, multipart/mixed, multipart/related, attachments) has
    the empty body, even when such a part holds text/plain parts of its own
    or data the decoder would reject; so has a payload without parts whose
    type is not text/plain. *)
Theorem extract_email_body_ignores_other_parts :
  forall (b64decode : string -> result string) (p : payload),
    (forall parts, parts_of p = Some parts ->
       (forall part, part ∈ parts ->
          exists m, mimeType_of part = Some m
                    /\ m <> "text/plain" /\ m <> "multipart/alternative") ->
       _extract_email_body b64decode p = Ok "")
    /\ (forall m, parts_of p = None -> mimeType_of p = Some m ->
                  m <> "text/plain" ->
                  _extract_email_body b64decode p = Ok "").
Proof.
  intros b64decode p. split.
  - intros parts Hparts Hall. rewrite extract_unfold, Hparts.
    apply parts_loop_ignored. exact Hall.
  - intros m Hparts Hm Hne. rewrite extract_unfold, Hparts, Hm. cbn [key].
    rewrite bind_ok. destruct (String.eqb m "text/plain") eqn:E; [|reflexivity].
    apply String.eqb_eq in E. contradiction.
Qed.

Lemma extract_email_body_plain_parts_witness :
  _extract_email_body sample_decode sample_payload = Ok "[aGVsbG8]".
Proof.
  rewrite (extract_email_body_plain_parts sample_decode sample_payload);
    vm_compute; reflexivity.
Defined.

Lemma extract_email_body_ignores_other_parts_witness :
  _extract_email_body sample_decode related_payload = Ok ""
  /\ plain_data related_payload = [].
Proof.
  split; [|reflexivity].
  apply (proj1 (extract_email_body_ignores_other_parts sample_decode related_payload)
               [ MkPayload (Some "multipart/related") None
                   (Some [ MkPayload (Some "text/plain") (Some (Some "aGVsbG8"))
                             None None ])
                   None;
                 MkPayload (Some "text/html") (Some (Some "PGI-")) None None ]).
  - reflexivity.
  - intros part Hpart.
    apply elem_of_cons in Hpart. destruct Hpart as [->|Hpart].
    + exists "multipart/related". repeat split; discriminate.
    + apply list_elem_of_singleton in Hpart. subst part.
      exists "text/html". repeat split; discriminate.
Defined.

(** ** Processing one message, and a search *)

Section ProcessorFacts.

Variable re_search : string -> string -> result (option Re.re_match).
Variable strptime : string -> string -> result Datetime.datetime.
Variable b64decode : string -> result string.
Variable get_message : string -> outcome message.
Variable list_messages : string -> nat -> outcome (option (list header)).

Local Notation process :=
  (_process_message re_search strptime b64decode get_message).
Local Notation process_all :=
  (process_messages re_search strptime b64decode get_message).
Local Notation search :=
  (search_application_emails re_search strptime b64decode get_message
     list_messages).


(** What a processed message looks like. *)
Lemma process_message_fields now message_id app :
  process now message_id = Return app ->
  exists msg p subject sender date_header body info,
    get_message message_id = Return msg
    /\ msg_payload msg = Some p
    /\ _get_header_value (default [] (headers_of p)) "Subject" = Ok subject
    /\ _get_header_value (default [] (headers_of p)) "From" = Ok sender
    /\ _get_header_value (default [] (headers_of p)) "Date" = Ok date_header
    /\ _extract_email_body b64decode p = Ok body
    /\ _extract_company_info re_search sender subject body = Ok info
    /\ app = <["company" := PyStr (company info)]>
             (<["position" := PyStr (position info)]>
             (<["status" := PyStr "unknown"]>
             (<["date" := PyStr (_parse_email_date strptime now date_header)]>
             (<["subject" := PyStr subject]>
             (<["sender" := PyStr sender]>
             (<["body" := PyStr body]>
             (<["message_id" := PyStr message_id]> ∅))))))).
Proof.
  unfold _process_message. intros H.
  destruct (get_message message_id) as [msg|] eqn:Hget; [|discriminate].
  change (Return msg ≫= ?f) with (f msg) in H. cbv beta in H.
  destruct (msg_payload msg) as [p|] eqn:Hp; [|discriminate].
  cbn [key] in H. rewrite bind_ok in H. cbv zeta in H.
  destruct (_get_header_value (default [] (headers_of p)) "Subject")
    as [subject|] eqn:Hs; [|discriminate]. rewrite bind_ok in H.
  destruct (_get_header_value (default [] (headers_of p)) "From")
    as [sender|] eqn:Hf; [|discriminate]. rewrite bind_ok in H.
  destruct (_get_header_value (default [] (headers_of p)) "Date")
    as [date_header|] eqn:Hd; [|discriminate]. rewrite bind_ok in H.
  destruct (_extract_email_body b64decode p) as [body|] eqn:Hb; [|discriminate].
  rewrite bind_ok in H.
  destruct (_extract_company_info re_search sender subject body)
    as [info|] eqn:Hi; [|discriminate].
  rewrite bind_ok in H. cbn [lift] in H. inversion H as [Happ].
  exists msg, p, subject, sender, date_header, body, info.
  repeat (split; [assumption || reflexivity|]). reflexivity.
Qed.

Lemma process_message_well_formed now message_id app :
  process now message_id = Return app ->
  well_formed app
  /\ app <> ∅
  /\ app !! "message_id" = Some (PyStr message_id)
  /\ app !! "status" = Some (PyStr "unknown")
  /\ is_Some (app !! "body").
Proof.
  intros H. apply process_message_fields in H.
  destruct H as (msg & p & subject & sender & dh & body & info & _ & _ & _ & _ & _ & _ & _ & ->).
  split; [|split; [|split; [|split]]].
  - intros k Hk.
    repeat (apply elem_of_cons in Hk; destruct Hk as [->|Hk];
            [vm_compute; eauto|]).
    inversion Hk.
  - intros Hempty.
    assert (Hl : (∅ : application) !! "company" = Some (PyStr (company info)))
      by (rewrite <- Hempty; vm_compute; reflexivity).
    rewrite lookup_empty in Hl. discriminate.
  - vm_compute. reflexivity.
  - vm_compute. reflexivity.
  - vm_compute. eauto.
Qed.

(** The loop over the listing when every entry has an id. *)
Lemma process_all_successes clock messages : forall i acc,
  (forall m, m ∈ messages -> is_Some (m !! "id")) ->
  process_all clock messages i acc
  = Return (acc ++ successes (fun k => process (clock k)) messages i).
Proof.
  induction messages as [|m rest IH]; intros i acc Hids.
  - cbn. rewrite app_nil_r. reflexivity.
  - cbn [process_messages successes].
    destruct (Hids m) as [mid Hmid]; [left|]. rewrite Hmid. cbn [key lift].
    change (Return mid ≫= ?f) with (f mid). cbv beta.
    assert (Hrest : forall m', m' ∈ rest -> is_Some (m' !! "id"))
      by (intros m' Hm'; apply Hids; right; exact Hm').
    destruct (process (clock i) mid) as [app|x].
    + destruct (decide (app = ∅)).
      * rewrite IH by exact Hrest. reflexivity.
      * rewrite IH by exact Hrest. rewrite <- app_assoc. reflexivity.
    + rewrite IH by exact Hrest. reflexivity.
Qed.

(** An entry without an id stops the loop with [KeyError]. *)
Lemma process_all_missing_id clock pre m post : forall i acc,
  (forall m', m' ∈ pre -> is_Some (m' !! "id")) ->
  m !! "id" = None ->
  process_all clock (pre ++ m :: post) i acc = Throw (Builtin (KeyError "id")).
Proof.
  induction pre as [|m0 pre IH]; intros i acc Hpre Hm.
  - cbn [app process_messages]. rewrite Hm. reflexivity.
  - cbn [app process_messages].
    destruct (Hpre m0) as [mid Hmid]; [left|]. rewrite Hmid. cbn [key lift].
    change (Return mid ≫= ?f) with (f mid). cbv beta.
    assert (Hrest : forall m', m' ∈ pre -> is_Some (m' !! "id"))
      by (intros m' Hm'; apply Hpre; right; exact Hm').
    destruct (process (clock i) mid) as [app|x];
      [destruct (decide (app = ∅))| ]; apply IH; assumption.
Qed.

Lemma process_all_not_http clock messages i acc :
  process_all clock messages i acc <> Throw HttpError.
Proof.
  revert i acc. induction messages as [|m rest IH]; intros i acc; [discriminate|].
  cbn [process_messages].
  destruct (_ ≫= _) as [app|x].
  - destruct (decide (app = ∅)); apply IH.
  - destruct (m !! "id"); [apply IH|discriminate].
Qed.

Lemma successes_well_formed clock messages : forall i app,
  app ∈ successes (fun k => process (clock k)) messages i ->
  well_formed app
  /\ app !! "status" = Some (PyStr "unknown")
  /\ exists m message_id,
       m ∈ messages /\ m !! "id" = Some message_id
       /\ app !! "message_id" = Some (PyStr message_id).
Proof.
  induction messages as [|m rest IH]; intros i app Hin; [inversion Hin|].
  cbn [successes] in Hin. apply elem_of_app in Hin. destruct Hin as [Hin|Hin].
  - destruct (m !! "id") as [mid|] eqn:Hmid; [|inversion Hin].
    destruct (process (clock i) mid) as [a|] eqn:Hp; [|inversion Hin].
    destruct (decide (a = ∅)); [inversion Hin|].
    apply list_elem_of_singleton in Hin. subst a.
    destruct (process_message_well_formed _ _ _ Hp) as (Hwf & _ & Hid & Hst & _).
    split; [exact Hwf|]. split; [exact Hst|].
    exists m, mid. split; [left|]. split; assumption.
  - destruct (IH (S i) app Hin) as (Hwf & Hst & m' & mid & Hm' & Hid & Happ).
    split; [exact Hwf|]. split; [exact Hst|].
    exists m', mid. split; [right; exact Hm'|]. split; assumption.
Qed.

Lemma successes_ids_sublist clock messages : forall i,
  batch_ids (successes (fun k => process (clock k)) messages i)
  `sublist_of` listed_ids messages.
Proof.
  induction messages as [|m rest IH]; intros i; [constructor|].
  cbn [successes]. unfold batch_ids, listed_ids in *.
  rewrite map_app. cbn [map].
  change (?x :: map ?f rest) with ([x] ++ map f rest).
  apply sublist_app; [|apply IH].
  destruct (m !! "id") as [mid|] eqn:Hmid; [|apply sublist_nil_l].
  destruct (process (clock i) mid) as [a|] eqn:Hp; [|apply sublist_nil_l].
  destruct (decide (a = ∅)); [apply sublist_nil_l|].
  destruct (process_message_well_formed _ _ _ Hp) as (_ & _ & Hid & _).
  cbn [map fmap option_fmap option_map]. rewrite Hid. reflexivity.
Qed.

End ProcessorFacts.

Lemma outcome_bind_return {A B} (x : A) (f : A -> outcome B) :
  (Return x ≫= f) = f x.
Proof. reflexivity. Qed.

(** The search once the dates are parsed and the listing has answered. *)
Lemma search_after_listing
    (re_search : string -> string -> result (option Re.re_match))
    (strptime : string -> string -> result Datetime.datetime)
    (b64decode : string -> result string)
    (get_message : string -> outcome message)
    (list_messages : string -> nat -> outcome (option (list header)))
    (is_authenticated authenticate : bool)
    (clock : nat -> Datetime.datetime) (start_date end_date : string)
    (start_dt end_dt : Datetime.datetime) (results : option (list header)) :
  is_authenticated = true \/ authenticate = true ->
  strptime start_date "%Y-%m-%d" = Ok start_dt ->
  strptime end_date "%Y-%m-%d" = Ok end_dt ->
  list_messages (_build_search_query start_dt end_dt)
                SearchSettings.MAX_SEARCH_RESULTS = Return results ->
  search_application_emails re_search strptime b64decode get_message
    list_messages is_authenticated authenticate clock start_date end_date
  = match process_messages re_search strptime b64decode get_message clock
            (default [] results) 0 [] with
    | Throw HttpError => Return []
    | other => other
    end.
Proof.
  intros Hauth Hs He Hl. unfold search_application_emails.
  assert (Hgate : negb is_authenticated && negb authenticate = false)
    by (destruct Hauth as [-> | ->]; [reflexivity|apply andb_false_r]).
  rewrite Hgate, Hs. cbn [lift]. rewrite outcome_bind_return.
  rewrite He. cbn [lift]. rewrite outcome_bind_return. cbv zeta.
  rewrite Hl, outcome_bind_return. reflexivity.
Qed.

Lemma distinct_ids_of_NoDup apps : NoDup (batch_ids apps) -> distinct_ids apps.
Proof.
  intros Hnd i j a b Hi Hj Hsame. unfold batch_ids in Hnd.
  apply (NoDup_lookup _ i j (a !! "message_id") Hnd).
  - change (map ?f apps) with (f <$> apps). rewrite list_lookup_fmap, Hi. reflexivity.
  - change (map ?f apps) with (f <$> apps). rewrite list_lookup_fmap, Hj.
    cbn. rewrite Hsame. reflexivity.
Qed.



(** X5.  When the authenticator is (or becomes) authenticated, both dates
    parse and the listing answers with entries that all have an id,
    [search_application_emails] returns, in the order of the listing, the
    records of exactly the messages whose processing did not raise: a
    message that cannot be fetched or processed is skipped and the scan goes
    on.  Every record returned is well-formed for the tracker, has status
    "unknown" and the id of a listed entry; the ids of the records are a
    sub-list of the listed ids, so they are distinct when the listed ids
    are. *)
Theorem search_skips_failed_messages :
  forall (re_search : string -> string -> result (option Re.re_match))
         (strptime : string -> string -> result Datetime.datetime)
         (b64decode : string -> result string)
         (get_message : string -> outcome message)
         (list_messages : string -> nat -> outcome (option (list header)))
         (is_authenticated authenticate : bool)
         (clock : nat -> Datetime.datetime) (start_date end_date : string)
         (start_dt end_dt : Datetime.datetime) (results : option (list header)),
    is_authenticated = true \/ authenticate = true ->
    strptime start_date "%Y-%m-%d" = Ok start_dt ->
    strptime end_date "%Y-%m-%d" = Ok end_dt ->
    list_messages (_build_search_query start_dt end_dt)
                  SearchSettings.MAX_SEARCH_RESULTS = Return results ->
    (forall m, m ∈ default [] results -> is_Some (m !! "id")) ->
    let found :=
      successes (fun k => _process_message re_search strptime b64decode
                            get_message (clock k))
                (default [] results) 0 in
    search_application_emails re_search strptime b64decode get_message
      list_messages is_authenticated authenticate clock start_date end_date
    = Return found
    /\ (forall app, app ∈ found ->
          well_formed app
          /\ app !! "status" = Some (PyStr "unknown")
          /\ exists m message_id,
               m ∈ default [] results /\ m !! "id" = Some message_id
               /\ app !! "message_id" = Some (PyStr message_id))
    /\ batch_ids found `sublist_of` listed_ids (default [] results)
    /\ (NoDup (listed_ids (default [] results)) -> distinct_ids found).
Proof.
  intros re_search strptime b64decode get_message list_messages
         is_authenticated authenticate clock start_date end_date
         start_dt end_dt results Hauth Hs He Hl Hids found.
  split; [|split; [|split]].
  - rewrite (search_after_listing _ _ _ _ _ _ _ _ _ _ start_dt end_dt results
               Hauth Hs He Hl).
    rewrite process_all_successes by exact Hids. reflexivity.
  - intros app Happ. exact (successes_well_formed _ _ _ _ _ _ _ app Happ).
  - apply successes_ids_sublist.
  - intros Hnd. apply distinct_ids_of_NoDup.
    apply (sublist_NoDup _ _ Hnd). apply successes_ids_sublist.
Qed.

Lemma search_skips_failed_messages_witness :
  let found :=
    successes (fun k => _process_message py_re_search sample_strptime
                          sample_decode sample_get_message (sample_clock k))
              [ {[ "id" := "m2" ]}; {[ "id" := "m1" ]}; {[ "id" := "m3" ]} ] 0 in
  search_application_emails py_re_search sample_strptime sample_decode
    sample_get_message sample_list_messages true false sample_clock
    "2024-01-01" "2024-02-01" = Return found
  /\ batch_ids found = [Some (PyStr "m1")].
Proof.
  split; [|vm_compute; reflexivity].
  apply (proj1 (search_skips_failed_messages py_re_search sample_strptime
           sample_decode sample_get_message sample_list_messages true false
           sample_clock "2024-01-01" "2024-02-01"
           (Datetime.MkDatetime 2024 1 1 0 0 0)
           (Datetime.MkDatetime 2024 2 1 0 0 0)
           (Some [ {[ "id" := "m2" ]}; {[ "id" := "m1" ]}; {[ "id" := "m3" ]} ])
           (or_introl eq_refl)
           ltac:(vm_compute; reflexivity) ltac:(vm_compute; reflexivity)
           eq_refl
           ltac:(intros m Hm;
                 repeat (apply elem_of_cons in Hm; destruct Hm as [->|Hm];
                         [vm_compute; eauto|]);
                 inversion Hm))).
Defined.

(** X6.  What [search_application_emails] does with failures outside the
    per-message loop: without authentication it returns the empty list; an
    [HttpError] of the listing is turned into the empty list; but a start or
    end date that does not parse, and any other exception of the listing,
    is raised to the caller. *)
Theorem search_failures :
  forall (re_search : string -> string -> result (option Re.re_match))
         (strptime : string -> string -> result Datetime.datetime)
         (b64decode : string -> result string)
         (get_message : string -> outcome message)
         (list_messages : string -> nat -> outcome (option (list header)))
         (is_authenticated authenticate : bool)
         (clock : nat -> Datetime.datetime) (start_date end_date : string),
    let search :=
      search_application_emails re_search strptime b64decode get_message
        list_messages is_authenticated authenticate clock start_date end_date in
    (is_authenticated = false -> authenticate = false -> search = Return [])
    /\ (is_authenticated = true \/ authenticate = true ->
        (forall e, strptime start_date "%Y-%m-%d" = Raise e ->
                   search = Throw (Builtin e))
        /\ (forall start_dt e,
              strptime start_date "%Y-%m-%d" = Ok start_dt ->
              strptime end_date "%Y-%m-%d" = Raise e ->
              search = Throw (Builtin e))
        /\ (forall start_dt end_dt,
              strptime start_date "%Y-%m-%d" = Ok start_dt ->
              strptime end_date "%Y-%m-%d" = Ok end_dt ->
              (list_messages (_build_search_query start_dt end_dt)
                             SearchSettings.MAX_SEARCH_RESULTS = Throw HttpError ->
               search = Return [])
              /\ (forall e,
                    list_messages (_build_search_query start_dt end_dt)
                                  SearchSettings.MAX_SEARCH_RESULTS
                    = Throw (Builtin e) ->
                    search = Throw (Builtin e)))).
Proof.
  intros re_search strptime b64decode get_message list_messages
         is_authenticated authenticate clock start_date end_date search.
  unfold search, search_application_emails. split.
  - intros -> ->. reflexivity.
  - intros Hauth.
    assert (Hgate : negb is_authenticated && negb authenticate = false)
      by (destruct Hauth as [-> | ->]; [reflexivity|apply andb_false_r]).
    rewrite Hgate. split; [|split].
    + intros e ->. reflexivity.
    + intros start_dt e -> ->. reflexivity.
    + intros start_dt end_dt -> ->. cbn [lift].
      rewrite !outcome_bind_return. cbv zeta.
      split; [intros ->; reflexivity|intros e ->; reflexivity].
Qed.

Lemma search_failures_witness :
  search_application_emails py_re_search sample_strptime sample_decode
    sample_get_message sample_list_messages true false sample_clock
    "01/01/2024" "2024-02-01" = Throw (Builtin ValueError).
Proof.
  apply (proj1 (proj2 (search_failures py_re_search sample_strptime sample_decode
                 sample_get_message sample_list_messages true false sample_clock
                 "01/01/2024" "2024-02-01") (or_introl eq_refl)) ValueError).
  vm_compute. reflexivity.
Defined.

(** X7.  The handler of a failed message logs [message['id']]: when a
    listed entry has no id, reading it raises [KeyError] a second time,
    inside the handler, and the whole search raises instead of skipping the
    entry, whatever the messages before it gave. *)
Theorem search_entry_without_id :
  forall (re_search : string -> string -> result (option Re.re_match))
         (strptime : string -> string -> result Datetime.datetime)
         (b64decode : string -> result string)
         (get_message : string -> outcome message)
         (list_messages : string -> nat -> outcome (option (list header)))
         (is_authenticated authenticate : bool)
         (clock : nat -> Datetime.datetime) (start_date end_date : string)
         (start_dt end_dt : Datetime.datetime)
         (pre post : list header) (m : header),
    is_authenticated = true \/ authenticate = true ->
    strptime start_date "%Y-%m-%d" = Ok start_dt ->
    strptime end_date "%Y-%m-%d" = Ok end_dt ->
    list_messages (_build_search_query start_dt end_dt)
                  SearchSettings.MAX_SEARCH_RESULTS
    = Return (Some (pre ++ m :: post)) ->
    (forall m', m' ∈ pre -> is_Some (m' !! "id")) ->
    m !! "id" = None ->
    search_application_emails re_search strptime b64decode get_message
      list_messages is_authenticated authenticate clock start_date end_date
    = Throw (Builtin (KeyError "id")).
Proof.
  intros re_search strptime b64decode get_message list_messages
         is_authenticated authenticate clock start_date end_date
         start_dt end_dt pre post m Hauth Hs He Hl Hpre Hm.
  rewrite (search_after_listing _ _ _ _ _ _ _ _ _ _ start_dt end_dt
             (Some (pre ++ m :: post)) Hauth Hs He Hl).
  cbn [default from_option]. unfold id.
  rewrite process_all_missing_id by assumption. reflexivity.
Qed.

Lemma search_entry_without_id_witness :
  search_application_emails py_re_search sample_strptime sample_decode
    sample_get_message
    (fun _ _ => Return (Some [ {[ "id" := "m1" ]}; ∅; {[ "id" := "m3" ]} ]))
    true false sample_clock "2024-01-01" "2024-02-01"
  = Throw (Builtin (KeyError "id")).
Proof.
  apply (search_entry_without_id py_re_search sample_strptime sample_decode
           sample_get_message
           (fun _ _ => Return (Some [ {[ "id" := "m1" ]}; ∅; {[ "id" := "m3" ]} ]))
           true false sample_clock "2024-01-01" "2024-02-01"
           (Datetime.MkDatetime 2024 1 1 0 0 0) (Datetime.MkDatetime 2024 2 1 0 0 0)
           [ {[ "id" := "m1" ]} ] [ {[ "id" := "m3" ]} ] ∅).
  - left. reflexivity.
  - vm_compute. reflexivity.
  - vm_compute. reflexivity.
  - reflexivity.
  - intros m' Hm'. apply list_elem_of_singleton in Hm'. subst m'.
    vm_compute. eauto.
  - reflexivity.
Defined.

(** ** Classifying a batch *)

Section BatchFacts.

Variable re_search : string -> string -> result (option Re.re_match).
Variable patterns : pydict (list string).

Local Notation classify_all := (classify_applications re_search patterns).

Local Notation status_of := (status_of re_search patterns).

Lemma classify_all_cons app rest :
  classify_all (app :: rest)
  = (status ← status_of app;
     rest' ← classify_all rest;
     Ok (<["status" := PyStr status]> app :: rest')).
Proof.
  cbn [classify_applications]. unfold status_of.
  destruct (app_get app "subject"); reflexivity.
Qed.

Lemma classify_all_app l1 l2 :
  classify_all (l1 ++ l2)
  = (a ← classify_all l1; b ← classify_all l2; Ok (a ++ b)).
Proof.
  induction l1 as [|x l1 IH].
  - cbn [app classify_applications]. rewrite bind_ok.
    destruct (classify_all l2); reflexivity.
  - cbn [app]. rewrite !classify_all_cons.
    destruct (status_of x) as [st|]; [|reflexivity]. rewrite !bind_ok, IH.
    destruct (classify_all l1) as [a|]; [|reflexivity]. rewrite !bind_ok.
    destruct (classify_all l2) as [b|]; reflexivity.
Qed.

Lemma status_of_insert app status :
  status_of (<["status" := PyStr status]> app) = status_of app.
Proof.
  unfold status_of, app_get.
  rewrite !lookup_insert_ne by discriminate. reflexivity.
Qed.

Lemma classify_all_spec apps : forall apps',
  classify_all apps = Ok apps' ->
  length apps' = length apps
  /\ forall i app, apps !! i = Some app ->
       exists status, status_of app = Ok status
                      /\ apps' !! i = Some (<["status" := PyStr status]> app).
Proof.
  induction apps as [|app rest IH]; intros apps' H.
  - inversion H. split; [reflexivity|]. intros i a Hi. destruct i; discriminate.
  - rewrite classify_all_cons in H.
    destruct (status_of app) as [st|] eqn:Hst; [|discriminate].
    rewrite bind_ok in H.
    destruct (classify_all rest) as [rest'|] eqn:Hrest; [|discriminate].
    rewrite bind_ok in H. inversion H; subst apps'.
    destruct (IH rest' eq_refl) as [Hlen Hnth]. split; [cbn; lia|].
    intros i a Hi. destruct i as [|i]; cbn in Hi |- *.
    + inversion Hi; subst a. exists st. split; [exact Hst|reflexivity].
    + apply Hnth. exact Hi.
Qed.

Lemma classify_all_again apps : forall apps',
  classify_all apps = Ok apps' -> classify_all apps' = Ok apps'.
Proof.
  induction apps as [|app rest IH]; intros apps' H.
  - inversion H. reflexivity.
  - rewrite classify_all_cons in H.
    destruct (status_of app) as [st|] eqn:Hst; [|discriminate].
    rewrite bind_ok in H.
    destruct (classify_all rest) as [rest'|] eqn:Hrest; [|discriminate].
    rewrite bind_ok in H. inversion H; subst apps'.
    rewrite classify_all_cons, status_of_insert, Hst, bind_ok.
    rewrite (IH rest' eq_refl), bind_ok, insert_insert_eq. reflexivity.
Qed.

Lemma classify_loop_category items content c :
  classify_loop re_search items content = Ok c ->
  c ∈ dict_keys items \/ c = "unknown".
Proof.
  induction items as [|[category ps] rest IH]; intros H.
  - inversion H. right. reflexivity.
  - cbn [classify_loop] in H.
    destruct (any_pattern_matches re_search ps content) as [[]|]; [| |discriminate];
      rewrite bind_ok in H.
    + inversion H. left. left.
    + destruct (IH H) as [Hin|Hu]; [left; right; exact Hin|right; exact Hu].
Qed.

End BatchFacts.

(** X8.  [classify_applications] keeps the records in their order and
    changes nothing but their status, and classifying its result again
    returns the same list: a status never depends on an earlier status. *)
Theorem classify_applications_stable :
  forall (re_search : string -> string -> result (option Re.re_match))
         (patterns : pydict (list string)) (apps apps' : list application),
    classify_applications re_search patterns apps = Ok apps' ->
    classify_applications re_search patterns apps' = Ok apps'
    /\ length apps' = length apps
    /\ forall i app, apps !! i = Some app ->
         exists app', apps' !! i = Some app'
           /\ forall k, k <> "status" -> app' !! k = app !! k.
Proof.
  intros re_search patterns apps apps' H.
  split; [exact (classify_all_again _ _ _ _ H)|].
  destruct (classify_all_spec _ _ _ _ H) as [Hlen Hnth].
  split; [exact Hlen|]. intros i app Hi.
  destruct (Hnth i app Hi) as (st & _ & Happ').
  eexists. split; [exact Happ'|]. intros k Hk.
  apply lookup_insert_ne. congruence.
Qed.

(** X9.  Every status [classify_applications] assigns is the name of a
    category of the pattern set or "unknown", and it is the status
    [classify_email] gives for the record's subject and body. *)
Theorem classify_applications_statuses :
  forall (re_search : string -> string -> result (option Re.re_match))
         (patterns : pydict (list string)) (apps apps' : list application),
    classify_applications re_search patterns apps = Ok apps' ->
    forall i app, apps !! i = Some app ->
      exists subject status,
        app !! "subject" = Some subject
        /\ classify_email re_search patterns (py_str subject)
             (py_str (default (PyStr "") (app !! "body"))) = Ok status
        /\ (apps' !! i) ≫= (fun app' => app' !! "status") = Some (PyStr status)
        /\ (status ∈ get_categories patterns \/ status = "unknown").
Proof.
  intros re_search patterns apps apps' H i app Hi.
  destruct (classify_all_spec _ _ _ _ H) as [_ Hnth].
  destruct (Hnth i app Hi) as (st & Hst & Happ').
  unfold status_of, app_get in Hst.
  destruct (app !! "subject") as [subject|] eqn:Hs; [|discriminate].
  rewrite bind_ok in Hst. exists subject, st.
  split; [reflexivity|]. split; [exact Hst|]. split.
  - rewrite Happ'. cbn. apply lookup_insert_eq.
  - unfold classify_email in Hst. apply classify_loop_category in Hst. exact Hst.
Qed.

(** X10.  A record without ['subject'] makes [classify_applications] raise
    [KeyError], once the records before it are classified; a record without
    ['body'] is classified on its subject alone. *)
Theorem classify_applications_missing_keys :
  forall (re_search : string -> string -> result (option Re.re_match))
         (patterns : pydict (list string)),
    (forall pre pre' app post,
        classify_applications re_search patterns pre = Ok pre' ->
        app !! "subject" = None ->
        classify_applications re_search patterns (pre ++ app :: post)
        = Raise (KeyError "subject"))
    /\ (forall app subject,
          app !! "subject" = Some subject -> app !! "body" = None ->
          classify_applications re_search patterns [app]
          = (status ← classify_email re_search patterns (py_str subject) "";
             Ok [<["status" := PyStr status]> app])).
Proof.
  intros re_search patterns. split.
  - intros pre pre' app post Hpre Hs.
    rewrite classify_all_app, Hpre, bind_ok, classify_all_cons.
    unfold status_of, app_get. rewrite Hs. reflexivity.
  - intros app subject Hs Hb. rewrite classify_all_cons.
    unfold status_of, app_get. rewrite Hs, Hb, bind_ok. cbn [default from_option py_str].
    cbn [classify_applications].
    destruct (classify_email re_search patterns (py_str subject) ""); reflexivity.
Qed.

Lemma classify_applications_stable_witness :
  exists apps',
    classify_applications py_re_search Settings.EMAIL_PATTERNS
      [ sample_found "m1" "Your application" "Let us schedule a call" ] = Ok apps'
    /\ classify_applications py_re_search Settings.EMAIL_PATTERNS apps' = Ok apps'.
Proof.
  assert (Hok : is_ok (classify_applications py_re_search Settings.EMAIL_PATTERNS
              [ sample_found "m1" "Your application" "Let us schedule a call" ]) = true)
    by (vm_compute; reflexivity).
  destruct (classify_applications py_re_search Settings.EMAIL_PATTERNS
              [ sample_found "m1" "Your application" "Let us schedule a call" ])
    as [apps'|e] eqn:H.
  - exists apps'. split; [reflexivity|].
    exact (proj1 (classify_applications_stable py_re_search Settings.EMAIL_PATTERNS
                    _ apps' H)).
  - cbv in Hok. discriminate Hok.
Defined.

Lemma classify_applications_statuses_witness :
  exists apps',
    classify_applications py_re_search Settings.EMAIL_PATTERNS
      [ sample_found "m1" "Your application" "Let us schedule a call" ] = Ok apps'
    /\ (apps' !! 0) ≫= (fun app' => app' !! "status") = Some (PyStr "interview").
Proof.
  assert (Hok : is_ok (classify_applications py_re_search Settings.EMAIL_PATTERNS
              [ sample_found "m1" "Your application" "Let us schedule a call" ]) = true)
    by (vm_compute; reflexivity).
  destruct (classify_applications py_re_search Settings.EMAIL_PATTERNS
              [ sample_found "m1" "Your application" "Let us schedule a call" ])
    as [apps'|e] eqn:H.
  - exists apps'. split; [reflexivity|].
    destruct (classify_applications_statuses py_re_search Settings.EMAIL_PATTERNS
                _ apps' H 0
                (sample_found "m1" "Your application" "Let us schedule a call")
                eq_refl)
      as (subject & status & Hs & Hc & Hst & _).
    rewrite Hst. f_equal. f_equal.
    assert (Hsub : subject = PyStr "Your application")
      by (vm_compute in Hs; congruence).
    subst subject. vm_compute in Hc. congruence.
  - cbv in Hok. discriminate Hok.
Defined.

Lemma classify_applications_missing_keys_witness :
  classify_applications py_re_search Settings.EMAIL_PATTERNS
    ([ sample_found "m1" "Your application" "Let us schedule a call" ]
     ++ delete "subject" (sample_found "m2" "Offer" "") :: [])
  = Raise (KeyError "subject").
Proof.
  assert (Hok : is_ok (classify_applications py_re_search Settings.EMAIL_PATTERNS
              [ sample_found "m1" "Your application" "Let us schedule a call" ]) = true)
    by (vm_compute; reflexivity).
  destruct (classify_applications py_re_search Settings.EMAIL_PATTERNS
              [ sample_found "m1" "Your application" "Let us schedule a call" ])
    as [pre'|e] eqn:H.
  - apply (proj1 (classify_applications_missing_keys py_re_search
                    Settings.EMAIL_PATTERNS) _ pre' _ [] H).
    vm_compute. reflexivity.
  - cbv in Hok. discriminate Hok.
Defined.

(** ** New categories *)

Lemma dict_set_absent {V} (d : pydict V) key v :
  dict_get d key = None -> dict_set d key v = d ++ [(key, v)].
Proof.
  induction d as [|[k v0] d IH]; cbn; [reflexivity|].
  destruct (String.eqb k key); [discriminate|]. intros H. rewrite IH by exact H.
  reflexivity.
Qed.

Lemma dict_set_last {V} (d : pydict V) key v w :
  dict_get d key = None -> dict_set (d ++ [(key, v)]) key w = d ++ [(key, w)].
Proof.
  induction d as [|[k v0] d IH]; cbn.
  - rewrite String.eqb_refl. reflexivity.
  - destruct (String.eqb k key); [discriminate|]. intros H. rewrite IH by exact H.
    reflexivity.
Qed.

Lemma add_pattern_new patterns category pattern :
  dict_has patterns category = false ->
  add_pattern patterns category pattern = patterns ++ [(category, [pattern])].
Proof.
  intros Hnew. unfold add_pattern. rewrite Hnew.
  unfold dict_has in Hnew.
  destruct (dict_get patterns category) eqn:Hg; [discriminate|].
  rewrite dict_get_set_eq, (dict_set_absent _ _ _ Hg).
  apply dict_set_last. exact Hg.
Qed.

Lemma flatten_app items1 items2 : flatten (items1 ++ items2) = flatten items1 ++ flatten items2.
Proof. unfold flatten. apply flat_map_app. Qed.

Lemma scan_pairs_all_miss re_search content pairs rest :
  (forall c p, (c, p) ∈ pairs -> misses_in re_search content p) ->
  scan_pairs re_search content (pairs ++ rest) = scan_pairs re_search content rest.
Proof.
  induction pairs as [|[c0 p0] pairs IH]; intros Hall; [reflexivity|].
  cbn [app scan_pairs]. rewrite (Hall c0 p0) by left. rewrite bind_ok.
  apply IH. intros c p Hin. apply (Hall c p). right. exact Hin.
Qed.

(** X11.  A category that [add_pattern] creates has the lowest precedence:
    a text that a pattern of the existing categories matches keeps its
    category, and a text that none of them matches is put in the new
    category exactly when the new pattern matches it, and stays "unknown"
    otherwise. *)
Theorem add_pattern_new_category_last :
  forall (re_search : string -> string -> result (option Re.re_match))
         (patterns : pydict (list string)) (category pattern : string)
         (subject body : string),
    dict_has patterns category = false ->
    let content := PyStr.lower (subject +:+ " " +:+ body) in
    (forall i c p,
        flatten patterns !! i = Some (c, p) ->
        hits_in re_search content p ->
        (forall j c' p', j < i -> flatten patterns !! j = Some (c', p') ->
                         misses_in re_search content p') ->
        classify_email re_search (add_pattern patterns category pattern)
          subject body = Ok c
        /\ classify_email re_search patterns subject body = Ok c)
    /\ ((forall c p, (c, p) ∈ flatten patterns -> misses_in re_search content p) ->
        classify_email re_search patterns subject body = Ok "unknown"
        /\ (hits_in re_search content pattern ->
            classify_email re_search (add_pattern patterns category pattern)
              subject body = Ok category)
        /\ (misses_in re_search content pattern ->
            classify_email re_search (add_pattern patterns category pattern)
              subject body = Ok "unknown")).
Proof.
  intros re_search patterns category pattern subject body Hnew content.
  unfold classify_email. fold content.
  rewrite (add_pattern_new _ _ _ Hnew), !classify_loop_flat, flatten_app.
  change (flatten [(category, [pattern])]) with [(category, pattern)].
  split.
  - intros i c p Hi Hhit Hbefore. split.
    + apply (scan_flat_first re_search content _ i c p).
      * rewrite lookup_app_l by (apply lookup_lt_Some in Hi; exact Hi). exact Hi.
      * exact Hhit.
      * intros j c' p' Hj Hl. apply (Hbefore j c' p' Hj).
        rewrite lookup_app_l in Hl by (apply lookup_lt_Some in Hi; lia). exact Hl.
    + exact (scan_flat_first re_search content _ i c p Hi Hhit Hbefore).
  - intros Hall. split; [exact (scan_flat_none re_search content _ Hall)|].
    rewrite (scan_pairs_all_miss _ _ _ _ Hall). cbn [scan_pairs]. split.
    + intros [m Hm]. rewrite Hm. reflexivity.
    + intros Hm. unfold misses_in in Hm. rewrite Hm. reflexivity.
Qed.

Lemma add_pattern_new_category_last_witness :
  classify_email py_re_search
    (add_pattern Settings.EMAIL_PATTERNS "ghosted" "unfortunately")
    "Unfortunately we chose someone else" "" = Ok "rejection".
Proof.
  apply (proj1 (add_pattern_new_category_last py_re_search Settings.EMAIL_PATTERNS
                  "ghosted" "unfortunately" "Unfortunately we chose someone else" ""
                  eq_refl) 5 "rejection" "unfortunately").
  - reflexivity.
  - eexists. vm_compute. reflexivity.
  - intros j c' p' Hj Hl.
    do 5 (destruct j as [|j]; [inversion Hl; subst; vm_compute; reflexivity|]).
    lia.
Defined.

(** ** Counts of the summary *)

Lemma sum_counts_insert (m : gmap pyval nat) k v :
  sum_counts (<[k := v]> m) + default 0 (m !! k) = sum_counts m + v.
Proof.
  unfold sum_counts.
  assert (Hcomm : forall (m' : gmap pyval nat) (j1 j2 : pyval) (z1 z2 y : nat),
            j1 <> j2 -> m' !! j1 = Some z1 -> m' !! j2 = Some z2 ->
            z1 + (z2 + y) = z2 + (z1 + y)) by (intros; lia).
  destruct (m !! k) as [x|] eqn:Hk; cbn [default from_option]; unfold id.
  - rewrite (map_fold_delete_L _ _ k x m (Hcomm m) Hk).
    rewrite <- (insert_delete_eq m k v).
    rewrite (map_fold_insert_L _ _ k v (delete k m) (Hcomm _))
      by apply lookup_delete_eq.
    lia.
  - rewrite (map_fold_insert_L _ _ k v m (Hcomm _) Hk). lia.
Qed.

Lemma count_loop_sum rows : forall ws counts total,
  let '(_, counts', total') := count_loop rows ws counts total in
  sum_counts counts' + total = sum_counts counts + total'.
Proof.
  induction rows as [|row rows IH]; intros ws counts total; cbn [count_loop];
    [reflexivity|].
  destruct (truthy _).
  - specialize (IH (_get_cell ws row status_col)
                   (<[cell_value (_get_cell ws row status_col) row status_col
                      := default 0 (counts !! cell_value (_get_cell ws row status_col)
                                                 row status_col) + 1]> counts)
                   (total + 1)).
    destruct (count_loop rows _ _ _) as [[ws' counts'] total'].
    pose proof (sum_counts_insert counts
                  (cell_value (_get_cell ws row status_col) row status_col)
                  (default 0 (counts !! cell_value (_get_cell ws row status_col)
                                         row status_col) + 1)).
    lia.
  - apply IH.
Qed.

Lemma count_where_le (f g : positive -> bool) rows :
  (forall r, f r = true -> g r = true) ->
  count_where f rows <= count_where g rows.
Proof.
  intros Himp. unfold count_where.
  induction rows as [|r rows IH]; cbn [List.filter]; [lia|].
  destruct (f r) eqn:Ef.
  - rewrite (Himp r Ef). cbn [length]. lia.
  - destruct (g r); cbn [length]; lia.
Qed.

(** X12.  Whenever [get_application_summary] returns a summary, its total
    is at least 1 and equals the sum of the per-status counts, and every
    status listed is non-empty with a count between 1 and the total: the
    shares the caller computes from it divide by a non-zero total and add
    up to the whole. *)
Theorem summary_counts_add_up :
  forall (disk : Type) (path_exists : disk -> bool)
         (load_workbook : disk -> result workbook) (d : disk)
         (total : nat) (counts : gmap pyval nat),
    get_application_summary disk path_exists load_workbook d
    = Summary total counts ->
    1 <= total
    /\ sum_counts counts = total
    /\ forall s n, counts !! s = Some n ->
         1 <= n <= total /\ truthy s = true.
Proof.
  intros disk path_exists load_workbook d total counts H.
  unfold get_application_summary in H.
  destruct (negb (path_exists d)); [discriminate|].
  destruct (load_workbook d) as [wb|]; [|discriminate].
  destruct (wb !! sheet_name) as [ws|]; [|discriminate].
  pose proof (count_applications_by_status_spec ws) as Hspec.
  pose proof (count_loop_sum (py_range 2 (max_row ws + 1)) ws ∅ 0) as Hsum.
  unfold _count_applications_by_status in *.
  destruct (count_loop _ ws ∅ 0) as [[ws' counts'] total'].
  destruct Hspec as [Htot Hcnt].
  destruct (total' =? 0) eqn:E; [discriminate|]. apply Nat.eqb_neq in E.
  injection H as Ht Hc. rewrite <- Ht, <- Hc. clear Ht Hc total counts.
  split; [lia|]. split.
  - unfold sum_counts in Hsum at 2. rewrite map_fold_empty in Hsum. lia.
  - intros s n Hs. rewrite Hcnt in Hs.
    destruct (count_status ws s =? 0) eqn:E0; [discriminate|].
    apply Nat.eqb_neq in E0. injection Hs as <-.
    split; [split; [lia|]|].
    + rewrite Htot. unfold count_status, count_nonempty.
      apply count_where_le. intros r Hr. apply andb_true_iff in Hr.
      destruct Hr as [Ht Heq]. apply bool_decide_eq_true_1 in Heq.
      rewrite Heq. exact Ht.
    + destruct (truthy s) eqn:Ht; [reflexivity|]. exfalso. apply E0.
      unfold count_status, count_where.
      induction (data_rows ws) as [|r rows IHr]; [reflexivity|].
      cbn [List.filter]. destruct (truthy s); [discriminate|]. exact IHr.
Qed.

Lemma summary_counts_add_up_witness :
  exists total counts,
    get_application_summary SimpleDisk.file SimpleDisk.path_exists
      SimpleDisk.load_workbook (SimpleDisk.Stored sample_workbook)
    = Summary total counts
    /\ sum_counts counts = total.
Proof.
  destruct (get_application_summary SimpleDisk.file SimpleDisk.path_exists
              SimpleDisk.load_workbook (SimpleDisk.Stored sample_workbook))
    as [err|total counts] eqn:H.
  - exfalso. vm_compute in H. discriminate.
  - exists total, counts. split; [reflexivity|].
    exact (proj1 (proj2 (summary_counts_add_up _ _ _ _ total counts H))).
Defined.

(** ** Headers and sheets *)

(** X13.  [_ensure_headers] is idempotent and keeps the row count: after it
    has run, running it again changes no cell; on a sheet without cells it
    writes exactly the eight configured headers into row 1. *)
Theorem ensure_headers_idempotent :
  forall ws : worksheet,
    (forall r c, cell_value (_ensure_headers (_ensure_headers ws)) r c
                 = cell_value (_ensure_headers ws) r c)
    /\ max_row (_ensure_headers (_ensure_headers ws)) = max_row ws
    /\ row_values (_ensure_headers ∅) 1 = map PyStr Settings.EXCEL_HEADERS
    /\ length Settings.EXCEL_HEADERS = 8.
Proof.
  intros ws. split; [|split; [|split]].
  - intros r c. apply ensure_headers_present. apply ensure_headers_settled.
  - rewrite !max_row_ensure_headers. reflexivity.
  - vm_compute. reflexivity.
  - reflexivity.
Qed.

Section SheetFacts.

Variable disk : Type.
Variable path_exists : disk -> bool.
Variable load_workbook : disk -> result workbook.

Lemma get_or_create_existing d wb0 :
  path_exists d = true -> load_workbook d = Ok wb0 ->
  _get_or_create_workbook disk path_exists load_workbook d
  = Ok (match wb0 !! sheet_name with
        | Some ws => (wb0, ws)
        | None => (<[sheet_name := ∅]> wb0, ∅)
        end).
Proof.
  intros He Hl. unfold _get_or_create_workbook. rewrite He, Hl, bind_ok.
  destruct (wb0 !! sheet_name); reflexivity.
Qed.

End SheetFacts.

(** X14.  The workbook [update_applications] hands to [save] differs from
    the workbook it loaded in the sheet "Applications" only: every other
    sheet is kept as loaded; the sheet itself is the merge of the loaded
    sheet, or of an empty sheet when the workbook had none of that name. *)
Theorem update_keeps_other_sheets :
  forall (disk : Type) (path_exists : disk -> bool)
         (load_workbook : disk -> result workbook)
         (clock : nat -> Datetime.datetime) (d : disk)
         (apps : list application) (wb0 wb : workbook) (n : nat),
    path_exists d = true -> load_workbook d = Ok wb0 ->
    prepare disk path_exists load_workbook clock d apps = Ok (wb, n) ->
    (forall name, name <> sheet_name -> wb !! name = wb0 !! name)
    /\ exists ws',
         wb !! sheet_name = Some ws'
         /\ merge clock (default ∅ (wb0 !! sheet_name)) apps = Ok (ws', n).
Proof.
  intros disk path_exists load_workbook clock d apps wb0 wb n He Hl Hp.
  apply prepare_merged in Hp. destruct Hp as (wb1 & ws & ws' & Hg & Hm & ->).
  rewrite (get_or_create_existing _ _ _ _ wb0 He Hl) in Hg.
  split.
  - intros name Hne. rewrite lookup_insert_ne by congruence.
    destruct (wb0 !! sheet_name); inversion Hg; subst; [reflexivity|].
    apply lookup_insert_ne. congruence.
  - exists ws'. split; [apply lookup_insert_eq|].
    destruct (wb0 !! sheet_name); inversion Hg; subst; exact Hm.
Qed.

Lemma update_keeps_other_sheets_witness :
  exists wb n,
    prepare SimpleDisk.file SimpleDisk.path_exists SimpleDisk.load_workbook
      sample_clock
      (SimpleDisk.Stored (<["Notes" := sample_sheet]> sample_workbook))
      [sample_app (PyStr "m1") (PyStr "offer")] = Ok (wb, n)
    /\ wb !! "Notes" = Some sample_sheet.
Proof.
  assert (Hok : is_ok (prepare SimpleDisk.file SimpleDisk.path_exists SimpleDisk.load_workbook
              sample_clock
              (SimpleDisk.Stored (<["Notes" := sample_sheet]> sample_workbook))
              [sample_app (PyStr "m1") (PyStr "offer")]) = true)
    by (vm_compute; reflexivity).
  destruct (prepare SimpleDisk.file SimpleDisk.path_exists SimpleDisk.load_workbook
              sample_clock
              (SimpleDisk.Stored (<["Notes" := sample_sheet]> sample_workbook))
              [sample_app (PyStr "m1") (PyStr "offer")]) as [[wb n]|e] eqn:H.
  - exists wb, n. split; [reflexivity|].
    rewrite (proj1 (update_keeps_other_sheets
                      SimpleDisk.file SimpleDisk.path_exists
                      SimpleDisk.load_workbook sample_clock
                      (SimpleDisk.Stored (<["Notes" := sample_sheet]> sample_workbook))
                      [sample_app (PyStr "m1") (PyStr "offer")]
                      (<["Notes" := sample_sheet]> sample_workbook) wb n
                      eq_refl eq_refl H) "Notes") by discriminate.
    apply lookup_insert_eq.
  - cbv in Hok. discriminate Hok.
Defined.


(** ** Merging and counting *)

Lemma count_where_ext (f g : positive -> bool) rows :
  (forall r, r ∈ rows -> f r = g r) -> count_where f rows = count_where g rows.
Proof.
  unfold count_where. induction rows as [|r rows IH]; intros Hext; [reflexivity|].
  cbn [List.filter]. rewrite (Hext r) by left.
  assert (Hrest : forall r', r' ∈ rows -> f r' = g r') by (intros; apply Hext; right; assumption).
  destruct (g r); cbn [length]; rewrite (IH Hrest); reflexivity.
Qed.

Lemma count_where_app f rows1 rows2 :
  count_where f (rows1 ++ rows2) = count_where f rows1 + count_where f rows2.
Proof. unfold count_where. rewrite List.filter_app, length_app. reflexivity. Qed.

Lemma count_where_records (new : list application) (g : application -> bool) :
  forall (start : nat) (f : positive -> bool),
    (forall k a, new !! k = Some a -> f (Pos.of_nat (start + k)) = g a) ->
    count_where f (map Pos.of_nat (seq start (length new)))
    = length (List.filter g new).
Proof.
  unfold count_where.
  induction new as [|a new IH]; intros start f Hrow; [reflexivity|].
  cbn [length seq map List.filter].
  pose proof (Hrow 0 a eq_refl) as H0. rewrite Nat.add_0_r in H0. rewrite H0.
  assert (Hrest : forall k b, new !! k = Some b -> f (Pos.of_nat (S start + k)) = g b).
  { intros k b Hk. specialize (Hrow (S k) b Hk).
    replace (S start + k) with (start + S k) by lia. exact Hrow. }
  destruct (g a); cbn [length]; rewrite (IH (S start) f Hrest); reflexivity.
Qed.

Lemma new_row_status ws app stamp vals r :
  app_values app stamp = Ok vals -> row_values ws r = vals ->
  cell_value ws r status_col = status_value app.
Proof.
  unfold app_values, status_value.
  repeat match goal with
         | |- context [app_get app ?k] =>
             let E := fresh "E" in destruct (app_get app k) eqn:E; [|discriminate]
         end.
  rewrite !bind_ok. intros H Hrow. rewrite <- Hrow in H. clear Hrow.
  unfold row_values in H. cbn [map] in H.
  match goal with
  | E : app_get app "status" = Ok ?v |- _ =>
      unfold app_get in E; destruct (app !! "status") as [v'|]; [|discriminate];
      injection E as ->
  end.
  cbn [default from_option]. unfold id. unfold status_col. congruence.
Qed.

Lemma data_rows_merge ws ws' n :
  Pos.to_nat (max_row ws') = Pos.to_nat (max_row ws) + n ->
  data_rows ws'
  = data_rows ws ++ map Pos.of_nat (seq (Pos.to_nat (max_row ws) + 1) n).
Proof.
  intros Hmax. unfold data_rows, py_range.
  pose proof (Pos2Nat.is_pos (max_row ws)) as Hpos.
  rewrite <- map_app. f_equal.
  replace (Pos.to_nat (max_row ws' + 1) - Pos.to_nat 2)
    with ((Pos.to_nat (max_row ws + 1) - Pos.to_nat 2) + n) by lia.
  rewrite seq_app. f_equal. f_equal. lia.
Qed.

(** Counting the rows whose status cell satisfies [p], after a merge. *)
Lemma merge_count_rows clock ws apps ws' n (p : pyval -> bool) :
  merge clock ws apps = Ok (ws', n) ->
  count_where (fun r => p (cell_value ws' r status_col)) (data_rows ws')
  = count_where (fun r => p (cell_value ws r status_col)) (data_rows ws)
    + length (List.filter (fun a => p (status_value a))
                (new_applications (existing_ids ws) apps)).
Proof.
  intros Hm. apply merge_spec in Hm.
  destruct Hm as (Hn & Hmax & Hframe & Hrows & _).
  rewrite (data_rows_merge ws ws' n Hmax), count_where_app. f_equal.
  - apply count_where_ext. intros r Hr. unfold data_rows in Hr.
    apply elem_of_py_range in Hr. f_equal.
    rewrite Hframe by lia. apply ensure_headers_other_row. lia.
  - rewrite Hn.
    apply (count_where_records _ (fun a => p (status_value a))).
    intros k a Hk. f_equal.
    destruct (Hrows k a Hk) as (vals & Hvals & Hrow).
    replace (Pos.of_nat (Pos.to_nat (max_row ws) + 1 + k))
      with (max_row ws + Pos.of_nat (S k))%positive by lia.
    exact (new_row_status ws' a (clock k) vals _ Hvals Hrow).
Qed.

(** X15.  What a merge does to the counts of the summary: the number of
    rows with a non-empty status, and the number of rows of each status,
    grow by the numbers of appended records with such a status.  The
    appended records are those of the batch whose message id was not among
    the ids stored before the call. *)
Theorem merge_counts :
  forall (clock : nat -> Datetime.datetime) (ws ws' : worksheet)
         (apps : list application) (n : nat),
    merge clock ws apps = Ok (ws', n) ->
    let new := new_applications (existing_ids ws) apps in
    n = length new
    /\ count_nonempty ws' = count_nonempty ws + batch_total new
    /\ forall s, count_status ws' s = count_status ws s + batch_count new s.
Proof.
  intros clock ws ws' apps n Hm new. split; [|split].
  - apply merge_spec in Hm. apply Hm.
  - exact (merge_count_rows clock ws apps ws' n truthy Hm).
  - intros s.
    exact (merge_count_rows clock ws apps ws' n
             (fun v => truthy s && bool_decide (v = s)) Hm).
Qed.

Lemma merge_counts_witness :
  exists ws',
    merge sample_clock sample_sheet
      [sample_app (PyStr "m1") (PyStr "offer");
       sample_app (PyStr "m2") (PyStr "rejected")] = Ok (ws', 2)
    /\ count_nonempty ws' = 4
    /\ count_status ws' (PyStr "offer") = 3.
Proof.
  assert (Hok : is_ok (merge sample_clock sample_sheet
                         [sample_app (PyStr "m1") (PyStr "offer");
                          sample_app (PyStr "m2") (PyStr "rejected")]) = true)
    by (vm_compute; reflexivity).
  destruct (merge sample_clock sample_sheet
              [sample_app (PyStr "m1") (PyStr "offer");
               sample_app (PyStr "m2") (PyStr "rejected")])
    as [[ws' n]|e] eqn:H; [|cbv in Hok; discriminate Hok].
  destruct (merge_counts sample_clock sample_sheet ws'
              [sample_app (PyStr "m1") (PyStr "offer");
               sample_app (PyStr "m2") (PyStr "rejected")] n H)
    as (Hn & Htot & Hcnt).
  exists ws'. split; [|split].
  - rewrite Hn. vm_compute. reflexivity.
  - rewrite Htot. vm_compute. reflexivity.
  - rewrite Hcnt. vm_compute. reflexivity.
Defined.


(** ** A first update, then a summary *)

Lemma existing_ids_no_rows ws v :
  max_row ws = 1%positive -> v ∉ existing_ids ws.
Proof.
  intros Hmax Hin. apply existing_ids_stored in Hin.
  destruct Hin as (r & Hr & _). lia.
Qed.

Lemma new_applications_no_rows ws apps :
  max_row ws = 1%positive ->
  (forall app, app ∈ apps -> is_Some (app !! "message_id")) ->
  new_applications (existing_ids ws) apps = apps.
Proof.
  intros Hmax. unfold new_applications.
  induction apps as [|a apps IH]; intros Hids; [reflexivity|].
  cbn [List.filter]. unfold is_new at 1.
  destruct (Hids a) as [v Hv]; [left|]. rewrite Hv.
  rewrite bool_decide_eq_true_2 by (apply existing_ids_no_rows; exact Hmax).
  f_equal. apply IH. intros app Hin. apply Hids. right. exact Hin.
Qed.

Lemma max_row_empty : max_row (∅ : worksheet) = 1%positive.
Proof. reflexivity. Qed.

(** X16.  A first update followed by a summary.  When no file exists,
    [update_applications] reports success, and the workbook library reads
    back what it saved, [get_application_summary] on the new file counts
    exactly the records of the batch that have a non-empty status, per
    status; it reports "no applications" exactly when the batch has no such
    record.  Records of the batch that share a message id are all
    counted. *)
Theorem update_then_summary :
  forall (disk : Type) (path_exists : disk -> bool)
         (load_workbook : disk -> result workbook)
         (wb_save : workbook -> disk -> disk * result unit)
         (clock : nat -> Datetime.datetime) (d d' : disk)
         (apps : list application),
    path_exists d = false ->
    (forall wb d0 d1, wb_save wb d0 = (d1, Ok tt) ->
       path_exists d1 = true /\ load_workbook d1 = Ok wb) ->
    update_applications disk path_exists load_workbook wb_save clock d apps
    = (d', true) ->
    match get_application_summary disk path_exists load_workbook d' with
    | Summary total counts =>
        total = batch_total apps
        /\ forall s, counts !! s
                     = if batch_count apps s =? 0 then None
                       else Some (batch_count apps s)
    | SummaryError e => e = NoApplications /\ batch_total apps = 0
    end.
Proof.
  intros disk path_exists load_workbook wb_save clock d d' apps Habsent Hsave Hup.
  unfold update_applications in Hup.
  destruct (prepare disk path_exists load_workbook clock d apps)
    as [[wb n]|e] eqn:Hp; [|discriminate].
  destruct (wb_save wb d) as [d1 [[]|e]] eqn:Hs; [|discriminate].
  injection Hup as ->.
  destruct (Hsave wb d d' Hs) as [Hexists Hload].
  apply prepare_merged in Hp. destruct Hp as (wb0 & ws & ws' & Hg & Hm & ->).
  unfold _get_or_create_workbook in Hg. rewrite Habsent in Hg.
  injection Hg as <- <-.
  rewrite (summary_of_sheet disk path_exists load_workbook d'
             (<[sheet_name := ws']> {[sheet_name := ∅]}) ws' Hexists Hload
             (lookup_insert_eq _ _ _)).
  pose proof (count_applications_by_status_spec ws') as Hspec.
  destruct (_count_applications_by_status ws') as [[ws2 counts] total].
  destruct Hspec as [_ Hcnt]. cbn [fst snd].
  pose proof (merge_count_rows clock ∅ apps ws' n truthy Hm) as Htot.
  assert (Hnew : new_applications (existing_ids ∅) apps = apps).
  { apply new_applications_no_rows; [exact max_row_empty|].
    apply merge_spec in Hm. apply Hm. }
  rewrite Hnew in Htot.
  change (count_nonempty ws' = 0 + batch_total apps) in Htot.
  rewrite Nat.add_0_l in Htot. rewrite Htot.
  destruct (batch_total apps =? 0) eqn:E.
  - apply Nat.eqb_eq in E. split; [reflexivity|exact E].
  - split; [reflexivity|]. intros s. rewrite Hcnt.
    pose proof (merge_count_rows clock ∅ apps ws' n
                  (fun v => truthy s && bool_decide (v = s)) Hm) as Hs'.
    rewrite Hnew in Hs'.
    change (count_status ws' s = 0 + batch_count apps s) in Hs'.
    rewrite Nat.add_0_l in Hs'. rewrite Hs'. reflexivity.
Qed.

Lemma update_then_summary_witness :
  exists d',
    update_applications SimpleDisk.file SimpleDisk.path_exists
      SimpleDisk.load_workbook SimpleDisk.save_whole sample_clock
      SimpleDisk.NoFile
      [sample_app (PyStr "m1") (PyStr "offer");
       sample_app (PyStr "m1") (PyStr "offer")] = (d', true)
    /\ exists counts,
         get_application_summary SimpleDisk.file SimpleDisk.path_exists
           SimpleDisk.load_workbook d' = Summary 2 counts.
Proof.
  assert (Hok : snd (update_applications SimpleDisk.file SimpleDisk.path_exists
                       SimpleDisk.load_workbook SimpleDisk.save_whole sample_clock
                       SimpleDisk.NoFile
                       [sample_app (PyStr "m1") (PyStr "offer");
                        sample_app (PyStr "m1") (PyStr "offer")]) = true)
    by (vm_compute; reflexivity).
  destruct (update_applications SimpleDisk.file SimpleDisk.path_exists
              SimpleDisk.load_workbook SimpleDisk.save_whole sample_clock
              SimpleDisk.NoFile
              [sample_app (PyStr "m1") (PyStr "offer");
               sample_app (PyStr "m1") (PyStr "offer")]) as [d' ok] eqn:H.
  cbn [snd] in Hok. subst ok. exists d'. split; [reflexivity|].
  assert (Hsave : forall wb d0 d1, SimpleDisk.save_whole wb d0 = (d1, Ok tt) ->
            SimpleDisk.path_exists d1 = true /\ SimpleDisk.load_workbook d1 = Ok wb).
  { intros wb d0 d1 Hs. injection Hs as <-. split; reflexivity. }
  pose proof (update_then_summary SimpleDisk.file SimpleDisk.path_exists
                SimpleDisk.load_workbook SimpleDisk.save_whole sample_clock
                SimpleDisk.NoFile d'
                [sample_app (PyStr "m1") (PyStr "offer");
                 sample_app (PyStr "m1") (PyStr "offer")]
                eq_refl Hsave H) as Hres.
  destruct (get_application_summary SimpleDisk.file SimpleDisk.path_exists
              SimpleDisk.load_workbook d') as [e|total counts].
  - destruct Hres as [_ Hzero]. vm_compute in Hzero. discriminate Hzero.
  - destruct Hres as [-> _]. exists counts. reflexivity.
Defined.


(** ** From a search to the workbook *)

Section SearchInvariant.

Variable re_search : string -> string -> result (option Re.re_match).
Variable strptime : string -> string -> result Datetime.datetime.
Variable b64decode : string -> result string.
Variable get_message : string -> outcome message.
Variable list_messages : string -> nat -> outcome (option (list header)).

Local Notation process :=
  (_process_message re_search strptime b64decode get_message).
Local Notation process_all :=
  (process_messages re_search strptime b64decode get_message).
Local Notation search :=
  (search_application_emails re_search strptime b64decode get_message
     list_messages).

(** Whatever the listing holds, the loop only collects processed records. *)
Lemma process_all_records clock messages : forall i acc apps,
  process_all clock messages i acc = Return apps ->
  (forall app, app ∈ acc ->
     well_formed app /\ app !! "status" = Some (PyStr "unknown")) ->
  forall app, app ∈ apps ->
    well_formed app /\ app !! "status" = Some (PyStr "unknown").
Proof.
  induction messages as [|m rest IH]; intros i acc apps Hrun Hacc.
  - cbn [process_messages] in Hrun. injection Hrun as <-. exact Hacc.
  - cbn [process_messages] in Hrun.
    destruct (m !! "id") as [mid|] eqn:Hmid.
    + cbn [key lift] in Hrun. rewrite outcome_bind_return in Hrun.
      destruct (process (clock i) mid) as [a|x] eqn:Hp.
      * destruct (decide (a = ∅)); [exact (IH _ _ _ Hrun Hacc)|].
        apply (IH _ _ _ Hrun). intros app Hin.
        apply elem_of_app in Hin. destruct Hin as [Hin|Hin]; [exact (Hacc app Hin)|].
        apply list_elem_of_singleton in Hin. subst app.
        destruct (process_message_well_formed _ _ _ _ _ _ _ Hp)
          as (Hwf & _ & _ & Hst & _).
        split; assumption.
      * exact (IH _ _ _ Hrun Hacc).
    + cbn [key lift] in Hrun. discriminate Hrun.
Qed.

Lemma search_records is_authenticated authenticate clock start_date end_date apps :
  search is_authenticated authenticate clock start_date end_date = Return apps ->
  forall app, app ∈ apps ->
    well_formed app /\ app !! "status" = Some (PyStr "unknown").
Proof.
  unfold search_application_emails.
  destruct (negb is_authenticated && negb authenticate).
  - intros H app Hin. injection H as <-. inversion Hin.
  - destruct (strptime start_date "%Y-%m-%d") as [start_dt|e1];
      [cbn [lift]; rewrite outcome_bind_return|intros H; discriminate H].
    destruct (strptime end_date "%Y-%m-%d") as [end_dt|e2];
      [cbn [lift]; rewrite outcome_bind_return|intros H; discriminate H].
    cbv zeta.
    destruct (list_messages _ _) as [results|x];
      [rewrite outcome_bind_return|destruct x as [e|]].
    + destruct (process_all clock (default [] results) 0 []) as [found|x] eqn:Hrun.
      * intros H. injection H as <-.
        apply (process_all_records _ _ _ _ _ Hrun). intros app Hin. inversion Hin.
      * destruct x as [e|]; intros H; [discriminate H|].
        injection H as <-. intros app Hin. inversion Hin.
    + intros H. discriminate H.
    + intros H. injection H as <-. intros app Hin. inversion Hin.
Qed.

End SearchInvariant.

Section ClassifyTotal.

Variable re_search : string -> string -> result (option Re.re_match).
Variable patterns : pydict (list string).
Hypothesis Hvalid : patterns_valid re_search patterns.

Lemma scan_pairs_total content pairs :
  (forall c p, (c, p) ∈ pairs -> is_ok (re_search p content) = true) ->
  exists status, scan_pairs re_search content pairs = Ok status.
Proof.
  induction pairs as [|[c p] rest IH]; intros Hall; [eexists; reflexivity|].
  cbn [scan_pairs].
  pose proof (Hall c p ltac:(left)) as Hp.
  destruct (re_search p content) as [[m|]|]; [| |discriminate Hp]; rewrite bind_ok.
  - eexists; reflexivity.
  - apply IH. intros c' p' Hin. apply (Hall c' p'). right. exact Hin.
Qed.

Lemma classify_email_total subject body :
  exists status, classify_email re_search patterns subject body = Ok status.
Proof.
  unfold classify_email. cbv zeta. rewrite classify_loop_flat.
  apply scan_pairs_total. intros c p Hin. exact (Hvalid c p _ Hin).
Qed.

Lemma classify_all_total apps :
  (forall app, app ∈ apps -> is_Some (app !! "subject")) ->
  exists apps', classify_applications re_search patterns apps = Ok apps'.
Proof.
  induction apps as [|app rest IH]; intros Hsub; [eexists; reflexivity|].
  rewrite classify_all_cons. unfold status_of, app_get.
  destruct (Hsub app ltac:(left)) as [subject Hs]. rewrite Hs, bind_ok.
  destruct (classify_email_total (py_str subject)
              (py_str (default (PyStr "") (app !! "body")))) as [st Hst].
  rewrite Hst, bind_ok.
  destruct IH as [rest' Hrest]; [intros a Ha; apply Hsub; right; exact Ha|].
  rewrite Hrest, bind_ok. eexists; reflexivity.
Qed.

End ClassifyTotal.

Lemma well_formed_insert app key v :
  well_formed app -> well_formed (<[key := v]> app).
Proof.
  intros Hwf k Hk. destruct (decide (key = k)) as [->|Hne].
  - rewrite lookup_insert_eq. eauto.
  - rewrite lookup_insert_ne by exact Hne. apply Hwf. exact Hk.
Qed.

Lemma classify_all_records re_search patterns apps apps' :
  classify_applications re_search patterns apps = Ok apps' ->
  (forall app, app ∈ apps -> well_formed app) ->
  forall app', app' ∈ apps' ->
    well_formed app' /\ exists status, app' !! "status" = Some (PyStr status).
Proof.
  intros H Hwf app' Hin.
  destruct (classify_all_spec _ _ _ _ H) as [Hlen Hnth].
  apply list_elem_of_lookup in Hin. destruct Hin as [i Hi].
  assert (Hlt : i < length apps)
    by (rewrite <- Hlen; apply lookup_lt_is_Some; eauto).
  apply lookup_lt_is_Some in Hlt. destruct Hlt as [app Happ].
  destruct (Hnth i app Happ) as (st & _ & Hi').
  rewrite Hi in Hi'. injection Hi' as ->. split.
  - apply well_formed_insert. apply Hwf.
    apply list_elem_of_lookup. eauto.
  - exists st. apply lookup_insert_eq.
Qed.

(** ** The reply of a scan *)

Lemma counts_set_keys counts status n :
  (forall k m, (k, m) ∈ counts -> exists s, k = PyStr s) ->
  (exists s, status = PyStr s) ->
  forall k m, (k, m) ∈ counts_set counts status n -> exists s, k = PyStr s.
Proof.
  induction counts as [|[k0 m0] rest IH]; intros Hkeys Hst k m Hin.
  - cbn [counts_set] in Hin. apply list_elem_of_singleton in Hin.
    injection Hin as -> _. exact Hst.
  - cbn [counts_set] in Hin. destruct (decide (k0 = status)).
    + apply elem_of_cons in Hin. destruct Hin as [Heq|Hin].
      * injection Heq as -> _. apply (Hkeys k0 m0). left.
      * apply (Hkeys k m). right. exact Hin.
    + apply elem_of_cons in Hin. destruct Hin as [Heq|Hin].
      * injection Heq as -> _. apply (Hkeys k0 m0). left.
      * apply (IH (fun k' m' H' => Hkeys k' m' ltac:(right; exact H')) Hst k m Hin).
Qed.

Lemma scan_counts_total apps : forall counts,
  (forall app, app ∈ apps -> exists s, app !! "status" = Some (PyStr s)) ->
  (forall k m, (k, m) ∈ counts -> exists s, k = PyStr s) ->
  exists counts', Server.scan_counts apps counts = Ok counts'
    /\ forall k m, (k, m) ∈ counts' -> exists s, k = PyStr s.
Proof.
  induction apps as [|app rest IH]; intros counts Hst Hkeys.
  - exists counts. split; [reflexivity|exact Hkeys].
  - cbn [Server.scan_counts]. unfold app_get.
    destruct (Hst app ltac:(left)) as [s Hs]. rewrite Hs, bind_ok.
    apply IH.
    + intros a Ha. apply Hst. right. exact Ha.
    + apply counts_set_keys; [exact Hkeys|eauto].
Qed.

Lemma scan_lines_total items : forall summary,
  (forall k m, (k, m) ∈ items -> exists s, k = PyStr s) ->
  exists rest, Server.scan_lines items summary = Ok (summary +:+ rest).
Proof.
  induction items as [|[k m] items IH]; intros summary Hkeys.
  - exists "". cbn [Server.scan_lines]. rewrite append_nil_r. reflexivity.
  - cbn [Server.scan_lines].
    destruct (Hkeys k m ltac:(left)) as [s ->]. cbn [py_title]. rewrite bind_ok.
    destruct (IH (summary +:+ bullet +:+ " " +:+ PyStr.title s +:+ ": "
                          +:+ nat_text m +:+ newline)
                 (fun k' m' H' => Hkeys k' m' ltac:(right; exact H')))
      as [rest Hrest].
    rewrite Hrest. eexists. rewrite !append_assoc. reflexivity.
Qed.

Lemma generate_scan_summary_total
    {path : Type} (path_text : path -> string) (excel_path : path) apps :
  (forall app, app ∈ apps -> exists s, app !! "status" = Some (PyStr s)) ->
  exists rest,
    Server._generate_scan_summary path path_text excel_path apps
    = Ok ("Successfully processed " +:+ nat_text (length apps) +:+ rest).
Proof.
  intros Hst. unfold Server._generate_scan_summary.
  destruct (scan_counts_total apps [] Hst) as (counts & -> & Hkeys).
  { intros k m Hin. inversion Hin. }
  rewrite bind_ok.
  destruct (scan_lines_total counts
              ("Successfully processed " +:+ nat_text (length apps)
               +:+ " job application emails:" +:+ newline +:+ newline) Hkeys)
    as [rest ->].
  rewrite bind_ok. eexists. rewrite !append_assoc. reflexivity.
Qed.



Lemma default_patterns_valid : patterns_valid py_re_search Settings.EMAIL_PATTERNS.
Proof.
  intros category pattern content Hin. unfold py_re_search.
  assert (Hall : forallb (fun cp => match Re.compile (snd cp) with Some _ => true | None => false end)
                   (flatten Settings.EMAIL_PATTERNS) = true)
    by (vm_compute; reflexivity).
  rewrite forallb_forall in Hall.
  specialize (Hall (category, pattern) (proj1 (list_elem_of_In _ _) Hin)).
  cbn [snd] in Hall. destruct (Re.compile pattern); [reflexivity|discriminate Hall].
Qed.

Section ScanFacts.

Variable re_search : string -> string -> result (option Re.re_match).
Variable strptime : string -> string -> result Datetime.datetime.
Variable b64decode : string -> result string.
Variable get_message : string -> outcome message.
Variable list_messages : string -> nat -> outcome (option (list header)).
Variable path : Type.
Variable Path : string -> path.
Variable path_text : path -> string.
Variable exc_text : pyexc -> string.
Variable disk : Type.
Variable path_exists : path -> disk -> bool.
Variable load_workbook : path -> disk -> result workbook.
Variable wb_save : path -> workbook -> disk -> disk * result unit.

Local Notation search :=
  (search_application_emails re_search strptime b64decode get_message
     list_messages).
Local Notation handle :=
  (Server._handle_scan_applications re_search strptime b64decode get_message
     list_messages path Path path_text exc_text disk path_exists load_workbook
     wb_save).

Lemma handle_scan_no_records tracker d is_authenticated authenticate
    search_clock clock start_date end_date excel_path :
  search is_authenticated authenticate search_clock start_date end_date
  = Return [] ->
  handle tracker d is_authenticated authenticate search_clock clock
    start_date end_date excel_path
  = (chosen_tracker Path tracker excel_path, d,
     "No job application emails found in the specified date range.").
Proof.
  intros Hs. unfold Server._handle_scan_applications. rewrite Hs.
  unfold chosen_tracker, Server.new_tracker.
  destruct excel_path as [p|]; [destruct (truthy (PyStr p))|]; reflexivity.
Qed.

Lemma handle_scan_raised tracker d is_authenticated authenticate
    search_clock clock start_date end_date excel_path x :
  search is_authenticated authenticate search_clock start_date end_date
  = Throw x ->
  handle tracker d is_authenticated authenticate search_clock clock
    start_date end_date excel_path
  = (chosen_tracker Path tracker excel_path, d,
     "Error scanning applications: " +:+ exc_text x).
Proof.
  intros Hs. unfold Server._handle_scan_applications. rewrite Hs.
  unfold chosen_tracker, Server.new_tracker, Server.error_reply.
  destruct excel_path as [p|]; [destruct (truthy (PyStr p))|]; reflexivity.
Qed.

Lemma handle_scan_records tracker d is_authenticated authenticate
    search_clock clock start_date end_date excel_path found :
  patterns_valid re_search Settings.EMAIL_PATTERNS ->
  search is_authenticated authenticate search_clock start_date end_date
  = Return found ->
  found <> [] ->
  let chosen := chosen_tracker Path tracker excel_path in
  exists apps' rest,
    classify_applications re_search Settings.EMAIL_PATTERNS found = Ok apps'
    /\ length apps' = length found
    /\ (forall app', app' ∈ apps' -> well_formed app')
    /\ handle tracker d is_authenticated authenticate search_clock clock
         start_date end_date excel_path
       = let '(d', success) :=
           update_applications disk (path_exists chosen) (load_workbook chosen)
             (wb_save chosen) clock d apps' in
         (chosen, d',
          if success
          then "Successfully processed " +:+ nat_text (length found) +:+ rest
          else "Found applications but failed to update Excel file.").
Proof.
  intros Hvalid Hs Hne chosen.
  pose proof (search_records _ _ _ _ _ _ _ _ _ _ _ Hs) as Hrec.
  destruct (classify_all_total re_search Settings.EMAIL_PATTERNS Hvalid found)
    as [apps' Hc].
  { intros app Hin. apply (proj1 (Hrec app Hin)). repeat constructor. }
  pose proof (classify_all_records _ _ _ _ Hc
                (fun app Hin => proj1 (Hrec app Hin))) as Hrec'.
  destruct (classify_all_spec _ _ _ _ Hc) as [Hlen _].
  destruct (generate_scan_summary_total path_text chosen apps'
              (fun app Hin => proj2 (Hrec' app Hin))) as [rest Hsum].
  exists apps', rest. split; [exact Hc|]. split; [exact Hlen|].
  split; [intros app' Hin; exact (proj1 (Hrec' app' Hin))|].
  unfold Server._handle_scan_applications. rewrite Hs.
  destruct found as [|a l]; [congruence|]. rewrite Hc.
  assert (Hch : match excel_path with
                | Some p => if truthy (PyStr p)
                            then Server.new_tracker path Path excel_path
                            else tracker
                | None => tracker
                end = chosen).
  { unfold chosen, chosen_tracker, Server.new_tracker.
    destruct excel_path as [p|]; [destruct (truthy (PyStr p)) eqn:E|];
      reflexivity. }
  rewrite Hch.
  destruct (update_applications disk (path_exists chosen) (load_workbook chosen)
              (wb_save chosen) clock d apps') as [d' success].
  destruct success; [|reflexivity].
  rewrite Hsum, Hlen. reflexivity.
Qed.

End ScanFacts.

(** X18.  A scan whose search returns records never ends in an error
    reply, provided the regular-expression library accepts the configured
    patterns: the records are classified, handed to [update_applications]
    on the chosen workbook path, and the reply is the success summary or
    the text "Found applications but failed to update Excel file."; the
    summary opens with the number of records found, whether or not the
    update added them.  A non-empty [excel_path] replaces the server's
    workbook path, also for later calls. *)
Theorem scan_reply_after_search :
  forall (re_search : string -> string -> result (option Re.re_match))
         (strptime : string -> string -> result Datetime.datetime)
         (b64decode : string -> result string)
         (get_message : string -> outcome message)
         (list_messages : string -> nat -> outcome (option (list header)))
         (path : Type) (Path : string -> path) (path_text : path -> string)
         (exc_text : pyexc -> string)
         (disk : Type) (path_exists : path -> disk -> bool)
         (load_workbook : path -> disk -> result workbook)
         (wb_save : path -> workbook -> disk -> disk * result unit)
         (tracker : path) (d : disk) (is_authenticated authenticate : bool)
         (search_clock clock : nat -> Datetime.datetime)
         (start_date end_date : string) (excel_path : option string)
         (found : list application),
    patterns_valid re_search Settings.EMAIL_PATTERNS ->
    search_application_emails re_search strptime b64decode get_message
      list_messages is_authenticated authenticate search_clock
      start_date end_date = Return found ->
    found <> [] ->
    let chosen := chosen_tracker Path tracker excel_path in
    exists apps' rest,
      classify_applications re_search Settings.EMAIL_PATTERNS found = Ok apps'
      /\ length apps' = length found
      /\ (forall app', app' ∈ apps' -> well_formed app')
      /\ Server._handle_scan_applications re_search strptime b64decode
           get_message list_messages path Path path_text exc_text disk
           path_exists load_workbook wb_save tracker d is_authenticated
           authenticate search_clock clock start_date end_date excel_path
         = let '(d', success) :=
             update_applications disk (path_exists chosen)
               (load_workbook chosen) (wb_save chosen) clock d apps' in
           (chosen, d',
            if success
            then "Successfully processed " +:+ nat_text (length found) +:+ rest
            else "Found applications but failed to update Excel file.").
Proof.
  intros. apply handle_scan_records; assumption.
Qed.

(** X19.  What a scan replies when Gmail gave nothing: without
    authentication, and when the listing raises [HttpError], the reply is
    "No job application emails found in the specified date range.", as for
    an empty listing; when a date does not parse the reply is "Error
    scanning applications: " followed by the text of the exception.  In
    all these cases the disk is left as it was (no workbook is created). *)
Theorem scan_without_records :
  forall (re_search : string -> string -> result (option Re.re_match))
         (strptime : string -> string -> result Datetime.datetime)
         (b64decode : string -> result string)
         (get_message : string -> outcome message)
         (list_messages : string -> nat -> outcome (option (list header)))
         (path : Type) (Path : string -> path) (path_text : path -> string)
         (exc_text : pyexc -> string)
         (disk : Type) (path_exists : path -> disk -> bool)
         (load_workbook : path -> disk -> result workbook)
         (wb_save : path -> workbook -> disk -> disk * result unit)
         (tracker : path) (d : disk) (is_authenticated authenticate : bool)
         (search_clock clock : nat -> Datetime.datetime)
         (start_date end_date : string) (excel_path : option string),
    let reply :=
      Server._handle_scan_applications re_search strptime b64decode
        get_message list_messages path Path path_text exc_text disk
        path_exists load_workbook wb_save tracker d is_authenticated
        authenticate search_clock clock start_date end_date excel_path in
    let chosen := chosen_tracker Path tracker excel_path in
    let none_found :=
      "No job application emails found in the specified date range." in
    (is_authenticated = false -> authenticate = false ->
     reply = (chosen, d, none_found))
    /\ (is_authenticated = true \/ authenticate = true ->
        (forall e, strptime start_date "%Y-%m-%d" = Raise e ->
           reply = (chosen, d,
                    "Error scanning applications: " +:+ exc_text (Builtin e)))
        /\ (forall start_dt end_dt,
              strptime start_date "%Y-%m-%d" = Ok start_dt ->
              strptime end_date "%Y-%m-%d" = Ok end_dt ->
              forall results,
                list_messages (_build_search_query start_dt end_dt)
                              SearchSettings.MAX_SEARCH_RESULTS = results ->
                results = Throw HttpError \/ results = Return None
                \/ results = Return (Some []) ->
                reply = (chosen, d, none_found))).
Proof.
  intros re_search strptime b64decode get_message list_messages path Path
         path_text exc_text disk path_exists load_workbook wb_save tracker d
         is_authenticated authenticate search_clock clock start_date end_date
         excel_path reply chosen none_found.
  split; [|intros Hauth; split].
  - intros -> ->. apply handle_scan_no_records. reflexivity.
  - intros e He. apply handle_scan_raised.
    unfold search_application_emails.
    assert (Hgate : negb is_authenticated && negb authenticate = false)
      by (destruct Hauth as [-> | ->]; [reflexivity|apply andb_false_r]).
    rewrite Hgate, He. reflexivity.
  - intros start_dt end_dt Hs He results Hl Hcases.
    apply handle_scan_no_records.
    unfold search_application_emails.
    assert (Hgate : negb is_authenticated && negb authenticate = false)
      by (destruct Hauth as [-> | ->]; [reflexivity|apply andb_false_r]).
    rewrite Hgate, Hs. cbn [lift]. rewrite outcome_bind_return.
    rewrite He. cbn [lift]. rewrite outcome_bind_return. cbv zeta.
    rewrite Hl. destruct Hcases as [-> | [-> | ->]]; reflexivity.
Qed.

Lemma scan_reply_after_search_witness :
  exists found apps' rest,
    search_application_emails py_re_search sample_strptime sample_decode
      sample_get_message sample_list_messages true false sample_clock
      "2024-01-01" "2024-02-01" = Return found
    /\ classify_applications py_re_search Settings.EMAIL_PATTERNS found = Ok apps'
    /\ Server._handle_scan_applications py_re_search sample_strptime
         sample_decode sample_get_message sample_list_messages
         string (fun p => p) (fun p => p) sample_exc_text
         SimpleDisk.file (fun _ => SimpleDisk.path_exists)
         (fun _ => SimpleDisk.load_workbook) (fun _ => SimpleDisk.save_whole)
         Server.DEFAULT_EXCEL_PATH SimpleDisk.NoFile true false
         sample_clock sample_clock "2024-01-01" "2024-02-01" (Some "jobs.xlsx")
       = let '(d', success) :=
           update_applications SimpleDisk.file SimpleDisk.path_exists
             SimpleDisk.load_workbook SimpleDisk.save_whole sample_clock
             SimpleDisk.NoFile apps' in
         ("jobs.xlsx", d',
          if success
          then "Successfully processed " +:+ nat_text (length found) +:+ rest
          else "Found applications but failed to update Excel file.").
Proof.
  assert (Hok : match search_application_emails py_re_search sample_strptime
                        sample_decode sample_get_message sample_list_messages
                        true false sample_clock "2024-01-01" "2024-02-01" with
                | Return (_ :: _) => true
                | _ => false
                end = true) by (vm_compute; reflexivity).
  destruct (search_application_emails py_re_search sample_strptime
              sample_decode sample_get_message sample_list_messages
              true false sample_clock "2024-01-01" "2024-02-01")
    as [[|a l]|x] eqn:H; [discriminate Hok| |discriminate Hok].
  destruct (scan_reply_after_search py_re_search sample_strptime
              sample_decode sample_get_message sample_list_messages
              string (fun p => p) (fun p => p) sample_exc_text
              SimpleDisk.file (fun _ => SimpleDisk.path_exists)
              (fun _ => SimpleDisk.load_workbook) (fun _ => SimpleDisk.save_whole)
              Server.DEFAULT_EXCEL_PATH SimpleDisk.NoFile true false
              sample_clock sample_clock "2024-01-01" "2024-02-01"
              (Some "jobs.xlsx") (a :: l) default_patterns_valid H
              ltac:(discriminate))
    as (apps' & rest & Hc & _ & _ & Hh).
  exists (a :: l), apps', rest.
  split; [reflexivity|]. split; [exact Hc|exact Hh].
Defined.

Lemma scan_without_records_witness :
  Server._handle_scan_applications py_re_search sample_strptime
    sample_decode sample_get_message sample_list_messages
    string (fun p => p) (fun p => p) sample_exc_text
    SimpleDisk.file (fun _ => SimpleDisk.path_exists)
    (fun _ => SimpleDisk.load_workbook) (fun _ => SimpleDisk.save_whole)
    Server.DEFAULT_EXCEL_PATH SimpleDisk.NoFile true false
    sample_clock sample_clock "01/01/2024" "2024-02-01" None
  = (Server.DEFAULT_EXCEL_PATH, SimpleDisk.NoFile,
     "Error scanning applications: error").
Proof.
  apply (proj1 (proj2 (scan_without_records py_re_search sample_strptime
                         sample_decode sample_get_message sample_list_messages
                         string (fun p => p) (fun p => p) sample_exc_text
                         SimpleDisk.file (fun _ => SimpleDisk.path_exists)
                         (fun _ => SimpleDisk.load_workbook)
                         (fun _ => SimpleDisk.save_whole)
                         Server.DEFAULT_EXCEL_PATH SimpleDisk.NoFile true false
                         sample_clock sample_clock "01/01/2024" "2024-02-01" None)
                      (or_introl eq_refl)) ValueError).
  vm_compute. reflexivity.
Defined.


(** ** Message ids from the listing to the table *)

Section SearchIds.

Variable re_search : string -> string -> result (option Re.re_match).
Variable strptime : string -> string -> result Datetime.datetime.
Variable b64decode : string -> result string.
Variable get_message : string -> outcome message.
Variable list_messages : string -> nat -> outcome (option (list header)).

Local Notation process :=
  (_process_message re_search strptime b64decode get_message).
Local Notation process_all :=
  (process_messages re_search strptime b64decode get_message).
Local Notation search :=
  (search_application_emails re_search strptime b64decode get_message
     list_messages).



End SearchIds.





(** ** The text of the scan summary *)

Lemma counts_get_set counts status n status' dflt :
  counts_get (counts_set counts status n) status' dflt
  = if decide (status = status') then n else counts_get counts status' dflt.
Proof.
  induction counts as [|[k m] rest IH]; cbn [counts_set counts_get].
  - destruct (decide (status = status')); reflexivity.
  - destruct (decide (k = status)) as [->|Hne]; cbn [counts_get].
    + destruct (decide (status = status')); reflexivity.
    + rewrite IH. destruct (decide (k = status')) as [->|Hne'].
      * destruct (decide (status = status')); [congruence|reflexivity].
      * reflexivity.
Qed.

Lemma counts_set_keys_eq counts status n :
  map fst (counts_set counts status n)
  = if decide (status ∈ map fst counts) then map fst counts
    else map fst counts ++ [status].
Proof.
  induction counts as [|[k m] rest IH]; cbn [counts_set map fst app].
  - destruct (decide (status ∈ [])) as [Hin|_]; [inversion Hin|reflexivity].
  - destruct (decide (k = status)) as [->|Hne]; cbn [map fst].
    + rewrite decide_True by left. reflexivity.
    + rewrite IH. destruct (decide (status ∈ map fst rest)) as [Hin|Hnin].
      * rewrite decide_True by (right; exact Hin). reflexivity.
      * rewrite decide_False; [reflexivity|].
        intros Hin. apply elem_of_cons in Hin. destruct Hin; congruence.
Qed.

Lemma counts_get_elem counts status n dflt :
  NoDup (map fst counts) -> (status, n) ∈ counts ->
  counts_get counts status dflt = n.
Proof.
  induction counts as [|[k m] rest IH]; intros Hnd Hin; [inversion Hin|].
  cbn [map fst] in Hnd. apply NoDup_cons in Hnd. destruct Hnd as [Hk Hnd].
  cbn [counts_get]. apply elem_of_cons in Hin. destruct Hin as [Heq|Hin].
  - injection Heq as -> ->. rewrite decide_True by reflexivity. reflexivity.
  - destruct (decide (k = status)) as [->|Hne]; [|exact (IH Hnd Hin)].
    exfalso. apply Hk. apply list_elem_of_fmap. exists (status, n).
    split; [reflexivity|exact Hin].
Qed.

Lemma status_count_snoc done app status :
  status_count (done ++ [app]) status
  = status_count done status
    + (if decide (app !! "status" = Some status) then 1 else 0).
Proof.
  unfold status_count. rewrite List.filter_app, length_app. cbn [List.filter].
  destruct (decide (app !! "status" = Some status)) as [H|H].
  - rewrite bool_decide_eq_true_2 by exact H. reflexivity.
  - rewrite bool_decide_eq_false_2 by exact H. reflexivity.
Qed.

(** The first loop of the summary counts the records by status. *)
Lemma scan_counts_spec rest : forall done counts,
  (forall app, app ∈ rest -> exists s, app !! "status" = Some (PyStr s)) ->
  NoDup (map fst counts) ->
  (forall status, counts_get counts status 0 = status_count done status) ->
  (forall status, status ∈ map fst counts <-> 0 < status_count done status) ->
  (forall status, status ∈ map fst counts -> exists s, status = PyStr s) ->
  exists counts',
    Server.scan_counts rest counts = Ok counts'
    /\ NoDup (map fst counts')
    /\ (forall status, counts_get counts' status 0
                       = status_count (done ++ rest) status)
    /\ (forall status, status ∈ map fst counts'
                       <-> 0 < status_count (done ++ rest) status)
    /\ (forall status, status ∈ map fst counts' -> exists s, status = PyStr s).
Proof.
  induction rest as [|app rest IH]; intros done counts Hst Hnd Hget Hkeys Hstr.
  - exists counts. rewrite app_nil_r. repeat split; try assumption; apply Hkeys.
  - cbn [Server.scan_counts]. unfold app_get.
    destruct (Hst app ltac:(left)) as [s Hs]. rewrite Hs, bind_ok.
    replace (done ++ app :: rest) with ((done ++ [app]) ++ rest)
      by (rewrite <- app_assoc; reflexivity).
    apply IH.
    + intros a Ha. apply Hst. right. exact Ha.
    + rewrite counts_set_keys_eq.
      destruct (decide (PyStr s ∈ map fst counts)) as [Hin|Hnin]; [exact Hnd|].
      apply NoDup_app. split; [exact Hnd|]. split.
      * intros x Hx Hx'. apply list_elem_of_singleton in Hx'. subst x. contradiction.
      * apply NoDup_singleton.
    + intros status. rewrite counts_get_set, status_count_snoc, Hs, !Hget.
      destruct (decide (PyStr s = status)) as [->|Hne].
      * rewrite decide_True by reflexivity. reflexivity.
      * rewrite decide_False by congruence. lia.
    + intros status. rewrite counts_set_keys_eq, status_count_snoc, Hs.
      destruct (decide (Some (PyStr s) = Some status)) as [Heq|Hne].
      * injection Heq as <-.
        destruct (decide (PyStr s ∈ map fst counts)) as [Hin|Hnin].
        -- split; [lia|intros _; exact Hin].
        -- split; [lia|]. intros _. apply elem_of_app. right. left.
      * destruct (decide (PyStr s ∈ map fst counts)) as [Hin|Hnin].
        -- rewrite Hkeys. lia.
        -- rewrite elem_of_app, Hkeys, list_elem_of_singleton.
           split; [intros [H|H]; [lia|congruence]|intros H; left; lia].
    + intros status. rewrite counts_set_keys_eq.
      destruct (decide (PyStr s ∈ map fst counts)) as [Hin|Hnin]; [apply Hstr|].
      intros H. apply elem_of_app in H. destruct H as [H|H]; [exact (Hstr _ H)|].
      apply list_elem_of_singleton in H. eauto.
Qed.

Lemma scan_lines_spec items : forall summary,
  (forall status, status ∈ map fst items -> exists s, status = PyStr s) ->
  Server.scan_lines items summary = Ok (summary +:+ summary_lines items).
Proof.
  induction items as [|[k m] items IH]; intros summary Hkeys.
  - cbn [Server.scan_lines summary_lines]. rewrite append_nil_r. reflexivity.
  - cbn [Server.scan_lines summary_lines].
    destruct (Hkeys k ltac:(left)) as [s ->]. cbn [py_title py_str].
    rewrite bind_ok, IH by (intros st Hin; apply Hkeys; right; exact Hin).
    rewrite !append_assoc. reflexivity.
Qed.

(** X21.  The text of the scan summary.  For records that all have a
    string status, [_generate_scan_summary] returns the line "Successfully
    processed N job application emails:" with N the number of records, an
    empty line, one line "(bullet) Status: n" for each status that occurs,
    each status once and with n the number of records of that status, an
    empty line, and "Data saved to: " with the workbook path. *)
Theorem scan_summary_text :
  forall (path : Type) (path_text : path -> string) (excel_path : path)
         (apps : list application),
    (forall app, app ∈ apps -> exists s, app !! "status" = Some (PyStr s)) ->
    exists counts : list (pyval * nat),
      NoDup (map fst counts)
      /\ (forall status n,
            (status, n) ∈ counts
            <-> n = status_count apps status /\ 1 <= n)
      /\ Server._generate_scan_summary path path_text excel_path apps
         = Ok ("Successfully processed " +:+ nat_text (length apps)
               +:+ " job application emails:" +:+ newline +:+ newline
               +:+ summary_lines counts
               +:+ newline +:+ "Data saved to: " +:+ path_text excel_path).
Proof.
  intros path path_text excel_path apps Hst.
  destruct (scan_counts_spec apps [] [] Hst) as (counts & Hc & Hnd & Hget & Hkeys & Hstr).
  - constructor.
  - intros status. reflexivity.
  - intros status. cbn. split; [intros H; inversion H|lia].
  - intros status H. inversion H.
  - cbn [app] in Hget, Hkeys. exists counts. split; [exact Hnd|]. split.
    + intros status n. split.
      * intros Hin.
        assert (Hk : status ∈ map fst counts)
          by (apply list_elem_of_fmap; exists (status, n); split; [reflexivity|exact Hin]).
        rewrite <- Hget, (counts_get_elem counts status n 0 Hnd Hin).
        split; [reflexivity|].
        apply Hkeys in Hk. rewrite <- Hget, (counts_get_elem counts status n 0 Hnd Hin) in Hk.
        lia.
      * intros [-> Hpos].
        assert (Hk : status ∈ map fst counts) by (apply Hkeys; lia).
        apply list_elem_of_fmap in Hk. destruct Hk as ([k n'] & Heq & Hin).
        cbn [fst] in Heq. subst k.
        rewrite <- Hget, (counts_get_elem counts status n' 0 Hnd Hin). exact Hin.
    + unfold Server._generate_scan_summary. rewrite Hc, bind_ok.
      rewrite (scan_lines_spec counts _ Hstr), bind_ok.
      rewrite !append_assoc. reflexivity.
Qed.

Lemma scan_summary_text_witness :
  exists rest,
    Server._generate_scan_summary string (fun p => p) "jobs.xlsx"
      [ sample_app (PyStr "m1") (PyStr "offer");
        sample_app (PyStr "m2") (PyStr "rejection");
        sample_app (PyStr "m3") (PyStr "offer") ]
    = Ok ("Successfully processed 3" +:+ rest).
Proof.
  destruct (scan_summary_text string (fun p => p) "jobs.xlsx"
              [ sample_app (PyStr "m1") (PyStr "offer");
                sample_app (PyStr "m2") (PyStr "rejection");
                sample_app (PyStr "m3") (PyStr "offer") ])
    as (counts & _ & _ & Htext).
  - intros app Hin.
    repeat (apply elem_of_cons in Hin; destruct Hin as [->|Hin];
            [eexists; reflexivity|]).
    inversion Hin.
  - rewrite Htext. eexists. reflexivity.
Defined.
